(** * ledgerPy: a shallow embedding of the record store and the aggregator

    The development follows the Python sources:
    - [scripts/ledger.py]      ([Ledger]):    the per-month CSV store, the
      single-month report and the Markdown export with its weekly windows;
    - [scripts/ledger_pro.py]  ([LedgerPro]): multi-month aggregation and the
      month range;
    - [sync/ledger/scripts/api.py] ([Api]):   the REST variants and the
      middleware that blocks paths and limits the rate of requests;
    - [scripts/ledger.py], [main] ([LedgerMain]): the choice of the months
      by the [report] and [export] commands;
    - [main.py] ([Main]): the passwords of the reports, the authorised
      devices and the form that adds a record.

    Python strings are [string]s, one [ascii] per character.  The data
    directory is a finite map from the month key (the file stem) to the
    rows of that month's CSV file.  Amounts are Python floats; the
    embedding is generic in the arithmetic ([Amount]) and states the
    algebraic laws it needs separately ([AmountLaws]): exact numbers
    meet them, rounding floats do not.  A function that can raise
    returns an [option] or a result type with a case for the exception;
    a loop that the sources write with [while] takes fuel, and the
    caller passes enough of it.  Where pandas does more than the
    embedding follows (dates in other formats than YYYY-MM-DD, paths
    that leave the data directory) the result says so ([NotFollowed],
    [Unknown]), and where it reads a column of numerals as numbers the
    statements are made of columns of text ([plain_text]).  numpy's
    sort and matplotlib's pie chart are parameters with their contracts
    ([QuicksortSpec], [PyplotSpec]). *)

From Stdlib Require Import ZArith List Ascii String Sorted Permutation Lia Bool OrderedTypeEx.
From stdpp Require Import base option list gmap strings sorting.

Local Open Scope string_scope.
Local Open Scope list_scope.
Local Open Scope Z_scope.

(** ** Calendar: [datetime.date] and [pandas.Timestamp] at day resolution *)

Record date := Date { year : Z; month : Z; day : Z }.

Definition is_leap (y : Z) : bool :=
  (y mod 4 =? 0) && (negb (y mod 100 =? 0) || (y mod 400 =? 0)).

Definition days_in_month (y m : Z) : Z :=
  if m =? 2 then (if is_leap y then 29 else 28)
  else if (m =? 4) || (m =? 6) || (m =? 9) || (m =? 11) then 30
  else 31.

Definition MINYEAR : Z := 1.
Definition MAXYEAR : Z := 9999.

(** [datetime.date(y, m, d)]: [None] stands for the [ValueError] the
    constructor raises on a year, month or day out of range. *)
Definition datetime_date (y m d : Z) : option date :=
  if (MINYEAR <=? y) && (y <=? MAXYEAR) && (1 <=? m) && (m <=? 12)
     && (1 <=? d) && (d <=? days_in_month y m)
  then Some (Date y m d) else None.

(** Comparison of dates is lexicographic on (year, month, day). *)
Definition date_leb (a b : date) : bool :=
  (year a <? year b)
  || ((year a =? year b)
      && ((month a <? month b)
          || ((month a =? month b) && (day a <=? day b)))).

Definition date_ltb (a b : date) : bool := negb (date_leb b a).

Definition next_day (t : date) : date :=
  if day t <? days_in_month (year t) (month t)
  then Date (year t) (month t) (day t + 1)
  else if month t <? 12 then Date (year t) (month t + 1) 1
  else Date (year t + 1) 1 1.

Definition prev_day (t : date) : date :=
  if 1 <? day t then Date (year t) (month t) (day t - 1)
  else if 1 <? month t
       then Date (year t) (month t - 1) (days_in_month (year t) (month t - 1))
  else Date (year t - 1) 12 31.

(** [t + pd.DateOffset(days=n)] *)
Fixpoint add_days (n : nat) (t : date) : date :=
  match n with
  | O => t
  | S n' => add_days n' (next_day t)
  end.

(** [today + datetime.timedelta(days=-n)]; [None] is the [OverflowError]
    of a result before year 1. *)
Fixpoint sub_days (n : nat) (t : date) : option date :=
  match n with
  | O => Some t
  | S n' =>
      let p := prev_day t in
      if year p <? MINYEAR then None else sub_days n' p
  end.

(** [t.replace(day=1)] *)
Definition replace_day1 (t : date) : date := Date (year t) (month t) 1.

(** [t + pd.DateOffset(months=1)] for a first-of-month [t]. *)
Definition add_month (t : date) : date :=
  if month t <? 12 then Date (year t) (month t + 1) (day t)
  else Date (year t + 1) 1 (day t).

(** Python's [date.toordinal]: the days before the year, the days before
    the month, and the day. *)
Definition days_before_month (y m : Z) : Z :=
  fold_right Z.add 0 (map (days_in_month y) (map Z.of_nat (seq 1 (Z.to_nat (m - 1))))).

Definition days_before_year (y : Z) : Z :=
  let p := y - 1 in p * 365 + p / 4 - p / 100 + p / 400.

Definition toordinal (t : date) : Z :=
  days_before_year (year t) + days_before_month (year t) (month t) + day t.

(** ** Decimal fields *)

Definition digit_val (c : ascii) : option Z :=
  let n := Z.of_nat (nat_of_ascii c) in
  if (48 <=? n) && (n <=? 57) then Some (n - 48) else None.

Definition digit_char (n : Z) : ascii := ascii_of_nat (Z.to_nat (48 + n mod 10)).

Definition pad2 (n : Z) : string :=
  String (digit_char (n / 10)) (String (digit_char n) "").

Definition pad4 (n : Z) : string :=
  String (digit_char (n / 1000)) (String (digit_char (n / 100))
    (String (digit_char (n / 10)) (String (digit_char n) ""))).

(** [t.strftime("%Y-%m-%d")] and [t.strftime("%Y-%m")], the year written
    with four digits as the Python documentation has it. *)
Definition strftime_Ymd (t : date) : string :=
  pad4 (year t) +:+ "-" +:+ pad2 (month t) +:+ "-" +:+ pad2 (day t).

Definition strftime_Ym (t : date) : string :=
  pad4 (year t) +:+ "-" +:+ pad2 (month t).

(** ** [datetime.datetime.strptime(s, "%Y-%m-%d")]

    [_strptime] compiles the format to the regular expression
    [(?P<Y>\d\d\d\d)-(?P<m>1[0-2]|0[1-9]|[1-9])-(?P<d>3[01]|[12]\d|0[1-9]|[1-9]| [1-9])],
    matches it at the start of the string, refuses unconverted trailing
    data, and builds the date, which checks the ranges. *)

Definition in_range (lo hi : Z) (c : ascii) : option Z :=
  match digit_val c with
  | Some v => if (lo <=? v) && (v <=? hi) then Some v else None
  | None => None
  end.

(** The alternatives of the [%m] group that match a prefix of [s], in
    the order the regular expression tries them, each with the rest. *)
Definition month_alts (s : string) : list (Z * string) :=
  (match s with
   | String "1" (String c r) =>
       match in_range 0 2 c with Some v => [(10 + v, r)] | None => [] end
   | _ => []
   end)
  ++ (match s with
      | String "0" (String c r) =>
          match in_range 1 9 c with Some v => [(v, r)] | None => [] end
      | _ => []
      end)
  ++ (match s with
      | String c r =>
          match in_range 1 9 c with Some v => [(v, r)] | None => [] end
      | _ => []
      end).

(** The [%d] group is the last of the pattern: the first alternative
    that matches wins. *)
Definition day_alts (s : string) : list (Z * string) :=
  (match s with
   | String "3" (String c r) =>
       match in_range 0 1 c with Some v => [(30 + v, r)] | None => [] end
   | _ => []
   end)
  ++ (match s with
      | String c1 (String c2 r) =>
          match in_range 1 2 c1, digit_val c2 with
          | Some v1, Some v2 => [(10 * v1 + v2, r)]
          | _, _ => []
          end
      | _ => []
      end)
  ++ (match s with
      | String "0" (String c r) =>
          match in_range 1 9 c with Some v => [(v, r)] | None => [] end
      | _ => []
      end)
  ++ (match s with
      | String c r =>
          match in_range 1 9 c with Some v => [(v, r)] | None => [] end
      | _ => []
      end)
  ++ (match s with
      | String " " (String c r) =>
          match in_range 1 9 c with Some v => [(v, r)] | None => [] end
      | _ => []
      end).

Definition parse_year (s : string) : option (Z * string) :=
  match s with
  | String c1 (String c2 (String c3 (String c4 r))) =>
      match digit_val c1, digit_val c2, digit_val c3, digit_val c4 with
      | Some a, Some b, Some c, Some d =>
          Some (1000 * a + 100 * b + 10 * c + d, r)
      | _, _, _, _ => None
      end
  | _ => None
  end.

(** After the month: the dash, the day group, and what is left over. *)
Definition match_day (s : string) : option (Z * string) :=
  match s with
  | String "-" r => head (day_alts r)
  | _ => None
  end.

(** Backtracking over the month alternatives: the first one after which
    the remainder of the pattern matches. *)
Fixpoint match_month_day (alts : list (Z * string)) : option (Z * Z * string) :=
  match alts with
  | [] => None
  | (m, r) :: alts' =>
      match match_day r with
      | Some (d, rest) => Some (m, d, rest)
      | None => match_month_day alts'
      end
  end.

Definition strptime (s : string) : option date :=
  match parse_year s with
  | Some (y, String "-" r) =>
      match match_month_day (month_alts r) with
      | Some (m, d, "") => datetime_date y m d
      | _ => None     (* no match, or unconverted data remains *)
      end
  | _ => None
  end.

(** ** Amounts and sorting

    [Amount] is the arithmetic the code applies to the [amount] column
    (Python floats): [+], [-], the constant [0] and [<=].  [AmountLaws]
    are the laws of exact arithmetic; statements that depend on them say
    so. *)

Class Amount (A : Type) := {
  fzero : A;
  fadd : A → A → A;
  fsub : A → A → A;
  fle : A → A → bool;
}.

Class AmountLaws (A : Type) `{!Amount A} : Prop := {
  fadd_assoc : ∀ a b c : A, fadd a (fadd b c) = fadd (fadd a b) c;
  fadd_comm : ∀ a b : A, fadd a b = fadd b a;
  fadd_zero_l : ∀ a : A, fadd fzero a = a;
  fsub_zero : fsub (fzero : A) fzero = fzero;
  fle_total : ∀ a b : A, fle a b = true ∨ fle b a = true;
  fle_trans : ∀ a b c : A, fle a b = true → fle b c = true → fle a c = true;
}.

(** [sort_values] is called with its default [kind="quicksort"], which
    numpy documents as not stable.  The embedding takes the sorting
    routine as a parameter; [QuicksortSpec] is its contract: the result
    is a rearrangement of the input, in order. *)
Class Quicksort := quicksort : ∀ X : Type, (X → X → bool) → list X → list X.
Arguments quicksort {_ _} _ _.

Class QuicksortSpec `{!Quicksort} : Prop := {
  quicksort_perm : ∀ (X : Type) (le : X → X → bool) (l : list X),
      quicksort le l ≡ₚ l;
  quicksort_sorted : ∀ (X : Type) (le : X → X → bool) (l : list X),
      (∀ a b, le a b = true ∨ le b a = true) →
      (∀ a b c, le a b = true → le b c = true → le a c = true) →
      Sorted (λ a b, le a b = true) (quicksort le l);
}.

(** [plt.pie(x, ...)] raises [ValueError] when a wedge size is negative
    and draws sizes that are all positive.  The embedding takes as a
    parameter whether the call raises; [PyplotSpec] is that contract,
    which leaves open what becomes of sizes that hold a zero.  Amounts
    are taken to lie within the range of the 32-bit floats the sizes
    are converted to. *)
Class Pyplot (A : Type) := pie_raises : list A → bool.

Class PyplotSpec (A : Type) `{!Amount A} `{!Pyplot A} : Prop := {
  pie_negative : ∀ x : list A,
      Exists (λ v, fle fzero v = false) x → pie_raises x = true;
  pie_positive : ∀ x : list A,
      Forall (λ v, fle v fzero = false) x → pie_raises x = false;
}.

(** What a call that may raise does.  [NotFollowed] stands for a case
    the embedding does not follow: nothing is said of it. *)
Inductive attempt (T : Type) :=
| Returns (v : T)
| Raises
| NotFollowed.
Arguments Returns {T} _.
Arguments Raises {T}.
Arguments NotFollowed {T}.

(** A call on every element of a list: it is followed when it is on
    every element, and then raises when it does on one of them. *)
Fixpoint attempt_all {X Y : Type} (f : X → attempt Y) (l : list X) : attempt (list Y) :=
  match l with
  | [] => Returns []
  | x :: l' =>
      match f x, attempt_all f l' with
      | NotFollowed, _ | _, NotFollowed => NotFollowed
      | Raises, _ | _, Raises => Raises
      | Returns y, Returns ys => Returns (y :: ys)
      end
  end.

(** ** The pandas operations the sources use *)

(** One line of a month's CSV file below the header row
    [date,category,amount,type,note]. *)
Record csv_row (A : Type) := CsvRow {
  csv_date : string;
  csv_category : string;
  csv_amount : A;
  csv_type : string;
  csv_note : string;
}.
Arguments CsvRow {A} _ _ _ _ _.
Arguments csv_date {A} _.
Arguments csv_category {A} _.
Arguments csv_amount {A} _.
Arguments csv_type {A} _.
Arguments csv_note {A} _.

(** One row of a DataFrame.  A text cell is [None] when pandas holds the
    missing value NaN.  [D] is the type of the [date] cell: text as read
    from the file, a timestamp after [pd.to_datetime]. *)
Record row (D A : Type) := Row {
  r_date : D;
  r_category : option string;
  r_amount : A;
  r_type : option string;
  r_note : option string;
}.
Arguments Row {D A} _ _ _ _ _.
Arguments r_date {D A} _.
Arguments r_category {D A} _.
Arguments r_amount {D A} _.
Arguments r_type {D A} _.
Arguments r_note {D A} _.

Abbreviation store A := (gmap string (list (csv_row A))).
Abbreviation DataFrame A := (list (row (option string) A)).
Abbreviation Series A := (list (string * A)).

(** The strings [read_csv] takes for a missing value (pandas 2). *)
Definition STR_NA_VALUES : list string :=
  ["-1.#IND"; "1.#QNAN"; "1.#IND"; "-1.#QNAN"; "#N/A N/A"; "#N/A"; "N/A";
   "n/a"; "NA"; "<NA>"; "#NA"; "NULL"; "null"; "NaN"; "-NaN"; "nan"; "-nan";
   "None"; ""].

Definition na_filter (s : string) : option string :=
  if bool_decide (s ∈ STR_NA_VALUES) then None else Some s.

(** [to_csv] writes a missing value as the empty field ([na_rep='']). *)
Definition na_rep (c : option string) : string := default "" c.

Section pandas.
Context {A : Type} {Am : Amount A} {QS : Quicksort}.

(** [pd.read_csv(path)] and [df.to_csv(path, index=False)] on the lines
    of a file.  The quoting of fields is invisible at this level; what
    is visible is the default treatment of missing values: a text field
    among [STR_NA_VALUES] is read as NaN, and NaN is written as the
    empty field.  An amount is a number written by [to_csv] and read
    back as that number.  pandas infers the type of a column, and reads
    one that holds only numerals, or only truth values, as numbers or
    booleans: 007 comes back as 7.  The embedding keeps the text
    columns text, which is what pandas does with a column of words
    ([plain_text] below); statements on what is read back are made of
    such columns. *)
Definition read_csv (f : list (csv_row A)) : DataFrame A :=
  map (λ l, Row (na_filter (csv_date l)) (na_filter (csv_category l))
                (csv_amount l) (na_filter (csv_type l)) (na_filter (csv_note l))) f.

Definition to_csv (df : DataFrame A) : list (csv_row A) :=
  map (λ r, CsvRow (na_rep (r_date r)) (na_rep (r_category r))
                   (r_amount r) (na_rep (r_type r)) (na_rep (r_note r))) df.

(** [df[df["type"] == kind]] *)
Definition of_type {D} (kind : string) (df : list (row D A)) : list (row D A) :=
  filter (λ r, r_type r = Some kind) df.

(** [s.sum()] *)
Definition Series_sum (l : list A) : A := foldl fadd fzero l.

(** [df["amount"].sum()] *)
Definition amount_sum {D} (df : list (row D A)) : A := Series_sum (map r_amount df).

(** One more value for group [k] of a series kept in ascending key
    order. *)
Fixpoint group_add (k : string) (v : A) (s : Series A) : Series A :=
  match s with
  | [] => [(k, fadd fzero v)]
  | (k', v') :: s' =>
      match String.compare k k' with
      | Eq => (k', fadd v' v) :: s'
      | Lt => (k, fadd fzero v) :: s
      | Gt => (k', v') :: group_add k v s'
      end
  end.

(** [df.groupby("category")["amount"].sum()]: one entry per category,
    in ascending order of the categories; rows whose category is
    missing are dropped ([dropna=True]). *)
Definition groupby_category_sum {D} (df : list (row D A)) : Series A :=
  foldl (λ s r, match r_category r with
                | Some k => group_add k (r_amount r) s
                | None => s
                end) [] df.

(** [s.sort_values(ascending=False)] *)
Definition sort_values_desc (s : Series A) : Series A :=
  quicksort (λ x y, fle (snd y) (snd x)) s.

Definition values (s : Series A) : list A := map snd s.
End pandas.

(** The first and the last day a nanosecond [pd.Timestamp] can hold. *)
Definition Timestamp_min : date := Date 1677 9 22.
Definition Timestamp_max : date := Date 2262 4 11.

Definition Timestamp_holds (t : date) : bool :=
  date_leb Timestamp_min t && date_leb t Timestamp_max.

(** [pd.to_datetime] on one cell of the [date] column.  A missing value
    converts to NaT, which is [None].  A date written as [strftime]
    writes it, YYYY-MM-DD with two digits for the month and the day,
    converts to that day, or raises [OutOfBoundsDatetime] when no
    timestamp can hold it.  pandas converts text in many other formats,
    some with a time of day, and raises on the rest: that is not
    followed. *)
Definition to_datetime (c : option string) : attempt (option date) :=
  match c with
  | None => Returns None
  | Some s =>
      match strptime s with
      | Some t =>
          if String.eqb s (strftime_Ymd t) then
            if Timestamp_holds t then Returns (Some t) else Raises
          else NotFollowed
      | None => NotFollowed
      end
  end.

Definition set_date {D E A} (d : E) (r : row D A) : row E A :=
  Row d (r_category r) (r_amount r) (r_type r) (r_note r).

(** [df["date"] = pd.to_datetime(df["date"])] *)
Definition to_datetime_column {A} (df : DataFrame A) : attempt (list (row (option date) A)) :=
  attempt_all (λ r, match to_datetime (r_date r) with
                    | Returns d => Returns (set_date d r)
                    | Raises => Raises
                    | NotFollowed => NotFollowed
                    end) df.

(** The same conversion in [export_md], which goes on to draw the
    charts from the rows that have a date and then formats every date
    with [strftime], a call that raises on NaT: a frame with a missing
    date is not followed. *)
Definition to_timestamps {A} (df : DataFrame A) : attempt (list (row date A)) :=
  attempt_all (λ r, match to_datetime (r_date r) with
                    | Returns (Some t) => Returns (set_date t r)
                    | Returns None => NotFollowed
                    | Raises => Raises
                    | NotFollowed => NotFollowed
                    end) df.

(** [df["date"].min()] and [.max()] of a frame with at least one row. *)
Definition date_min (a b : date) : date := if date_leb a b then a else b.
Definition date_max (a b : date) : date := if date_leb a b then b else a.

Definition min_date (t : date) (l : list date) : date := foldl date_min t l.
Definition max_date (t : date) (l : list date) : date := foldl date_max t l.

(** Python's [sorted] on a list of strings. *)
Definition str_le (a b : string) : Prop := String.leb a b = true.

#[global] Instance str_le_dec : RelDecision str_le :=
  λ a b, decide (String.leb a b = true).

Definition sorted (l : list string) : list string := merge_sort str_le l.

(** ** Python strings *)

(** [sub in s] *)
Fixpoint contains (sub s : string) : bool :=
  String.prefix sub s
  || match s with
     | "" => false
     | String _ s' => contains sub s'
     end.

(** [s.split(sep)] for a separator of one character: [cur] is the piece
    being read. *)
Fixpoint split_from (sep : ascii) (cur s : string) : list string :=
  match s with
  | "" => [cur]
  | String c s' =>
      if Ascii.eqb c sep then cur :: split_from sep "" s'
      else split_from sep (cur +:+ String c "") s'
  end.

Definition split (sep : ascii) (s : string) : list string := split_from sep "" s.

(** [s[n:]] *)
Fixpoint slice_from (n : nat) (s : string) : string :=
  match n, s with
  | O, _ => s
  | S n', String _ s' => slice_from n' s'
  | S _, "" => ""
  end.

(** The truth value of a string that may be [None]. *)
Definition truthy (s : option string) : bool :=
  match s with
  | Some (String _ _) => true
  | _ => false
  end.

(** ** scripts/ledger.py *)

Module Ledger.

(** A chart file written to the reports directory, named by the month
    and, for a weekly pie, the week number. *)
Inductive chart :=
| WeekPie (month : string) (week_num : nat)   (* {month}_week{N}_pie.png *)
| Pie (month : string)                        (* {month}_pie.png *)
| Line (month : string)                       (* {month}_line.png *)
| DailyLine (month : string).                 (* {month}_daily_line.png *)

Record week_section (A : Type) := WeekSection {
  week_num : nat;
  current_week_start : date;
  current_week_end : date;
  weekly_expense_summary : Series A;
  weekly_total : A;
  weekly_pie_path : chart;
}.
Arguments WeekSection {A} _ _ _ _ _ _.
Arguments week_num {A} _.
Arguments current_week_start {A} _.
Arguments current_week_end {A} _.
Arguments weekly_expense_summary {A} _.
Arguments weekly_total {A} _.
Arguments weekly_pie_path {A} _.

(** What [generate_report] prints. *)
Record report (A : Type) := Report {
  income : A;
  expense : A;
  net : A;
  summary : Series A;
}.
Arguments Report {A} _ _ _ _.
Arguments income {A} _.
Arguments expense {A} _.
Arguments net {A} _.
Arguments summary {A} _.

(** What [export_md] writes: the Markdown document by its parts, and the
    charts. *)
Record month_report (A : Type) := MonthReport {
  weekly_expense_md : list (week_section A);
  listing : list (row date A);
  expense_summary : Series A;
  income_total : A;
  expense_total : A;
  net_total : A;
  pie_path : option chart;
  line_path : option chart;
  daily_line_path : option chart;
}.
Arguments MonthReport {A} _ _ _ _ _ _ _ _ _.
Arguments weekly_expense_md {A} _.
Arguments listing {A} _.
Arguments expense_summary {A} _.
Arguments income_total {A} _.
Arguments expense_total {A} _.
Arguments net_total {A} _.
Arguments pie_path {A} _.
Arguments line_path {A} _.
Arguments daily_line_path {A} _.

(** How [export_md] ends.  An exception leaves the charts saved before
    it in the reports directory, and no document. *)
Inductive export_result (A : Type) :=
| NoRecords                          (* the warning, and nothing written *)
| Raised (charts : list chart)       (* an exception, after these charts were saved *)
| Unknown                            (* a date column that is not followed *)
| Exported (r : month_report A).
Arguments NoRecords {A}.
Arguments Raised {A} _.
Arguments Unknown {A}.
Arguments Exported {A} _.

(** How the [add] command ends. *)
Inductive add_status := Added | DateFormatError | Overflow.

(** Where [DATA_DIR / f"{month}.csv"] lies, for POSIX paths and a data
    directory that holds the files of the months and no directory. *)
Inductive place :=
| InDataDir          (* a file of the data directory *)
| NoSuchDirectory    (* below a directory that does not exist, or no
                        path at all: writing the file raises *)
| OtherPath.         (* a path through the root, [.] or [..]: not followed *)

Definition csv_place (month : string) : place :=
  if contains (String Ascii.zero "") month then NoSuchDirectory
  else
    match split "/" month with
    | [] | [_] => InDataDir
    | first :: _ =>
        if bool_decide (first ∈ [""; "."; ".."]) then OtherPath else NoSuchDirectory
    end.

Section ledger.
Context {A : Type} {Am : Amount A} {QS : Quicksort} {PP : Pyplot A}.

(** The file of a month, [DATA_DIR / f"{month}.csv"], is the key of the
    month in the store. *)
Definition get_csv_path (month : string) : string := month.

(** A month without a file gets one that holds the header row only. *)
Definition ensure_csv (month : string) (fs : store A) : store A :=
  match fs !! get_csv_path month with
  | Some _ => fs
  | None => <[get_csv_path month := to_csv []]> fs
  end.

(** The month is [date[:7]]; the file is read, the new row put after its
    rows, and the whole written back.  [float(amount)] of an amount that
    is a float already is that amount.  This is the call for a month
    whose file is one of the data directory ([csv_place]); for another
    month [to_csv] raises or writes elsewhere, see
    [Main.route_add_record]. *)
Definition add_record (date category : string) (amount : A)
    (record_type note : string) (fs : store A) : store A :=
  let month := substring 0 7 date in
  let fs := ensure_csv month fs in
  let path := get_csv_path month in
  let df := read_csv (fs !!! path) in
  let new_record := [Row (Some date) (Some category) amount (Some record_type) (Some note)] in
  let df := df ++ new_record in
  <[path := to_csv df]> fs.

(** [None] when the month has no row: the warning is printed and nothing
    else. *)
Definition generate_report (month : string) (fs : store A) : store A * option (report A) :=
  let fs := ensure_csv month fs in
  let df := read_csv (fs !!! get_csv_path month) in
  match df with
  | [] => (fs, None)
  | _ :: _ =>
      let income := amount_sum (of_type "income" df) in
      let expense := amount_sum (of_type "expense" df) in
      let net := fsub income expense in
      let summary := sort_values_desc (groupby_category_sum (of_type "expense" df)) in
      (fs, Some (Report income expense net summary))
  end.

(** [daily_expense]: the expense per day, [groupby("date")] then
    [sort_index]; only its emptiness decides anything. *)
Fixpoint day_add (t : date) (v : A) (s : list (date * A)) : list (date * A) :=
  match s with
  | [] => [(t, fadd fzero v)]
  | (t', v') :: s' =>
      if date_leb t t' then
        if date_leb t' t then (t', fadd v' v) :: s' else (t, fadd fzero v) :: s
      else (t', v') :: day_add t v s'
  end.

Definition groupby_date_sum (df : list (row date A)) : list (date * A) :=
  foldl (λ s r, day_add (r_date r) (r_amount r) s) [] df.

(** The expense rows of a week:
    [df[(df["date"] >= current_week_start) & (df["date"] <= current_week_end)
        & (df["type"] == "expense")]]. *)
Definition weekly_df (df : list (row date A)) (current_week_start current_week_end : date)
    : list (row date A) :=
  filter (λ r, date_leb current_week_start (r_date r) = true
               ∧ date_leb (r_date r) current_week_end = true
               ∧ r_type r = Some "expense") df.

(** What a week adds to the document: its section and pie chart, or
    nothing when the week has no expense with a category. *)
Definition week_md (month : string) (df : list (row date A)) (week_num : nat)
    (current_week_start current_week_end : date) : list (week_section A) :=
  let weekly_expense_summary :=
    sort_values_desc
      (groupby_category_sum (weekly_df df current_week_start current_week_end)) in
  match weekly_expense_summary with
  | [] => []
  | _ :: _ =>
      [WeekSection week_num current_week_start current_week_end
         weekly_expense_summary (Series_sum (values weekly_expense_summary))
         (WeekPie month week_num)]
  end.

(** [while current_week_start <= end_of_month]; [None] only when [fuel]
    runs out. *)
Fixpoint week_loop (fuel : nat) (month : string) (df : list (row date A))
    (end_of_month : date) (week_num : nat) (current_week_start : date)
    (weekly_expense_md : list (week_section A)) : option (list (week_section A)) :=
  match fuel with
  | O => None
  | S fuel' =>
      if date_leb current_week_start end_of_month then
        let current_week_end := add_days 6 current_week_start in
        let current_week_end :=
          if date_ltb end_of_month current_week_end then end_of_month
          else current_week_end in
        let weekly_expense_md :=
          weekly_expense_md
          ++ week_md month df week_num current_week_start current_week_end in
        week_loop fuel' month df end_of_month (S week_num)
          (add_days 1 current_week_end) weekly_expense_md
      else Some weekly_expense_md
  end.

(** The pie chart of a week is drawn in the turn of the loop that adds
    the week's section.  When one of these calls of [plt.pie] raises,
    the charts of the weeks before it have been saved: [Some] of them.
    [None] when every pie of the weeks is drawn. *)
Fixpoint weekly_pie_raises (weekly_expense_md : list (week_section A)) : option (list chart) :=
  match weekly_expense_md with
  | [] => None
  | w :: weekly_expense_md' =>
      if pie_raises (values (weekly_expense_summary w)) then Some []
      else (λ charts, weekly_pie_path w :: charts) <$> weekly_pie_raises weekly_expense_md'
  end.

(** [export_md] from the end of the weekly loop on: the pie chart of the
    month, the two line charts and the document. *)
Definition month_charts_and_md (month : string) (df : list (row date A))
    (weekly_expense_md : list (week_section A)) : export_result A :=
  match weekly_pie_raises weekly_expense_md with
  | Some charts => Raised charts
  | None =>
      let expense_summary := groupby_category_sum (of_type "expense" df) in
      if match expense_summary with
         | [] => false
         | _ :: _ => pie_raises (values expense_summary)
         end
      then Raised (map weekly_pie_path weekly_expense_md)
      else
        let pie_path :=
          match expense_summary with [] => None | _ :: _ => Some (Pie month) end in
        let df_expense := of_type "expense" df in
        let daily_expense := groupby_date_sum df_expense in
        let line_path :=
          match df_expense, daily_expense with
          | _ :: _, _ :: _ => Some (Line month)
          | _, _ => None
          end in
        let daily_line_path :=
          match df_expense, daily_expense with
          | _ :: _, _ :: _ => Some (DailyLine month)
          | _, _ => None
          end in
        let income_total := amount_sum (of_type "income" df) in
        let expense_total := amount_sum (of_type "expense" df) in
        let net_total := fsub income_total expense_total in
        Exported (MonthReport weekly_expense_md df expense_summary
                    income_total expense_total net_total
                    pie_path line_path daily_line_path)
  end.

(** [min().replace(day=1)] and [max().replace(day=1) + DateOffset(months=1)]
    raise [OutOfBoundsDatetime] when no timestamp can hold the first of
    the first month, or the first of the month after the last: in
    September 1677 and in April 2262.  Between them every date of the
    loop is one a timestamp holds.  The fuel of the weekly loop is the
    number of days from [start_of_month] to [end_of_month] and two more:
    every turn moves the start of the week on by a day at least, and
    the loop never uses it up ([week_loop_terminates]). *)
Definition export_md (month : string) (fs : store A) : store A * export_result A :=
  let fs := ensure_csv month fs in
  let df := read_csv (fs !!! get_csv_path month) in
  match df with
  | [] => (fs, NoRecords)
  | _ :: _ =>
      match to_timestamps df with
      | NotFollowed => (fs, Unknown)
      | Raises | Returns [] => (fs, Raised [])
      | Returns ((r0 :: _) as df) =>
          let dates := map r_date df in
          let start_of_month := replace_day1 (min_date (r_date r0) dates) in
          let next_month := add_month (replace_day1 (max_date (r_date r0) dates)) in
          if Timestamp_holds start_of_month && Timestamp_holds next_month then
            let end_of_month := prev_day next_month in
            let end_of_month := date_min end_of_month (max_date (r_date r0) dates) in
            let fuel :=
              S (S (Z.to_nat (toordinal end_of_month - toordinal start_of_month))) in
            match week_loop fuel month df end_of_month 1 start_of_month [] with
            | None => (fs, Unknown)
            | Some weekly_expense_md =>
                (fs, month_charts_and_md month df weekly_expense_md)
            end
          else (fs, Raised [])
      end
  end.

(** The chart files a call of [export_md] that is followed leaves
    behind. *)
Definition charts_generated (r : export_result A) : list chart :=
  match r with
  | Exported r =>
      map weekly_pie_path (weekly_expense_md r)
      ++ option_list (pie_path r) ++ option_list (line_path r)
      ++ option_list (daily_line_path r)
  | Raised charts => charts
  | NoRecords | Unknown => []
  end.

(** The [add] branch of [main]: [today] is [datetime.date.today()], the
    amount has been converted by argparse ([type=float]). *)
Definition main_add (today : date) (date_str category : string) (amount : A)
    (type note : string) (fs : store A) : store A * add_status :=
  if bool_decide (date_str = "1") then
    (add_record (strftime_Ymd today) category amount type note fs, Added)
  else if bool_decide (date_str ∈ ["-1"; "-2"; "-3"]) then
    let delta := if bool_decide (date_str = "-1") then 1%nat
                 else if bool_decide (date_str = "-2") then 2%nat else 3%nat in
    match sub_days delta today with
    | Some d => (add_record (strftime_Ymd d) category amount type note fs, Added)
    | None => (fs, Overflow)
    end
  else
    match strptime date_str with
    | None => (fs, DateFormatError)
    | Some _ => (add_record date_str category amount type note fs, Added)
    end.

(** [list_categories]: the set [categories] after the loop over the
    files of the data directory, which adds the categories of each file,
    the missing ones dropped. *)
Definition categories (fs : store A) : gset string :=
  map_fold (λ _ f categories,
              categories ∪ list_to_set (omap r_category (read_csv f))) ∅ fs.

(** What [list_categories] prints after its heading, [sorted(categories)]
    line by line; the empty list stands for the warning that no category
    was found. *)
Definition list_categories (fs : store A) : list string :=
  sorted (elements (categories fs)).

End ledger.
End Ledger.

(** ** scripts/ledger_pro.py *)

Module LedgerPro.

(** One entry of [monthly_summary_data]. *)
Record monthly_summary (A : Type) := MonthlySummary {
  ms_month : string;
  ms_income : A;
  ms_expense : A;
  ms_net : A;
}.
Arguments MonthlySummary {A} _ _ _ _.
Arguments ms_month {A} _.
Arguments ms_income {A} _.
Arguments ms_expense {A} _.
Arguments ms_net {A} _.

(** What the loop of [generate_multi_month_report] prints for a month. *)
Record month_print (A : Type) := MonthPrint {
  mp_month : string;
  mp_income : A;
  mp_expense : A;
  mp_net : A;
  mp_expense_summary : Series A;
  mp_income_summary : Series A;
}.
Arguments MonthPrint {A} _ _ _ _ _ _.
Arguments mp_month {A} _.
Arguments mp_income {A} _.
Arguments mp_expense {A} _.
Arguments mp_net {A} _.
Arguments mp_expense_summary {A} _.
Arguments mp_income_summary {A} _.

(** The variables [generate_multi_month_report] carries through its loop
    and prints at the end, with what it printed on the way; it returns
    [monthly_summary_data]. *)
Record multi_report (A : Type) := MultiReport {
  total_income_all_months : A;
  total_expense_all_months : A;
  all_income_categories : gmap string A;
  all_expense_categories : gmap string A;
  monthly_summary_data : list (monthly_summary A);
  printed : list (month_print A);
}.
Arguments MultiReport {A} _ _ _ _ _ _.
Arguments printed {A} _.
Arguments total_income_all_months {A} _.
Arguments total_expense_all_months {A} _.
Arguments all_income_categories {A} _.
Arguments all_expense_categories {A} _.
Arguments monthly_summary_data {A} _.

Inductive chart :=
| MonthPie (month pre : string)     (* {month}_{prefix}_pie.png *)
| MonthLine (month pre : string).   (* {month}_{prefix}_line.png *)

(** One month's part of the exported document. *)
Record month_section (A : Type) := MonthSection {
  sec_month : string;
  sec_rows : DataFrame A;
  sec_income : A;
  sec_expense : A;
  sec_net : A;
  sec_expense_summary : Series A;
  sec_income_summary : Series A;
  sec_charts : list chart;
}.
Arguments MonthSection {A} _ _ _ _ _ _ _ _.
Arguments sec_month {A} _.
Arguments sec_rows {A} _.
Arguments sec_income {A} _.
Arguments sec_expense {A} _.
Arguments sec_net {A} _.
Arguments sec_expense_summary {A} _.
Arguments sec_income_summary {A} _.
Arguments sec_charts {A} _.

(** The state of the loop of [export_multi_month_md]. *)
Record export_state (A : Type) := ExportState {
  md_sections : list (month_section A);
  all_dfs : list (DataFrame A);
  total_income_categories : gmap string A;
  total_expense_categories : gmap string A;
}.
Arguments ExportState {A} _ _ _ _.
Arguments md_sections {A} _.
Arguments all_dfs {A} _.
Arguments total_income_categories {A} _.
Arguments total_expense_categories {A} _.

Inductive export_result (A : Type) :=
| Raised                       (* an exception left the function *)
| NoData                       (* "no data", nothing written *)
| Unknown                      (* a date column that is not followed *)
| Exported (output_filename_prefix : string) (st : export_state A)
    (income_table expense_table : Series A).
Arguments Raised {A}.
Arguments NoData {A}.
Arguments Unknown {A}.
Arguments Exported {A} _ _ _ _.

(** What a call that may raise [ValueError] does. *)
Inductive outcome (T : Type) :=
| Returned (v : T)
| ValueError.
Arguments Returned {T} _.
Arguments ValueError {T}.

Section ledger_pro.
Context {A : Type} {Am : Amount A} {QS : Quicksort} {PP : Pyplot A}.

Definition get_monthly_data (month : string) (fs : store A) : DataFrame A :=
  match fs !! Ledger.get_csv_path month with
  | Some f => read_csv f
  | None => []
  end.

Definition calculate_monthly_summary {D} (df_month : list (row D A)) : A * A * A :=
  let income := amount_sum (of_type "income" df_month) in
  let expense := amount_sum (of_type "expense" df_month) in
  let net := fsub income expense in
  (income, expense, net).

(** [a.add(b, fill_value=0)]: the labels of both series; where only one
    has the label the other counts as 0. *)
Definition series_add_fill (a : gmap string A) (b : Series A) : gmap string A :=
  merge (λ x y, match x, y with
                | Some u, Some v => Some (fadd u v)
                | Some u, None => Some (fadd u fzero)
                | None, Some v => Some (fadd fzero v)
                | None, None => None
                end) a (list_to_map b).

(** [df.sort_values(by="date", ascending=True)]: NaT goes last. *)
Definition sort_values_by_date (df : list (row (option date) A)) : list (row (option date) A) :=
  quicksort (λ x y, match r_date x, r_date y with
                    | Some a, Some b => date_leb a b
                    | _, _ => true
                    end) (filter (λ r, is_Some (r_date r)) df)
  ++ filter (λ r, r_date r = None) df.

(** [for month in sorted(months)] of [generate_multi_month_report];
    [None] when [pd.to_datetime] raises or is not followed. *)
Fixpoint report_loop (months : list string) (fs : store A) (st : multi_report A)
    : option (multi_report A) :=
  match months with
  | [] => Some st
  | month :: months' =>
      match get_monthly_data month fs with
      | [] => report_loop months' fs st            (* continue *)
      | (_ :: _) as df_month =>
          match to_datetime_column df_month with
          | Raises | NotFollowed => None
          | Returns df_month =>
              let df_month := sort_values_by_date df_month in
              let '(income, expense, net) := calculate_monthly_summary df_month in
              let expense_summary :=
                sort_values_desc (groupby_category_sum (of_type "expense" df_month)) in
              let income_summary :=
                sort_values_desc (groupby_category_sum (of_type "income" df_month)) in
              report_loop months' fs
                (MultiReport
                   (fadd (total_income_all_months st) income)
                   (fadd (total_expense_all_months st) expense)
                   (match income_summary with
                    | [] => all_income_categories st
                    | _ :: _ => series_add_fill (all_income_categories st) income_summary
                    end)
                   (match expense_summary with
                    | [] => all_expense_categories st
                    | _ :: _ => series_add_fill (all_expense_categories st) expense_summary
                    end)
                   (monthly_summary_data st ++ [MonthlySummary month income expense net])
                   (printed st ++
                      [MonthPrint month income expense net expense_summary income_summary]))
          end
      end
  end.

Definition generate_multi_month_report (months : list string) (fs : store A)
    : option (multi_report A) :=
  report_loop (sorted months) fs (MultiReport fzero fzero ∅ ∅ [] []).

(** [plt.pie(expense_summary, ...)], called for a summary that is not
    empty. *)
Definition month_pie_raises (expense_summary : Series A) : bool :=
  match expense_summary with
  | [] => false
  | _ :: _ => pie_raises (values expense_summary)
  end.

(** [for month in sorted(months)] of [export_multi_month_md]: the pie
    chart of a month is drawn before its dates are converted. *)
Fixpoint export_loop (pre : string) (months : list string) (fs : store A)
    (st : export_state A) : attempt (export_state A) :=
  match months with
  | [] => Returns st
  | month :: months' =>
      match get_monthly_data month fs with
      | [] => export_loop pre months' fs st         (* continue *)
      | (_ :: _) as df_month =>
          let '(income, expense, net) := calculate_monthly_summary df_month in
          let expense_summary :=
            sort_values_desc (groupby_category_sum (of_type "expense" df_month)) in
          let income_summary :=
            sort_values_desc (groupby_category_sum (of_type "income" df_month)) in
          let pie := match expense_summary with
                     | [] => []
                     | _ :: _ => [MonthPie month pre]
                     end in
          if month_pie_raises expense_summary then Raises else
          match to_datetime_column df_month with
          | Raises => Raises
          | NotFollowed => NotFollowed
          | Returns df_dated =>
              let df_month_expense := sort_values_by_date (of_type "expense" df_dated) in
              let line := match filter (λ r, is_Some (r_date r)) df_month_expense with
                          | [] => []
                          | _ :: _ => [MonthLine month pre]
                          end in
              export_loop pre months' fs
                (ExportState
                   (md_sections st ++
                      [MonthSection month df_month income expense net
                         expense_summary income_summary (pie ++ line)])
                   (all_dfs st ++ [df_month])
                   (match income_summary with
                    | [] => total_income_categories st
                    | _ :: _ => series_add_fill (total_income_categories st) income_summary
                    end)
                   (match expense_summary with
                    | [] => total_expense_categories st
                    | _ :: _ => series_add_fill (total_expense_categories st) expense_summary
                    end))
          end
      end
  end.

(** The name of the document; [None] is the [IndexError] of [months[0]]
    on an empty list. *)
Definition output_filename_prefix (months : list string) (year : option string)
    : option string :=
  match year with
  | Some (String c y) => Some (String c y +:+ "_annual")
  | _ =>
      match months with
      | [] => None
      | [m] => Some m
      | m0 :: _ => Some (m0 +:+ "_to_" +:+ List.last months "")
      end
  end.

(** [export_multi_month_md], up to the category tables of the summary;
    the charts drawn after them are not part of the embedding. *)
Definition export_multi_month_md (months : list string) (year : option string)
    (fs : store A) : export_result A :=
  match output_filename_prefix months year with
  | None => Raised
  | Some pre =>
      match export_loop pre (sorted months) fs (ExportState [] [] ∅ ∅) with
      | Raises => Raised
      | NotFollowed => Unknown
      | Returns st =>
          match all_dfs st with
          | [] => NoData
          | _ :: _ =>
              Exported pre st
                (sort_values_desc (map_to_list (total_income_categories st)))
                (sort_values_desc (map_to_list (total_expense_categories st)))
          end
      end
  end.

(** Python's [int] on an unsigned decimal numeral, the only form a
    YYYY-MM string has; [None] is its [ValueError]. *)
Fixpoint int_digits (acc : Z) (s : string) : option Z :=
  match s with
  | "" => Some acc
  | String c s' =>
      match digit_val c with
      | Some v => int_digits (10 * acc + v) s'
      | None => None
      end
  end.

Definition int (s : string) : option Z :=
  match s with
  | "" => None
  | _ => int_digits 0 s
  end.

(** [s.split('-')] *)
Fixpoint split_dash (cur : string) (s : string) : list string :=
  match s with
  | "" => [cur]
  | String c s' =>
      if Ascii.eqb c "-" then cur :: split_dash "" s'
      else split_dash (cur +:+ String c "") s'
  end.

(** [y, m = map(int, s.split('-'))] *)
Definition parse_year_month (s : string) : option (Z * Z) :=
  match split_dash "" s with
  | [a; b] =>
      match int a, int b with
      | Some y, Some m => Some (y, m)
      | _, _ => None
      end
  | _ => None
  end.

(** [while current_date <= datetime.date(end_year, end_month, 1)];
    [None] only when [fuel] runs out. *)
Fixpoint months_loop (fuel : nat) (current_date end_date : date) (months : list string)
    : option (outcome (list string)) :=
  match fuel with
  | O => None
  | S fuel' =>
      if date_leb current_date end_date then
        let months := months ++ [strftime_Ym current_date] in
        if month current_date =? 12 then
          match datetime_date (year current_date + 1) 1 1 with
          | Some d => months_loop fuel' d end_date months
          | None => Some ValueError
          end
        else
          match datetime_date (year current_date) (month current_date + 1) 1 with
          | Some d => months_loop fuel' d end_date months
          | None => Some ValueError
          end
      else Some (Returned months)
  end.

(** The loop runs once per month of the range; the fuel is one more. *)
Definition range_fuel (current_date end_date : date) : nat :=
  S (Z.to_nat (12 * (year end_date - year current_date)
               + (month end_date - month current_date) + 1)).

Definition get_months_in_range (start_month_str end_month_str : string)
    : option (outcome (list string)) :=
  match parse_year_month start_month_str, parse_year_month end_month_str with
  | Some (start_year, start_month), Some (end_year, end_month) =>
      match datetime_date start_year start_month 1 with
      | None => Some ValueError
      | Some current_date =>
          match datetime_date end_year end_month 1 with
          | None => Some ValueError
          | Some end_date =>
              months_loop (range_fuel current_date end_date) current_date end_date []
          end
      end
  | _, _ => Some ValueError
  end.

(** [f"{year_str}-{month_num:02d}"] for [month_num] in [range(1, 13)];
    the year is not looked at. *)
Definition get_months_in_year (year_str : string) : list string :=
  map (λ month_num, year_str +:+ "-" +:+ pad2 month_num) (seqZ 1 12).

End ledger_pro.
End LedgerPro.

(** ** scripts/ledger.py: the [report] and [export] branches of [main] *)

Module LedgerMain.

(** The arguments argparse hands over: the positional [month], and the
    options [--months] (one or more), [--range] (two) and [--year]. *)
Record args := Args {
  arg_month : option string;
  arg_months : option (list string);
  arg_range : option (string * string);
  arg_year : option string;
}.

(** Whether [from . import ledger_pro] succeeded when the module was
    loaded.  It does when the module is run within its package,
    [python -m scripts.ledger ...]; it raises an [ImportError] when the
    file is run as a script, [python ledger.py ...], and the module then
    works with [MockLedgerPro()] in the place of [ledger_pro]: its
    [get_months_in_range] and [get_months_in_year] raise
    [NotImplementedError], its two report functions print that
    ledger_pro.py is not available. *)
Class LedgerProImport := ledger_pro_imported : bool.

(** How the choice of the months ends. *)
Inductive selection :=
| Selected (months_to_process : list string) (year_to_process : option string)
| NotAvailable           (* [NotImplementedError]: the message that ledger_pro.py
                            is not available, and return *)
| RangeFormatError       (* the message about the format of the range, and return *)
| OverflowError          (* [date - timedelta] before year 1, not caught *)
| OutOfFuel.

(** How the command ends: with the single-month function, with the one
    for several months, or with a message. *)
Inductive outcome (S M : Type) :=
| SingleMonth (out : S)
| MultiMonth (out : M)
| Unavailable            (* the message that ledger_pro.py is not available *)
| FormatError
| NoMonths               (* the warning that no month was given *)
| Uncaught
| Unfinished.
Arguments SingleMonth {S M} _.
Arguments MultiMonth {S M} _.
Arguments Unavailable {S M}.
Arguments FormatError {S M}.
Arguments NoMonths {S M}.
Arguments Uncaught {S M}.
Arguments Unfinished {S M}.

(** [args.months or args.range or args.year] *)
Definition options_given (a : args) : bool :=
  match arg_months a with Some (_ :: _) => true | _ => false end
  || match arg_range a with Some _ => true | None => false end
  || truthy (arg_year a).

(** [(today.replace(day=1) - timedelta(days=1)).strftime("%Y-%m")] *)
Definition last_month (today : date) : option string :=
  strftime_Ym <$> sub_days 1 (replace_day1 today).

(** The chain of [if]s that fills [months_to_process]; it is the same in
    both branches, the [export] branch also keeps the year. *)
Definition months_to_process `{!LedgerProImport} (today : date) (a : args) : selection :=
  match arg_months a with
  | Some ((_ :: _) as months) => Selected (sorted months) None
  | _ =>
      match arg_range a with
      | Some (start_month, end_month) =>
          if ledger_pro_imported then
            match LedgerPro.get_months_in_range start_month end_month with
            | Some (LedgerPro.Returned months) => Selected months None
            | Some LedgerPro.ValueError => RangeFormatError
            | None => OutOfFuel
            end
          else NotAvailable
      | None =>
          match arg_year a with
          | Some ((String _ _) as year) =>
              if ledger_pro_imported
              then Selected (LedgerPro.get_months_in_year year) (Some year)
              else NotAvailable
          | _ =>
              match arg_month a with
              | Some ((String _ _) as month) =>
                  if bool_decide (month = "-1") then
                    match last_month today with
                    | Some month => Selected [month] None
                    | None => OverflowError
                    end
                  else Selected [month] None
              | _ => Selected [strftime_Ym today] None
              end
          end
      end
  end.

Section ledger_main.
Context {A : Type} {Am : Amount A} {QS : Quicksort} {PP : Pyplot A}.
Context {LPI : LedgerProImport}.

(** [ledger_pro.generate_multi_month_report(months_to_process)] and
    [ledger_pro.export_multi_month_md(months_to_process, year=...)]. *)
Definition multi_month_report (months : list string) (fs : store A)
    : outcome (store A * option (Ledger.report A)) (option (LedgerPro.multi_report A)) :=
  if ledger_pro_imported
  then MultiMonth (LedgerPro.generate_multi_month_report months fs)
  else Unavailable.

Definition multi_month_export (months : list string) (year_to_process : option string)
    (fs : store A)
    : outcome (store A * Ledger.export_result A) (LedgerPro.export_result A) :=
  if ledger_pro_imported
  then MultiMonth (LedgerPro.export_multi_month_md months year_to_process fs)
  else Unavailable.

Definition main_report (today : date) (a : args) (fs : store A)
    : outcome (store A * option (Ledger.report A)) (option (LedgerPro.multi_report A)) :=
  match months_to_process today a with
  | Selected months _ =>
      match months with
      | [] => NoMonths
      | [month] =>
          if options_given a
          then multi_month_report months fs
          else SingleMonth (Ledger.generate_report month fs)
      | _ => multi_month_report months fs
      end
  | NotAvailable => Unavailable
  | RangeFormatError => FormatError
  | OverflowError => Uncaught
  | OutOfFuel => Unfinished
  end.

Definition main_export (today : date) (a : args) (fs : store A)
    : outcome (store A * Ledger.export_result A) (LedgerPro.export_result A) :=
  match months_to_process today a with
  | Selected months year_to_process =>
      match months with
      | [] => NoMonths
      | [month] =>
          if options_given a
          then multi_month_export months year_to_process fs
          else SingleMonth (Ledger.export_md month fs)
      | _ => multi_month_export months year_to_process fs
      end
  | NotAvailable => Unavailable
  | RangeFormatError => FormatError
  | OverflowError => Uncaught
  | OutOfFuel => Unfinished
  end.

End ledger_main.
End LedgerMain.

(** ** sync/ledger/scripts/api.py *)

Module Api.

(** The JSON object [generate_report] answers with. *)
Record report (A : Type) := Report {
  month : string;
  income : A;
  expense : A;
  net : A;
  summary : Series A;
}.
Arguments Report {A} _ _ _ _ _.
Arguments month {A} _.
Arguments income {A} _.
Arguments expense {A} _.
Arguments net {A} _.
Arguments summary {A} _.

(** The document [export_md] writes: the rows and the three totals. *)
Record document (A : Type) := Document {
  doc_rows : DataFrame A;
  doc_income : A;
  doc_expense : A;
  doc_net : A;
}.
Arguments Document {A} _ _ _ _.
Arguments doc_rows {A} _.
Arguments doc_income {A} _.
Arguments doc_expense {A} _.
Arguments doc_net {A} _.

Section api.
Context {A : Type} {Am : Amount A}.

Definition get_csv_path (month : string) : string := month.

Definition ensure_csv (month : string) (fs : store A) : store A :=
  match fs !! get_csv_path month with
  | Some _ => fs
  | None => <[get_csv_path month := to_csv []]> fs
  end.

(** The same steps as [Ledger.add_record], and as there for a month
    whose file is one of the data directory. *)
Definition add_record (date category : string) (amount : A)
    (type note : string) (fs : store A) : store A :=
  let month := substring 0 7 date in
  let fs := ensure_csv month fs in
  let path := get_csv_path month in
  let df := read_csv (fs !!! path) in
  let new_record := [Row (Some date) (Some category) amount (Some type) (Some note)] in
  let df := df ++ new_record in
  <[path := to_csv df]> fs.

Definition generate_report (month : string) (fs : store A) : store A * report A :=
  let fs := ensure_csv month fs in
  let df := read_csv (fs !!! get_csv_path month) in
  match df with
  | [] => (fs, Report month fzero fzero fzero [])
  | _ :: _ =>
      let income := amount_sum (of_type "income" df) in
      let expense := amount_sum (of_type "expense" df) in
      let net := fsub income expense in
      let summary := groupby_category_sum (of_type "expense" df) in
      (fs, Report month income expense net summary)
  end.

Definition export_md (month : string) (fs : store A) : store A * document A :=
  let fs := ensure_csv month fs in
  let df := read_csv (fs !!! get_csv_path month) in
  (fs, Document df
         (amount_sum (of_type "income" df))
         (amount_sum (of_type "expense" df))
         (fsub (amount_sum (of_type "income" df)) (amount_sum (of_type "expense" df)))).

End api.

(** The middleware [block_malicious_requests].  A [datetime] is the
    number of microseconds it counts; [access_log] is the
    [defaultdict(list)] of the module. *)
Definition BLOCKED_PATHS : list string :=
  ["/cgi-bin"; "/.env"; "/admin"; "/phpmyadmin"; "/PRI"].
Definition MAX_REQUESTS : nat := 10.
Definition WINDOW_SECONDS : Z := 60.

Definition timedelta (seconds : Z) : Z := seconds * 1000000.

Inductive response :=
| Forbidden           (* 403 *)
| TooManyRequests     (* 429 *)
| CallNext.           (* the request goes on to its route *)

Definition block_malicious_requests (ip path : string) (now : Z)
    (access_log : gmap string (list Z)) : gmap string (list Z) * response :=
  if existsb (λ blocked, contains blocked path) BLOCKED_PATHS then (access_log, Forbidden)
  else
    let recent := filter (λ t, now - timedelta WINDOW_SECONDS < t) (access_log !!! ip) in
    let access_log := <[ip := recent]> access_log in
    if decide (MAX_REQUESTS ≤ length recent)%nat then (access_log, TooManyRequests)
    else (<[ip := recent ++ [now]]> access_log, CallNext).

End Api.

(** ** main.py: the web routes *)

Module Main.

Inductive login_response :=
| NotFound             (* 404, no such report *)
| IndexError           (* [split('-')[1]] on a name without a dash, not caught *)
| Unauthorized         (* 401, the login page again *)
| ReportView.          (* the report *)

(** What the form routes answer: the redirect to the start page of a
    device that is not authorised, or the redirect to the manage page
    with a message of success or of failure. *)
Inductive form_response :=
| AccessDenied
| Succeeded
| Failed
| Undetermined.        (* a path or a date column that is not followed *)

(** [request.client.host not in AUTHORIZED_IPS] raises. *)
Definition verify_ip_authorization (host : string) (AUTHORIZED_IPS : gset string) : bool :=
  bool_decide (host ∈ AUTHORIZED_IPS).

Definition password_suffix (month_or_year : string) : option string :=
  if contains "_annual" month_or_year
  then Some (slice_from 2 (hd "" (split "_" month_or_year)))
  else split "-" month_or_year !! 1%nat.

Definition correct_password (month_or_year : string) : option string :=
  (λ password_suffix, "pwdtemp" +:+ password_suffix) <$> password_suffix month_or_year.

(** [REPORT_DIR] is the set of the names of the reports, each the stem
    of a Markdown file of the reports directory. *)
Definition route_process_report_login (host month_or_year password : string)
    (REPORT_DIR AUTHORIZED_IPS : gset string) : gset string * login_response :=
  if bool_decide (month_or_year ∈ REPORT_DIR) then
    match correct_password month_or_year with
    | None => (AUTHORIZED_IPS, IndexError)
    | Some correct_password =>
        if bool_decide (password ≠ correct_password) then (AUTHORIZED_IPS, Unauthorized)
        else ({[host]} ∪ AUTHORIZED_IPS, ReportView)
    end
  else (AUTHORIZED_IPS, NotFound).

Section main.
Context {A : Type} {Am : Amount A} {QS : Quicksort} {PP : Pyplot A}.


(** [route_add_record]: the record is added, then the report of its
    month exported; an exception of either turns the message into the
    one of failure.  [add_record] raises, and stores nothing, when the
    file of the month cannot be written ([Ledger.csv_place]); an
    exception of [export_md] comes after the record is stored. *)
Definition route_add_record (host : string) (AUTHORIZED_IPS : gset string)
    (date category : string) (amount : A) (type note : string) (fs : store A)
    : store A * form_response :=
  if verify_ip_authorization host AUTHORIZED_IPS then
    let month := substring 0 7 date in
    match Ledger.csv_place month with
    | Ledger.NoSuchDirectory => (fs, Failed)
    | Ledger.OtherPath => (fs, Undetermined)
    | Ledger.InDataDir =>
        let fs := Ledger.add_record date category amount type note fs in
        match Ledger.export_md month fs with
        | (fs, Ledger.Raised _) => (fs, Failed)
        | (fs, Ledger.Unknown) => (fs, Undetermined)
        | (fs, _) => (fs, Succeeded)
        end
    end
  else (fs, AccessDenied).

End main.
End Main.

(** ** Instances

    Exact integer amounts, a sorting routine that meets the contract of
    [quicksort], and pie charts that meet the one of [plt.pie]. *)

#[global] Instance Z_amount : Amount Z :=
  {| fzero := 0; fadd := Z.add; fsub := Z.sub; fle := Z.leb |}.

Definition holds {X : Type} (le : X → X → bool) : relation X := λ a b, le a b = true.

#[global] Instance holds_dec {X : Type} (le : X → X → bool) : RelDecision (holds le) :=
  λ a b, decide (le a b = true).

Definition merge_quicksort : Quicksort :=
  λ X le l, merge_sort (holds le) l.

(** Pie charts of integer amounts: the call raises when a size is
    negative, or when there are sizes and they add up to zero. *)
#[global] Instance Z_pyplot : Pyplot Z :=
  λ x, match x with
       | [] => false
       | _ :: _ => existsb (λ v, v <? 0) x || (Series_sum x =? 0)
       end.

(** Sample ledgers, built with [add_record] from the empty store. *)

(** Two expenses in the first and the second week of September. *)
Definition ledger_weeks : store Z :=
  Ledger.add_record "2025-09-09" "transport" 20 "expense" "bus"
    (Ledger.add_record "2025-09-05" "food" 10 "expense" "lunch" ∅).

(** An expense filed under the category N/A. *)
Definition ledger_na : store Z :=
  Ledger.add_record "2025-09-01" "N/A" 25 "expense" "lunch" ∅.

(** The scenario of the specification: food 100 in January; food 50 and
    transport 20 in February. *)
Definition ledger_two_months : store Z :=
  Ledger.add_record "2025-02-03" "transport" 20 "expense" "bus"
    (Ledger.add_record "2025-02-01" "food" 50 "expense" "lunch"
       (Ledger.add_record "2025-01-15" "food" 100 "expense" "dinner" ∅)).

(** ** Predicates of the statements *)

(** The invariant of the month tables: every stored row carries a date
    that parses, and lies in the file named by the first seven
    characters of that date. *)
Definition month_table_inv {A} (fs : store A) : Prop :=
  map_Forall (λ key f,
    Forall (λ l, is_Some (strptime (csv_date l))
                 ∧ substring 0 7 (csv_date l) = key) f) fs.

(** Ascending order of the categories, and descending order of the
    amounts, of the entries of a series. *)
Definition key_lt {A} (x y : string * A) : Prop := String.compare (fst x) (fst y) = Lt.

Definition amount_ge {A} `{!Amount A} (x y : string * A) : Prop := fle (snd y) (snd x) = true.

Definition has_category {D A} (r : row D A) : Prop := is_Some (r_category r).

#[global] Instance has_category_dec {D A} (r : row D A) : Decision (has_category r) :=
  decide (is_Some (r_category r)).

(** The months of a range as the specification counts them: a month is
    numbered by twelve times its year plus its place in the year, and
    the range from [s] to [e] holds the months numbered from the one to
    the other, both included. *)
Definition month_index (t : date) : Z := 12 * year t + (month t - 1).

Definition month_of_index (i : Z) : date := Date (i / 12) (i mod 12 + 1) 1.

Definition spec_months_in_range (s e : date) : list string :=
  map (λ i, strftime_Ym (month_of_index i))
      (seqZ (month_index s) (month_index e - month_index s + 1)).

(** The weeks of a month as the specification counts them: week [k]
    (from 0) of the month [m] of year [y] whose last transaction falls
    on day [e] runs from day [7k+1] to day [7k+7], or to day [e] if that
    comes first. *)
Definition spec_week_start (y m : Z) (k : nat) : date := Date y m (7 * Z.of_nat k + 1).

Definition spec_week_end (y m e : Z) (k : nat) : date :=
  Date y m (Z.min (7 * Z.of_nat k + 7) e).

Definition spec_week_count (e : Z) : nat := Z.to_nat ((e + 6) / 7).

(** The week a day of the month falls in. *)
Definition spec_week_of (d : Z) : nat := Z.to_nat ((d - 1) / 7).

(** The months of a store that hold a row. *)
Definition has_data {A} (fs : store A) (month : string) : Prop :=
  match LedgerPro.get_monthly_data month fs with
  | [] => False
  | _ :: _ => True
  end.

#[global] Instance has_data_dec {A} (fs : store A) (month : string) :
    Decision (has_data fs month) :=
  match LedgerPro.get_monthly_data month fs as l
    return Decision (match l with [] => False | _ :: _ => True end)
  with
  | [] => right (λ H, H)
  | _ :: _ => left I
  end.

(** A call that returned. *)
Definition returns {T} (a : attempt T) : Prop :=
  match a with
  | Returns _ => True
  | _ => False
  end.

#[global] Instance returns_dec {T} (a : attempt T) : Decision (returns a) :=
  match a with
  | Returns _ => left I
  | Raises => right (λ H, H)
  | NotFollowed => right (λ H, H)
  end.









(** A date of the calendar: a month of the year and a day of the
    month. *)
Definition in_calendar (t : date) : Prop :=
  1 <= month t <= 12 ∧ 1 <= day t <= days_in_month (year t) (month t).

(** A date after the month [m] of year [y]. *)
Definition after_month (y m : Z) (t : date) : Prop :=
  y < year t ∨ (year t = y ∧ m < month t).

(** ** Predicates of the further statements *)

(** A date [datetime.date] can hold. *)
Definition valid_date (t : date) : Prop :=
  datetime_date (year t) (month t) (day t) = Some t.


(** Text that [read_csv] keeps as text whatever else its column holds.
    pandas reads a column as numbers when every field of it is a
    numeral (digits, a sign, a point, a mark of grouping, of an exponent
    or of a hexadecimal numeral, white space around them, or a spelling
    of infinity or NaN) and as booleans when every field is a spelling
    of true or false.  A word is text of printable characters with a
    character no numeral has, whose letters spell none of these. *)
Definition lower (c : ascii) : ascii :=
  let n := Z.of_nat (nat_of_ascii c) in
  if (65 <=? n) && (n <=? 90) then ascii_of_nat (Z.to_nat (n + 32)) else c.

Definition is_alpha (c : ascii) : bool :=
  let n := Z.of_nat (nat_of_ascii (lower c)) in (97 <=? n) && (n <=? 122).

Fixpoint letters (s : string) : string :=
  match s with
  | "" => ""
  | String c s' => if is_alpha c then String (lower c) (letters s') else letters s'
  end.

Definition numeral_char (c : ascii) : bool :=
  let n := Z.of_nat (nat_of_ascii c) in
  ((9 <=? n) && (n <=? 13)) || (n =? 32)
  || existsb (Ascii.eqb c) (list_ascii_of_string "0123456789+-.,_eExX").

Definition printable (c : ascii) : bool :=
  let n := Z.of_nat (nat_of_ascii c) in (32 <=? n) && negb (n =? 127).

Definition is_word (s : string) : bool :=
  forallb printable (list_ascii_of_string s)
  && negb (forallb numeral_char (list_ascii_of_string s))
  && negb (bool_decide (letters s ∈ ["inf"; "infinity"; "nan"; "true"; "false"])).

(** A field that comes back from [read_csv] as the embedding has it: a
    missing value, a date, or a word. *)
Definition plain_text (s : string) : bool :=
  bool_decide (s ∈ STR_NA_VALUES) || bool_decide (is_Some (strptime s)) || is_word s.

Definition plain_row {A} (l : csv_row A) : Prop :=
  plain_text (csv_date l) = true ∧ plain_text (csv_category l) = true
  ∧ plain_text (csv_type l) = true ∧ plain_text (csv_note l) = true.

#[global] Instance plain_row_dec {A} (l : csv_row A) : Decision (plain_row l) :=
  decide (plain_text (csv_date l) = true ∧ plain_text (csv_category l) = true
          ∧ plain_text (csv_type l) = true ∧ plain_text (csv_note l) = true).

(** A row after the conversion of its date: the other cells are kept. *)
Definition same_cells {D E A} (r0 : row D A) (r : row E A) : Prop :=
  r_category r = r_category r0 ∧ r_amount r = r_amount r0
  ∧ r_type r = r_type r0 ∧ r_note r = r_note r0.

(** What holds of every weekly section of an exported document. *)
Definition week_section_inv {A} `{!Amount A} (month : string) (w : Ledger.week_section A) : Prop :=
  Ledger.weekly_pie_path w = Ledger.WeekPie month (Ledger.week_num w)
  ∧ Ledger.weekly_expense_summary w ≠ []
  ∧ Ledger.weekly_total w = Series_sum (values (Ledger.weekly_expense_summary w)).

(** An entry of the monthly breakdown carries the figures of its month:
    the income and the expense of the month's rows, and their
    difference. *)
Definition entry_of_month {A} `{!Amount A} (fs : store A) (e : LedgerPro.monthly_summary A) : Prop :=
  LedgerPro.get_monthly_data (LedgerPro.ms_month e) fs ≠ []
  ∧ LedgerPro.ms_income e
    = amount_sum (of_type "income" (LedgerPro.get_monthly_data (LedgerPro.ms_month e) fs))
  ∧ LedgerPro.ms_expense e
    = amount_sum (of_type "expense" (LedgerPro.get_monthly_data (LedgerPro.ms_month e) fs))
  ∧ LedgerPro.ms_net e = fsub (LedgerPro.ms_income e) (LedgerPro.ms_expense e).

(** The totals of the loop of [generate_multi_month_report] are the sums
    of the breakdown, and what is printed for a month is its entry. *)
Definition totals_inv {A} `{!Amount A} (st : LedgerPro.multi_report A) : Prop :=
  LedgerPro.total_income_all_months st
  = Series_sum (map LedgerPro.ms_income (LedgerPro.monthly_summary_data st))
  ∧ LedgerPro.total_expense_all_months st
    = Series_sum (map LedgerPro.ms_expense (LedgerPro.monthly_summary_data st))
  ∧ map (λ p, LedgerPro.MonthlySummary (LedgerPro.mp_month p) (LedgerPro.mp_income p)
                (LedgerPro.mp_expense p) (LedgerPro.mp_net p)) (LedgerPro.printed st)
    = LedgerPro.monthly_summary_data st.

(** A request as the middleware of the REST service sees it: the host of
    the client, the path, and [datetime.now()] at its arrival. *)
Record request := Request {
  client_host : string;
  url_path : string;
  arrival : Z;
}.

(** The path holds one of the blocked words. *)
Definition is_blocked (path : string) : Prop :=
  ∃ blocked pre post, blocked ∈ Api.BLOCKED_PATHS ∧ path = pre +:+ blocked +:+ post.

(** Requests served one after the other, each kept with its answer. *)
Definition serve (reqs : list request) (access_log : gmap string (list Z))
    : gmap string (list Z) * list (request * Api.response) :=
  foldl (λ st req,
           let '(access_log, resp) :=
             Api.block_malicious_requests (client_host req) (url_path req) (arrival req)
               (fst st) in
           (access_log, snd st ++ [(req, resp)]))
        (access_log, []) reqs.

Definition let_through (resp : Api.response) : bool :=
  match resp with
  | Api.CallNext => true
  | _ => false
  end.

(** The times at which requests of a client were let through. *)
Definition passed (ip : string) (answered : list (request * Api.response)) : list Z :=
  map (λ a, arrival (fst a))
      (filter (λ a, client_host (fst a) = ip ∧ let_through (snd a) = true) answered).

(** A time within the window that ends at [now]. *)
Definition in_window (now t : Z) : Prop := now - Api.timedelta Api.WINDOW_SECONDS < t.

#[global] Instance in_window_dec (now t : Z) : Decision (in_window now t) :=
  decide (now - Api.timedelta Api.WINDOW_SECONDS < t).

(** The log of a client agrees with what was let through, as far as any
    window from [now] on can see. *)
Definition log_inv (access_log : gmap string (list Z))
    (answered : list (request * Api.response)) : Prop :=
  ∀ ip now, Forall (λ a, arrival (fst a) <= now) answered →
    filter (in_window now) (access_log !!! ip) = filter (in_window now) (passed ip answered).

(** * Theorems *)

(** ** The date check *)

Example strptime_iso : strptime "2025-09-01" = Some (Date 2025 9 1).
Proof. reflexivity. Qed.
Example strptime_unpadded : strptime "2025-9-1" = Some (Date 2025 9 1).
Proof. reflexivity. Qed.
Example strptime_feb30 : strptime "2025-02-30" = None.
Proof. reflexivity. Qed.
Example strptime_trailing : strptime "2025-01-35" = None.
Proof. reflexivity. Qed.
Example strptime_month13 : strptime "2025-13-01" = None.
Proof. reflexivity. Qed.

(** ** Reading and writing the CSV file *)

Lemma na_filter_spec (s : string) :
  (s ∈ STR_NA_VALUES ∧ na_filter s = None)
  ∨ ((s ∉ STR_NA_VALUES) ∧ na_filter s = Some s).
Proof.
  unfold na_filter. case_bool_decide; [left | right]; done.
Qed.

Lemma na_filter_present (s : string) : s ∉ STR_NA_VALUES → na_filter s = Some s.
Proof. intros Hs. destruct (na_filter_spec s) as [[? _] | [_ ?]]; done. Qed.

Lemma na_filter_rep (s : string) : na_filter (na_rep (na_filter s)) = na_filter s.
Proof.
  destruct (na_filter_spec s) as [[_ ->] | [Hs ->]]; simpl.
  - reflexivity.
  - by apply na_filter_present.
Qed.

Lemma na_rep_filter_present (s : string) : s ∉ STR_NA_VALUES → na_rep (na_filter s) = s.
Proof. intros Hs. by rewrite na_filter_present. Qed.

Lemma strptime_not_na (s : string) : is_Some (strptime s) → s ∉ STR_NA_VALUES.
Proof.
  intros [t Ht] Hin. unfold STR_NA_VALUES in Hin.
  repeat (apply elem_of_cons in Hin; destruct Hin as [-> | Hin]; [discriminate Ht |]).
  by apply elem_of_nil in Hin.
Qed.

Section csv.
Context {A : Type}.
Implicit Types (f : list (csv_row A)) (fs : store A).

Lemma read_csv_app f g : read_csv (f ++ g) = read_csv f ++ read_csv g.
Proof. unfold read_csv. apply map_app. Qed.

Lemma to_csv_app (df dg : DataFrame A) : to_csv (df ++ dg) = to_csv df ++ to_csv dg.
Proof. unfold to_csv. apply map_app. Qed.

(** Rewriting a file that was read changes no row as pandas reads it. *)
Lemma read_to_csv_read f : read_csv (to_csv (read_csv f)) = read_csv f.
Proof.
  unfold read_csv, to_csv. rewrite !map_map. apply map_ext. intros l.
  cbn. by rewrite !na_filter_rep.
Qed.

(** [add_record] rewrites the month's file with one more line, the
    arguments as they were given. *)
Lemma add_record_lookup date category (amount : A) record_type note fs :
  Ledger.add_record date category amount record_type note fs !! substring 0 7 date
  = Some (to_csv (read_csv (default [] (fs !! substring 0 7 date)))
          ++ [CsvRow date category amount record_type note]).
Proof.
  unfold Ledger.add_record, Ledger.ensure_csv, Ledger.get_csv_path.
  rewrite lookup_insert_eq, to_csv_app. f_equal. f_equal.
  destruct (fs !! substring 0 7 date) as [f |] eqn:E.
  - by rewrite lookup_total_alt, E.
  - by rewrite lookup_total_insert_eq.
Qed.

Lemma add_record_lookup_ne date category (amount : A) record_type note fs key :
  key ≠ substring 0 7 date →
  Ledger.add_record date category amount record_type note fs !! key = fs !! key.
Proof.
  intros Hne. unfold Ledger.add_record, Ledger.ensure_csv, Ledger.get_csv_path.
  rewrite lookup_insert_ne by done.
  destruct (fs !! substring 0 7 date); [done |].
  by rewrite lookup_insert_ne.
Qed.

(** Reloading the month after [add_record]: the rows that were there,
    and the new one as [read_csv] reads it. *)
Lemma get_monthly_data_add_record date category (amount : A) record_type note fs :
  LedgerPro.get_monthly_data (substring 0 7 date)
    (Ledger.add_record date category amount record_type note fs)
  = LedgerPro.get_monthly_data (substring 0 7 date) fs
    ++ [Row (na_filter date) (na_filter category) amount
            (na_filter record_type) (na_filter note)].
Proof.
  unfold LedgerPro.get_monthly_data, Ledger.get_csv_path.
  rewrite add_record_lookup, read_csv_app.
  destruct (fs !! substring 0 7 date) as [f |]; [| reflexivity].
  cbn [default]. by rewrite read_to_csv_read.
Qed.

End csv.

(** ** Calls that may raise *)

Lemma attempt_all_Returns {X Y : Type} (f : X → attempt Y) (l : list X) (ys : list Y) :
  attempt_all f l = Returns ys → Forall2 (λ x y, f x = Returns y) l ys.
Proof.
  revert ys. induction l as [| x l IH]; intros ys; cbn [attempt_all].
  - intros [= <-]. constructor.
  - destruct (f x) as [y | |] eqn:E; destruct (attempt_all f l) as [ys' | |];
      try discriminate.
    intros [= <-]. constructor; [exact E | by apply IH].
Qed.

(** ** The record store *)

Section store.
Context {A : Type}.
Implicit Types (f : list (csv_row A)) (fs : store A).

Lemma elem_of_to_csv_read f l :
  l ∈ to_csv (read_csv f) →
  ∃ l0, l0 ∈ f ∧ csv_date l = na_rep (na_filter (csv_date l0)).
Proof.
  unfold to_csv, read_csv. rewrite map_map, list_elem_of_In, in_map_iff.
  intros (l0 & <- & Hin). exists l0. by rewrite list_elem_of_In.
Qed.

(** C1, as amended.  The only validation on the way to the store is the
    date check of the [add] command: a date argument that is none of the
    shortcuts 1, -1, -2, -3 and that [strptime] refuses ends the command
    with the date-format message and the store as it was; a date that
    parses is appended, whatever the amount, which is written to the last
    line of the month's file as given. *)
Theorem main_add_checks_the_date_only today date_str category (amount : A) type note fs :
  date_str ∉ ["1"; "-1"; "-2"; "-3"] →
  match strptime date_str with
  | None =>
      Ledger.main_add today date_str category amount type note fs
      = (fs, Ledger.DateFormatError)
  | Some _ =>
      Ledger.main_add today date_str category amount type note fs
      = (Ledger.add_record date_str category amount type note fs, Ledger.Added)
      ∧ last (default [] (Ledger.add_record date_str category amount type note fs
                          !! substring 0 7 date_str))
        = Some (CsvRow date_str category amount type note)
  end.
Proof.
  intros Hshort. unfold Ledger.main_add.
  rewrite bool_decide_eq_false_2 by (intros ->; apply Hshort, list_elem_of_here).
  rewrite (bool_decide_eq_false_2 (date_str ∈ _))
    by (intros H; apply Hshort, list_elem_of_further, H).
  destruct (strptime date_str); [| reflexivity].
  split; [reflexivity |].
  rewrite add_record_lookup. cbn [default]. apply last_snoc.
Qed.



End store.

(** ** The instances meet their laws *)

#[global] Instance Z_amount_laws : AmountLaws Z.
Proof.
  split; cbn; intros; lia.
Qed.

Lemma merge_quicksort_spec : @QuicksortSpec merge_quicksort.
Proof.
  split; intros X le l; unfold quicksort, merge_quicksort.
  - apply merge_sort_Permutation.
  - intros Htotal _.
    assert (Total (holds le)) by (intros a b; apply Htotal).
    by apply (Sorted_merge_sort (holds le)).
Qed.

Lemma foldl_add_positive (x : list Z) : ∀ a : Z,
  Forall (λ v, 0 < v) x → a <= foldl Z.add a x ∧ (x ≠ [] → a < foldl Z.add a x).
Proof.
  induction x as [| v x IH]; intros a Hx; cbn [foldl]; [split; [lia | done] |].
  apply Forall_cons in Hx as [Hv Hx].
  destruct (IH (a + v) Hx) as [H1 _]. split; [lia |]. intros _. lia.
Qed.

#[global] Instance Z_pyplot_spec : PyplotSpec Z.
Proof.
  split; intros x Hx; unfold pie_raises, Z_pyplot.
  - destruct x as [| v x]; [by apply Exists_nil in Hx |].
    apply orb_true_iff. left. apply existsb_exists.
    apply Exists_exists in Hx as (w & Hw & Hneg). exists w.
    split; [by apply list_elem_of_In |].
    cbn in Hneg. apply Z.ltb_lt. apply Z.leb_gt in Hneg. lia.
  - destruct x as [| v x]; [done |].
    apply orb_false_iff. split.
    + apply not_true_iff_false. intros Hex. apply existsb_exists in Hex as (w & Hw & Hneg).
      apply list_elem_of_In in Hw. rewrite Forall_forall in Hx.
      specialize (Hx w Hw). cbn in Hx. apply Z.leb_gt in Hx. apply Z.ltb_lt in Hneg. lia.
    + apply Z.eqb_neq. unfold Series_sum.
      assert (Forall (λ w, 0 < w) (v :: x)) as Hpos.
      { eapply Forall_impl; [exact Hx |]. intros w Hw. cbn in Hw. by apply Z.leb_gt in Hw. }
      destruct (foldl_add_positive (v :: x) 0 Hpos) as [_ H]. specialize (H ltac:(done)).
      cbn [fzero fadd Z_amount]. lia.
Qed.

(** ** Order of the categories *)

Lemma compare_lt_trans (a b c : string) :
  String.compare a b = Lt → String.compare b c = Lt → String.compare a c = Lt.
Proof.
  intros Hab Hbc. apply String_as_OT.cmp_lt.
  apply String_as_OT.cmp_lt in Hab, Hbc.
  by apply (String_as_OT.lt_trans a b c).
Qed.

Lemma compare_gt_lt (a b : string) : String.compare a b = Gt → String.compare b a = Lt.
Proof.
  intros H. rewrite String.compare_antisym, H. reflexivity.
Qed.

(** ** Sums and groups *)

Section aggregator.
Context {A : Type} {Am : Amount A} {AL : AmountLaws A}.
Implicit Types (a v : A) (l : list A) (s : Series A).

Lemma fadd_zero_r a : fadd a fzero = a.
Proof. by rewrite fadd_comm, fadd_zero_l. Qed.

Lemma foldl_fadd a l : foldl fadd a l = fadd a (Series_sum l).
Proof.
  unfold Series_sum. revert a. induction l as [| x l IH]; intros a; cbn.
  - by rewrite fadd_zero_r.
  - rewrite IH, (IH (fadd fzero x)), fadd_zero_l. symmetry. apply fadd_assoc.
Qed.

Lemma sum_nil : Series_sum ([] : list A) = fzero.
Proof. reflexivity. Qed.

Lemma sum_cons a l : Series_sum (a :: l) = fadd a (Series_sum l).
Proof. unfold Series_sum at 1. cbn. by rewrite foldl_fadd, fadd_zero_l. Qed.

Lemma sum_app l k : Series_sum (l ++ k) = fadd (Series_sum l) (Series_sum k).
Proof. unfold Series_sum at 1. by rewrite foldl_app, foldl_fadd. Qed.

Lemma sum_Permutation l k : l ≡ₚ k → Series_sum l = Series_sum k.
Proof.
  induction 1 as [| x l k _ IH | x y l | l k m _ IH1 _ IH2].
  - reflexivity.
  - by rewrite !sum_cons, IH.
  - by rewrite !sum_cons, !fadd_assoc, (fadd_comm y x).
  - by rewrite IH1.
Qed.

Lemma sum_group_add k v s :
  Series_sum (values (group_add k v s)) = fadd (Series_sum (values s)) v.
Proof.
  unfold values. induction s as [| [k' v'] s IH]; cbn [group_add].
  - cbn [map snd]. by rewrite sum_cons, !sum_nil, fadd_zero_r, fadd_zero_l.
  - destruct (String.compare k k'); cbn [map snd] in *.
    + by rewrite !sum_cons, <- !fadd_assoc, (fadd_comm v).
    + rewrite !sum_cons, fadd_zero_l. apply fadd_comm.
    + by rewrite !sum_cons, IH, fadd_assoc.
Qed.

Lemma amount_sum_cons {D} (r : row D A) (df : list (row D A)) :
  amount_sum (r :: df) = fadd (r_amount r) (amount_sum df).
Proof. unfold amount_sum. cbn [map]. apply sum_cons. Qed.

Lemma sum_groupby_from {D} s (df : list (row D A)) :
  Series_sum (values (foldl (λ s r, match r_category r with
                             | Some k => group_add k (r_amount r) s
                             | None => s
                             end) s df))
  = fadd (Series_sum (values s)) (amount_sum (filter has_category df)).
Proof.
  revert s. induction df as [| r df IH]; intros s; cbn [foldl].
  - by rewrite fadd_zero_r.
  - rewrite IH. destruct (r_category r) as [k |] eqn:E.
    + rewrite filter_cons_True by (unfold has_category; by rewrite E).
      by rewrite sum_group_add, amount_sum_cons, fadd_assoc.
    + rewrite filter_cons_False; [done |].
      unfold has_category. rewrite E. by intros [? ?].
Qed.

(** The values of a category summary add up to the amounts of the rows
    that have a category. *)
Lemma sum_groupby {D} (df : list (row D A)) :
  Series_sum (values (groupby_category_sum df)) = amount_sum (filter has_category df).
Proof.
  unfold groupby_category_sum. rewrite sum_groupby_from. apply fadd_zero_l.
Qed.

Lemma filter_all {X} (P : X → Prop) `{!∀ x, Decision (P x)} (l : list X) :
  Forall P l → filter P l = l.
Proof.
  induction 1 as [| x l Hx _ IH]; [done |].
  by rewrite filter_cons_True, IH.
Qed.

Lemma filter_none {X} (P : X → Prop) `{!∀ x, Decision (P x)} (l : list X) :
  Forall (λ x, ¬ P x) l → filter P l = [].
Proof.
  induction 1 as [| x l Hx _ IH]; [done |].
  by rewrite filter_cons_False.
Qed.

(** The entries of a category summary are in ascending order of the
    categories. *)
Lemma Forall_group_add (Q : string → Prop) k v s :
  Q k → Forall (λ y, Q (fst y)) s → Forall (λ y, Q (fst y)) (group_add k v s).
Proof.
  intros Hk. induction 1 as [| [k' v'] s Hy Hs IH]; cbn [group_add].
  - by constructor.
  - destruct (String.compare k k'); constructor; try done.
    by constructor.
Qed.

Lemma group_add_sorted k v s :
  StronglySorted key_lt s → StronglySorted key_lt (group_add k v s).
Proof.
  induction 1 as [| [k' v'] s Hs IH Hall]; cbn [group_add].
  - repeat constructor.
  - destruct (String.compare k k') eqn:E.
    + constructor; [done |]. exact Hall.
    + constructor; [by constructor |].
      constructor; [exact E |].
      eapply Forall_impl; [exact Hall |].
      intros [k2 v2] H2. unfold key_lt in *. cbn in *.
      by apply (compare_lt_trans k k' k2).
    + constructor; [exact IH |].
      apply (Forall_group_add (λ y, String.compare k' y = Lt)); [| exact Hall].
      by apply compare_gt_lt.
Qed.

Lemma groupby_sorted {D} (df : list (row D A)) :
  StronglySorted key_lt (groupby_category_sum df).
Proof.
  unfold groupby_category_sum.
  cut (∀ s, StronglySorted key_lt s →
            StronglySorted key_lt
              (foldl (λ s r, match r_category r with
                             | Some k => group_add k (r_amount r) s
                             | None => s
                             end) s df)).
  { intros H. apply H. constructor. }
  induction df as [| r df IH]; intros s Hs; cbn [foldl]; [done |].
  apply IH. destruct (r_category r); [by apply group_add_sorted | done].
Qed.

End aggregator.

(** ** Reports of one month *)

Section reports.
Context {A : Type} {Am : Amount A} {AL : AmountLaws A}.
Context {QS : Quicksort} {QSS : QuicksortSpec}.
Context {PP : Pyplot A}.

(** The frame the report functions read is the month's data; a month
    without a file gets an empty one. *)
Lemma read_ensure_csv month (fs : store A) :
  read_csv (Ledger.ensure_csv month fs !!! Ledger.get_csv_path month)
  = LedgerPro.get_monthly_data month fs.
Proof.
  unfold Ledger.ensure_csv, LedgerPro.get_monthly_data.
  destruct (fs !! Ledger.get_csv_path month) as [f |] eqn:E.
  - by rewrite lookup_total_alt, E.
  - by rewrite lookup_total_insert_eq.
Qed.

Lemma sort_values_desc_Permutation (s : Series A) : sort_values_desc s ≡ₚ s.
Proof. apply quicksort_perm. Qed.

Lemma sort_values_desc_nil : sort_values_desc ([] : Series A) = [].
Proof. apply Permutation_nil_r, sort_values_desc_Permutation. Qed.

Lemma api_read_ensure_csv month (fs : store A) :
  read_csv (Api.ensure_csv month fs !!! Api.get_csv_path month)
  = LedgerPro.get_monthly_data month fs.
Proof. apply read_ensure_csv. Qed.

Lemma api_generate_report_empty month (fs : store A) :
  LedgerPro.get_monthly_data month fs = [] →
  snd (Api.generate_report month fs) = Api.Report month fzero fzero fzero [].
Proof.
  intros Hempty. unfold Api.generate_report.
  by rewrite api_read_ensure_csv, Hempty.
Qed.

Lemma sort_values_desc_sorted (s : Series A) : StronglySorted amount_ge (sort_values_desc s).
Proof.
  apply Sorted_StronglySorted.
  - intros x y z Hxy Hyz. unfold amount_ge in *. by apply (fle_trans _ (snd y)).
  - apply (quicksort_sorted _ (λ x y, fle (snd y) (snd x))).
    + intros a b. apply fle_total.
    + intros a b c Hab Hbc. by apply (fle_trans _ (snd b)).
Qed.

Lemma sum_sort_values_desc (s : Series A) :
  Series_sum (values (sort_values_desc s)) = Series_sum (values s).
Proof.
  apply sum_Permutation. unfold values.
  apply Permutation_map, sort_values_desc_Permutation.
Qed.

(** What [generate_report] prints, in terms of the month's data. *)
Lemma generate_report_snd month (fs : store A) :
  snd (Ledger.generate_report month fs)
  = match LedgerPro.get_monthly_data month fs with
    | [] => None
    | (_ :: _) as df =>
        Some (Ledger.Report
                (amount_sum (of_type "income" df))
                (amount_sum (of_type "expense" df))
                (fsub (amount_sum (of_type "income" df)) (amount_sum (of_type "expense" df)))
                (sort_values_desc (groupby_category_sum (of_type "expense" df))))
    end.
Proof.
  unfold Ledger.generate_report. rewrite read_ensure_csv.
  by destruct (LedgerPro.get_monthly_data month fs).
Qed.

(** C4, as amended.  For a month without transactions [export_md] of the
    command line writes no report and no chart, [generate_report] prints
    the warning only; the REST [export_md] writes a document whose totals
    are zero and [generate_report] answers with zero totals and an empty
    summary. *)
Theorem month_without_rows month (fs : store A) :
  LedgerPro.get_monthly_data month fs = [] →
  snd (Ledger.export_md month fs) = Ledger.NoRecords
  ∧ Ledger.charts_generated (snd (Ledger.export_md month fs)) = []
  ∧ snd (Ledger.generate_report month fs) = None
  ∧ snd (Api.export_md month fs) = Api.Document [] fzero fzero fzero
  ∧ snd (Api.generate_report month fs) = Api.Report month fzero fzero fzero [].
Proof.
  intros Hempty.
  assert (snd (Ledger.export_md month fs) = Ledger.NoRecords) as Hexp.
  { unfold Ledger.export_md. rewrite read_ensure_csv, Hempty. reflexivity. }
  repeat split.
  - exact Hexp.
  - by rewrite Hexp.
  - unfold Ledger.generate_report. by rewrite read_ensure_csv, Hempty.
  - unfold Api.export_md.
    rewrite api_read_ensure_csv, Hempty. cbn. by rewrite fsub_zero.
  - by apply api_generate_report_empty.
Qed.

(** The category summary that [generate_report] and the multi-month
    functions print, [groupby(...).sum().sort_values(ascending=False)],
    holds the entries of the grouped sums, which come in ascending order
    of the categories, rearranged so that no entry is followed by one of
    a larger amount.  Nothing is said of entries of equal amount. *)
Lemma category_summary_is_descending {D} (df : list (row D A)) mkey (fs : store A) :
  StronglySorted amount_ge (sort_values_desc (groupby_category_sum df))
  ∧ sort_values_desc (groupby_category_sum df) ≡ₚ groupby_category_sum df
  ∧ StronglySorted key_lt (groupby_category_sum df)
  ∧ match snd (Ledger.generate_report mkey fs) with
    | Some rep =>
        StronglySorted amount_ge (Ledger.summary rep)
        ∧ Ledger.summary rep
          ≡ₚ groupby_category_sum (of_type "expense" (LedgerPro.get_monthly_data mkey fs))
    | None => LedgerPro.get_monthly_data mkey fs = []
    end.
Proof.
  split; [apply sort_values_desc_sorted |].
  split; [apply sort_values_desc_Permutation |].
  split; [apply groupby_sorted |].
  rewrite generate_report_snd.
  destruct (LedgerPro.get_monthly_data mkey fs) as [| r l]; [done |].
  cbn [Ledger.summary].
  split; [apply sort_values_desc_sorted | apply sort_values_desc_Permutation].
Qed.

(** C7, as amended.  The net amount is the income less the expense, and
    the values of the category summary of a kind add up to the amounts
    of the rows of that kind that have a category; when every row has
    one, to the total of the kind.  So it is in the report of a month. *)
Theorem net_and_category_sums {D} (df : list (row D A)) (kind : string)
    mkey (fs : store A) :
  (let '(income, expense, net) := LedgerPro.calculate_monthly_summary df in
   net = fsub income expense
   ∧ Series_sum (values (sort_values_desc (groupby_category_sum (of_type kind df))))
     = amount_sum (filter has_category (of_type kind df))
   ∧ (Forall has_category df →
      Series_sum (values (sort_values_desc (groupby_category_sum (of_type "income" df))))
      = income
      ∧ Series_sum (values (sort_values_desc (groupby_category_sum (of_type "expense" df))))
        = expense))
  ∧ match snd (Ledger.generate_report mkey fs) with
    | Some rep =>
        Ledger.net rep = fsub (Ledger.income rep) (Ledger.expense rep)
        ∧ Series_sum (values (Ledger.summary rep))
          = amount_sum (filter has_category
                          (of_type "expense" (LedgerPro.get_monthly_data mkey fs)))
        ∧ (Forall has_category (LedgerPro.get_monthly_data mkey fs) →
           Series_sum (values (Ledger.summary rep)) = Ledger.expense rep)
    | None => LedgerPro.get_monthly_data mkey fs = []
    end.
Proof.
  assert (∀ E (d : list (row E A)) k,
            Series_sum (values (sort_values_desc (groupby_category_sum (of_type k d))))
            = amount_sum (filter has_category (of_type k d))) as Hsum.
  { intros E d k. by rewrite sum_sort_values_desc, sum_groupby. }
  assert (∀ E (d : list (row E A)) k,
            Forall has_category d → filter has_category (of_type k d) = of_type k d) as Hall.
  { intros E d k Hd. apply filter_all. unfold of_type.
    rewrite Forall_forall in Hd |- *. intros r Hr. apply Hd.
    by apply list_elem_of_filter in Hr as [_ ?]. }
  split.
  - cbn. split; [reflexivity |]. split; [apply Hsum |].
    intros Hd. by rewrite !Hsum, !Hall.
  - rewrite generate_report_snd.
    destruct (LedgerPro.get_monthly_data mkey fs) as [| r l]; [done |].
    cbn [Ledger.net Ledger.income Ledger.expense Ledger.summary].
    split; [reflexivity |]. split; [apply Hsum |].
    intros Hd. by rewrite Hsum, Hall.
Qed.

(** C8.  A frame without a row of some kind, the empty frame among them,
    has the total zero and the empty category summary for that kind; and
    for a month without rows the totals are zero.  All the functions are
    total: nothing is raised. *)
Theorem missing_kind_is_zero_and_empty (df : DataFrame A) (kind month : string) (fs : store A) :
  Forall (λ r, r_type r ≠ Some kind) df →
  LedgerPro.get_monthly_data month fs = [] →
  amount_sum (of_type kind df) = fzero
  ∧ sort_values_desc (groupby_category_sum (of_type kind df)) = []
  ∧ groupby_category_sum (of_type kind df) = []
  ∧ LedgerPro.calculate_monthly_summary ([] : DataFrame A) = (fzero, fzero, fzero)
  ∧ snd (Api.generate_report month fs) = Api.Report month fzero fzero fzero [].
Proof.
  intros Hkind Hempty.
  assert (of_type kind df = []) as ->.
  { unfold of_type. by apply filter_none. }
  repeat split.
  - apply sort_values_desc_nil.
  - unfold LedgerPro.calculate_monthly_summary. cbn. by rewrite fsub_zero.
  - by apply api_generate_report_empty.
Qed.

End reports.

(** ** The months of a range *)

Lemma digit_val_char (n : Z) : digit_val (digit_char n) = Some (n mod 10).
Proof.
  unfold digit_val, digit_char.
  assert (0 <= n mod 10 < 10) as Hn by (apply Z.mod_pos_bound; lia).
  rewrite nat_ascii_embedding by lia.
  rewrite Z2Nat.id by lia.
  replace ((48 <=? 48 + n mod 10) && (48 + n mod 10 <=? 57)) with true.
  - f_equal. lia.
  - symmetry. apply andb_true_iff. split; apply Z.leb_le; lia.
Qed.

Lemma digit_char_not_dash (n : Z) : Ascii.eqb (digit_char n) "-" = false.
Proof.
  apply Ascii.eqb_neq. intros H.
  pose proof (digit_val_char n) as Hv. rewrite H in Hv. discriminate Hv.
Qed.

Lemma parse_year_month_strftime (y m : Z) :
  0 <= y <= 9999 → 0 <= m <= 99 →
  LedgerPro.parse_year_month (strftime_Ym (Date y m 1)) = Some (y, m).
Proof.
  intros Hy Hm.
  unfold LedgerPro.parse_year_month.
  change (strftime_Ym (Date y m 1))
    with (String (digit_char (y / 1000)) (String (digit_char (y / 100))
           (String (digit_char (y / 10)) (String (digit_char y)
             (String "-" (String (digit_char (m / 10)) (String (digit_char m) ""))))))).
  cbn [LedgerPro.split_dash]. rewrite !digit_char_not_dash.
  change (Ascii.eqb "-" "-") with true. cbv iota.
  change (LedgerPro.split_dash ?a "") with [a].
  cbv [String.append]. unfold LedgerPro.int. cbn [LedgerPro.int_digits].
  rewrite !digit_val_char.
  f_equal. f_equal; Z.div_mod_to_equations; lia.
Qed.

Lemma datetime_date_first (y m : Z) :
  1 <= y <= 9999 → 1 <= m <= 12 → datetime_date y m 1 = Some (Date y m 1).
Proof.
  intros Hy Hm. unfold datetime_date, MINYEAR, MAXYEAR.
  assert (28 <= days_in_month y m) as Hd.
  { unfold days_in_month. repeat case_match; lia. }
  replace ((1 <=? y) && (y <=? 9999) && (1 <=? m) && (m <=? 12)
           && (1 <=? 1) && (1 <=? days_in_month y m)) with true; [done |].
  symmetry. rewrite !andb_true_iff, !Z.leb_le. lia.
Qed.

Lemma month_of_index_index (y m : Z) :
  1 <= m <= 12 → month_of_index (month_index (Date y m 1)) = Date y m 1.
Proof.
  intros Hm. unfold month_of_index, month_index. cbn.
  f_equal; Z.div_mod_to_equations; lia.
Qed.

Lemma date_leb_month_of_index (i j : Z) :
  date_leb (month_of_index i) (month_of_index j) = (i <=? j).
Proof.
  unfold date_leb, month_of_index. cbn.
  destruct (Z.leb_spec i j) as [H | H].
  - destruct (Z.ltb_spec (i / 12) (j / 12)); [done |]. cbn.
    replace (i / 12 =? j / 12) with true
      by (symmetry; apply Z.eqb_eq; Z.div_mod_to_equations; lia).
    cbn. destruct (Z.ltb_spec (i mod 12 + 1) (j mod 12 + 1)); [done |]. cbn.
    replace (i mod 12 + 1 =? j mod 12 + 1) with true
      by (symmetry; apply Z.eqb_eq; Z.div_mod_to_equations; lia).
    reflexivity.
  - replace (i / 12 <? j / 12) with false
      by (symmetry; apply Z.ltb_ge; Z.div_mod_to_equations; lia).
    cbn. destruct (Z.eqb_spec (i / 12) (j / 12)); [| done]. cbn.
    replace (i mod 12 + 1 <? j mod 12 + 1) with false
      by (symmetry; apply Z.ltb_ge; Z.div_mod_to_equations; lia).
    cbn. replace (i mod 12 + 1 =? j mod 12 + 1) with false; [done |].
    symmetry; apply Z.eqb_neq; Z.div_mod_to_equations; lia.
Qed.

(** One turn of the loop moves to the month numbered one more, as long
    as that month lies before year 10000. *)
Lemma next_month_of_index (i : Z) :
  12 <= i → i + 1 <= 12 * 9999 + 11 →
  (if month (month_of_index i) =? 12
   then datetime_date (year (month_of_index i) + 1) 1 1
   else datetime_date (year (month_of_index i)) (month (month_of_index i) + 1) 1)
  = Some (month_of_index (i + 1)).
Proof.
  intros Hlo Hhi. unfold month_of_index. cbn.
  destruct (Z.eqb_spec (i mod 12 + 1) 12) as [H12 | H12].
  - rewrite datetime_date_first by (Z.div_mod_to_equations; lia).
    f_equal. f_equal; Z.div_mod_to_equations; lia.
  - rewrite datetime_date_first by (Z.div_mod_to_equations; lia).
    f_equal. f_equal; Z.div_mod_to_equations; lia.
Qed.

Lemma months_loop_returns (n : nat) : ∀ (fuel : nat) (i e : Z) (acc : list string),
  12 <= i → i <= e + 1 → e <= 12 * 9999 + 10 →
  n = Z.to_nat (e + 1 - i) → (n < fuel)%nat →
  LedgerPro.months_loop fuel (month_of_index i) (month_of_index e) acc
  = Some (LedgerPro.Returned
            (acc ++ map (λ k, strftime_Ym (month_of_index k)) (seqZ i (e + 1 - i)))).
Proof.
  induction n as [| n IH]; intros fuel i e acc Hlo Hie Hhi Hn Hfuel;
    (destruct fuel as [| fuel]; [lia |]); cbn [LedgerPro.months_loop];
    rewrite date_leb_month_of_index.
  - replace (i <=? e) with false by (symmetry; apply Z.leb_gt; lia).
    replace (e + 1 - i) with 0 by lia. cbn. by rewrite app_nil_r.
  - replace (i <=? e) with true by (symmetry; apply Z.leb_le; lia).
    pose proof (next_month_of_index i Hlo ltac:(lia)) as Hnext.
    destruct (month (month_of_index i) =? 12); rewrite Hnext;
      rewrite (IH fuel (i + 1) e) by lia;
      rewrite (seqZ_cons i (e + 1 - i)) by lia; cbn [map];
      rewrite <- app_assoc; cbn [app];
      by replace (Z.pred (e + 1 - i)) with (e + 1 - (i + 1)) by lia.
Qed.

(** When the range ends in December 9999 the loop, having listed that
    month, asks for January 10000. *)
Lemma months_loop_overflow (n : nat) : ∀ (fuel : nat) (i : Z) (acc : list string),
  12 <= i → i <= 12 * 9999 + 11 →
  n = Z.to_nat (12 * 9999 + 11 - i) → (n < fuel)%nat →
  LedgerPro.months_loop fuel (month_of_index i) (Date 9999 12 1) acc
  = Some LedgerPro.ValueError.
Proof.
  change (Date 9999 12 1) with (month_of_index (12 * 9999 + 11)).
  induction n as [| n IH]; intros fuel i acc Hlo Hhi Hn Hfuel;
    (destruct fuel as [| fuel]; [lia |]); cbn [LedgerPro.months_loop];
    rewrite date_leb_month_of_index;
    (replace (i <=? 12 * 9999 + 11) with true by (symmetry; apply Z.leb_le; lia)).
  - replace i with (12 * 9999 + 11) by lia. reflexivity.
  - pose proof (next_month_of_index i Hlo ltac:(lia)) as Hnext.
    destruct (month (month_of_index i) =? 12); rewrite Hnext;
      by rewrite (IH fuel (i + 1)) by lia.
Qed.

(** What [get_months_in_range] does on every pair of well-formed months:
    it returns the months of the range, in order, none when the range is
    reversed; unless the range is not empty and ends in December 9999. *)
Lemma get_months_in_range_well_formed (sy sm ey em : Z) :
  1 <= sy <= 9999 → 1 <= sm <= 12 → 1 <= ey <= 9999 → 1 <= em <= 12 →
  LedgerPro.get_months_in_range (strftime_Ym (Date sy sm 1)) (strftime_Ym (Date ey em 1))
  = if decide (ey = 9999 ∧ em = 12)
    then Some LedgerPro.ValueError
    else Some (LedgerPro.Returned (spec_months_in_range (Date sy sm 1) (Date ey em 1))).
Proof.
  intros Hsy Hsm Hey Hem. unfold LedgerPro.get_months_in_range.
  rewrite !parse_year_month_strftime by lia.
  rewrite !datetime_date_first by lia.
  unfold LedgerPro.range_fuel, spec_months_in_range. cbn [year month].
  assert (month_index (Date sy sm 1) = 12 * sy + (sm - 1)) as Hsi by reflexivity.
  assert (month_index (Date ey em 1) = 12 * ey + (em - 1)) as Hei by reflexivity.
  set (si := month_index (Date sy sm 1)) in *.
  set (ei := month_index (Date ey em 1)) in *.
  assert (Date sy sm 1 = month_of_index si) as -> by (symmetry; by apply month_of_index_index).
  assert (Date ey em 1 = month_of_index ei) as He by (symmetry; by apply month_of_index_index).
  clearbody si ei.
  case_decide as Hend.
  - destruct Hend as [-> ->].
    apply (months_loop_overflow (Z.to_nat (12 * 9999 + 11 - si))); lia.
  - rewrite He.
    destruct (Z.le_gt_cases si (ei + 1)) as [Hle | Hgt].
    + rewrite (months_loop_returns (Z.to_nat (ei + 1 - si))) by lia.
      cbn [app]. by replace (ei + 1 - si) with (ei - si + 1) by lia.
    + destruct (Z.to_nat _); cbn [LedgerPro.months_loop];
        rewrite date_leb_month_of_index;
        (replace (si <=? ei) with false by (symmetry; apply Z.leb_gt; lia));
        by rewrite seqZ_nil by lia.
Qed.

(** C10 on its failing input: the range that is December 9999 alone.
    The month is listed, then [datetime.date(10000, 1, 1)] raises the
    [ValueError], and no list is returned. *)
Theorem get_months_in_range_december_9999 :
  LedgerPro.get_months_in_range "9999-12" "9999-12" = Some LedgerPro.ValueError
  ∧ spec_months_in_range (Date 9999 12 1) (Date 9999 12 1) = ["9999-12"].
Proof. split; reflexivity. Qed.

(** ** Several months *)


Lemma sorted_Permutation (months : list string) : sorted months ≡ₚ months.
Proof. apply merge_sort_Permutation. Qed.


(** ** Dates *)

Lemma date_leb_iff (a b : date) :
  date_leb a b = true
  ↔ year a < year b
    ∨ (year a = year b ∧ (month a < month b ∨ (month a = month b ∧ day a <= day b))).
Proof.
  unfold date_leb.
  rewrite !orb_true_iff, !andb_true_iff, !orb_true_iff, !andb_true_iff.
  by rewrite !Z.ltb_lt, !Z.eqb_eq, Z.leb_le.
Qed.

Lemma date_leb_false_iff (a b : date) :
  date_leb a b = false
  ↔ year b < year a
    ∨ (year a = year b ∧ (month b < month a ∨ (month a = month b ∧ day b < day a))).
Proof.
  rewrite <- not_true_iff_false, date_leb_iff. lia.
Qed.

Lemma date_leb_refl (a : date) : date_leb a a = true.
Proof. apply date_leb_iff. lia. Qed.

Lemma date_leb_trans (a b c : date) :
  date_leb a b = true → date_leb b c = true → date_leb a c = true.
Proof. rewrite !date_leb_iff. lia. Qed.

Lemma date_leb_total (a b : date) : date_leb a b = true ∨ date_leb b a = true.
Proof. rewrite !date_leb_iff. lia. Qed.

Lemma date_leb_same_month (y m d1 d2 : Z) :
  date_leb (Date y m d1) (Date y m d2) = (d1 <=? d2).
Proof.
  destruct (Z.leb_spec d1 d2).
  - apply date_leb_iff. cbn. lia.
  - apply date_leb_false_iff. cbn. lia.
Qed.

Lemma after_month_leb (y m e : Z) (t : date) :
  after_month y m t → date_leb t (Date y m e) = false.
Proof. intros H. apply date_leb_false_iff. unfold after_month in H. cbn. lia. Qed.

Lemma after_month_ltb (y m e : Z) (t : date) :
  after_month y m t → date_ltb (Date y m e) t = true.
Proof. intros H. unfold date_ltb. by rewrite (after_month_leb y m e t H). Qed.

Lemma next_day_in_month (y m d : Z) :
  d < days_in_month y m → next_day (Date y m d) = Date y m (d + 1).
Proof.
  intros H. unfold next_day. cbn.
  by replace (d <? days_in_month y m) with true by (symmetry; by apply Z.ltb_lt).
Qed.

Lemma next_day_leaves_month (y m d : Z) :
  days_in_month y m <= d → after_month y m (next_day (Date y m d)).
Proof.
  intros H. unfold next_day, after_month. cbn.
  replace (d <? days_in_month y m) with false by (symmetry; by apply Z.ltb_ge).
  destruct (Z.ltb_spec m 12); cbn; lia.
Qed.

Lemma next_day_stays_after (y m : Z) (t : date) :
  after_month y m t → after_month y m (next_day t).
Proof.
  unfold after_month, next_day. intros H.
  destruct (day t <? _); cbn; [lia |].
  destruct (Z.ltb_spec (month t) 12); cbn; lia.
Qed.

Lemma add_days_stays_after (n : nat) (y m : Z) (t : date) :
  after_month y m t → after_month y m (add_days n t).
Proof.
  revert t. induction n as [| n IH]; intros t H; cbn; [done |].
  by apply IH, next_day_stays_after.
Qed.

(** A few days on from a day of the month: the day that many later if
    the month has it, and a date after the month otherwise. *)
Lemma add_days_in_month (n : nat) (y m d : Z) :
  d <= days_in_month y m →
  (d + Z.of_nat n <= days_in_month y m
   ∧ add_days n (Date y m d) = Date y m (d + Z.of_nat n))
  ∨ (days_in_month y m < d + Z.of_nat n ∧ after_month y m (add_days n (Date y m d))).
Proof.
  revert d. induction n as [| n IH]; intros d Hd; cbn [add_days].
  - left. split; [lia |]. f_equal. lia.
  - destruct (Z.lt_ge_cases d (days_in_month y m)) as [Hlt | Hge].
    + rewrite next_day_in_month by done.
      destruct (IH (d + 1) ltac:(lia)) as [[H1 H2] | [H1 H2]].
      * left. split; [lia |]. rewrite H2. f_equal. lia.
      * right. split; [lia | done].
    + right. split; [lia |].
      by apply add_days_stays_after, next_day_leaves_month.
Qed.

(** The end of the week that starts on day [s]: six days on, cut at the
    last day [e]. *)
Lemma week_end_in_month (y m s e : Z) :
  s <= e → e <= days_in_month y m →
  (if date_ltb (Date y m e) (add_days 6 (Date y m s)) then Date y m e
   else add_days 6 (Date y m s))
  = Date y m (Z.min (s + 6) e).
Proof.
  intros Hs He.
  destruct (add_days_in_month 6 y m s ltac:(lia)) as [[H1 H2] | [H1 H2]].
  - rewrite H2. unfold date_ltb. rewrite date_leb_same_month.
    change (Z.of_nat 6) with 6 in *.
    destruct (Z.leb_spec (s + 6) e); cbn; f_equal; lia.
  - rewrite (after_month_ltb y m e _ H2). f_equal.
    change (Z.of_nat 6) with 6 in *. lia.
Qed.

(** The day after day [c]: inside the part of the month up to [e] it is
    day [c + 1]; from [e] it is past [e]. *)
Lemma day_after_in_month (y m c e : Z) :
  c < e → e <= days_in_month y m → add_days 1 (Date y m c) = Date y m (c + 1).
Proof. intros Hc He. cbn. apply next_day_in_month. lia. Qed.

Lemma day_after_last (y m e : Z) :
  e <= days_in_month y m → date_leb (add_days 1 (Date y m e)) (Date y m e) = false.
Proof.
  intros He. cbn.
  destruct (Z.lt_ge_cases e (days_in_month y m)) as [Hlt | Hge].
  - rewrite next_day_in_month by done. rewrite date_leb_same_month.
    apply Z.leb_gt. lia.
  - by apply after_month_leb, next_day_leaves_month.
Qed.

Lemma last_day_of_month (y m : Z) :
  1 <= m <= 12 →
  prev_day (add_month (replace_day1 (Date y m 1))) = Date y m (days_in_month y m).
Proof.
  intros Hm. unfold replace_day1, add_month, prev_day. cbn.
  destruct (Z.ltb_spec m 12); cbn.
  - replace (1 <? m + 1) with true by (symmetry; apply Z.ltb_lt; lia).
    by replace (m + 1 - 1) with m by lia.
  - replace m with 12 by lia. by replace (y + 1 - 1) with y by lia.
Qed.

Lemma datetime_date_Some (y m d : Z) (t : date) :
  datetime_date y m d = Some t →
  t = Date y m d ∧ 1 <= m <= 12 ∧ 1 <= d <= days_in_month y m.
Proof.
  unfold datetime_date. case_match eqn:E; [| done].
  intros [= <-]. rewrite !andb_true_iff, !Z.leb_le in E. split; [done | lia].
Qed.

Lemma strptime_valid (s : string) (t : date) :
  strptime s = Some t →
  1 <= month t <= 12 ∧ 1 <= day t <= days_in_month (year t) (month t).
Proof.
  unfold strptime. intros H.
  repeat case_match; try discriminate.
  apply datetime_date_Some in H as (-> & ? & ?). by cbn.
Qed.

(** ** The ordinal of a date *)

Lemma days_before_month_table (y m : Z) :
  1 <= m <= 13 →
  days_before_month y m
  = nth (Z.to_nat (m - 1)) [0; 31; 59; 90; 120; 151; 181; 212; 243; 273; 304; 334; 365] 0
    + (if (2 <? m) && is_leap y then 1 else 0).
Proof.
  intros Hm.
  assert (m = 1 ∨ m = 2 ∨ m = 3 ∨ m = 4 ∨ m = 5 ∨ m = 6 ∨ m = 7 ∨ m = 8 ∨ m = 9
          ∨ m = 10 ∨ m = 11 ∨ m = 12 ∨ m = 13) as H by lia.
  unfold days_before_month, days_in_month.
  repeat (destruct H as [-> | H]; [cbn; destruct (is_leap y); reflexivity |]).
  subst m. cbn. destruct (is_leap y); reflexivity.
Qed.

Local Ltac eval_to_nat :=
  repeat match goal with
         | |- context [Z.to_nat (?a - ?b)] =>
             let v := eval vm_compute in (Z.to_nat (a - b)) in
             change (Z.to_nat (a - b)) with v
         end;
  cbn [nth Z.ltb Z.compare Pos.compare Pos.compare_cont andb].

Lemma days_in_month_table (y m : Z) :
  1 <= m <= 12 →
  days_before_month y (m + 1) = days_before_month y m + days_in_month y m.
Proof.
  intros Hm.
  assert (m = 1 ∨ m = 2 ∨ m = 3 ∨ m = 4 ∨ m = 5 ∨ m = 6 ∨ m = 7 ∨ m = 8 ∨ m = 9
          ∨ m = 10 ∨ m = 11 ∨ m = 12) as H by lia.
  unfold days_before_month, days_in_month.
  repeat (destruct H as [-> | H]; [cbn; destruct (is_leap y); reflexivity |]).
  subst m. cbn. destruct (is_leap y); reflexivity.
Qed.

Lemma days_before_year_succ (y : Z) :
  days_before_year (y + 1) = days_before_year y + 365 + (if is_leap y then 1 else 0).
Proof.
  unfold days_before_year, is_leap.
  replace (y + 1 - 1) with y by lia.
  destruct (Z.eqb_spec (y mod 4) 0), (Z.eqb_spec (y mod 100) 0), (Z.eqb_spec (y mod 400) 0);
    cbn [negb andb orb]; Z.div_mod_to_equations; lia.
Qed.

Lemma days_before_year_mono (y1 y2 : Z) :
  y1 < y2 → days_before_year (y1 + 1) <= days_before_year y2.
Proof.
  intros H. unfold days_before_year. Z.div_mod_to_equations. lia.
Qed.

Lemma toordinal_next_day (t : date) :
  in_calendar t → toordinal (next_day t) = toordinal t + 1 ∧ in_calendar (next_day t).
Proof.
  destruct t as [y m d]. unfold in_calendar, next_day, toordinal. cbn [year month day].
  intros [Hm Hd].
  destruct (Z.ltb_spec d (days_in_month y m)); cbn [year month day].
  - split; lia.
  - destruct (Z.ltb_spec m 12); cbn [year month day].
    + rewrite days_in_month_table by lia. split; [lia |].
      split; [lia |]. unfold days_in_month.
      destruct (m + 1 =? 2); [destruct (is_leap y); lia |].
      match goal with |- context [if ?b then 30 else 31] => destruct b end; lia.
    + assert (m = 12) as -> by lia.
      rewrite days_before_year_succ.
      rewrite !days_before_month_table by lia. eval_to_nat.
      assert (d = 31) as -> by (unfold days_in_month in *; cbn in *; lia).
      destruct (is_leap y); split; try lia; unfold days_in_month; cbn; lia.
Qed.

Lemma toordinal_add_days (n : nat) : ∀ t,
  in_calendar t → toordinal (add_days n t) = toordinal t + Z.of_nat n ∧ in_calendar (add_days n t).
Proof.
  induction n as [| n IH]; intros t Ht; cbn [add_days].
  - split; [lia | done].
  - destruct (toordinal_next_day t Ht) as [H1 H2].
    destruct (IH _ H2) as [H3 H4]. split; [lia | done].
Qed.

Lemma toordinal_leb (a b : date) :
  in_calendar a → in_calendar b → date_leb a b = true → toordinal a <= toordinal b.
Proof.
  destruct a as [ya ma da], b as [yb mb db].
  unfold in_calendar. cbn [year month day]. intros [Hma Hda] [Hmb Hdb] Hle.
  apply date_leb_iff in Hle. cbn [year month day] in Hle.
  unfold toordinal. cbn [year month day].
  assert (∀ y m d, 1 <= m <= 12 → 1 <= d <= days_in_month y m →
            1 <= days_before_month y m + d <= 365 + (if is_leap y then 1 else 0)) as Hin.
  { intros y m d Hm Hd. rewrite days_before_month_table by lia.
    assert (m = 1 ∨ m = 2 ∨ m = 3 ∨ m = 4 ∨ m = 5 ∨ m = 6 ∨ m = 7 ∨ m = 8 ∨ m = 9
            ∨ m = 10 ∨ m = 11 ∨ m = 12) as H by lia.
    unfold days_in_month in Hd.
    repeat (destruct H as [-> | H];
            [eval_to_nat; cbn in Hd; destruct (is_leap y); lia |]).
    subst m. eval_to_nat. cbn in Hd. destruct (is_leap y); lia. }
  destruct Hle as [Hy | [-> [Hm | [-> Hd]]]].
  - pose proof (days_before_year_mono ya yb Hy) as Hmono.
    rewrite days_before_year_succ in Hmono.
    pose proof (Hin ya ma da Hma Hda). pose proof (Hin yb mb db Hmb Hdb). lia.
  - assert (days_before_month yb ma + da <= days_before_month yb (ma + 1)) as H1.
    { rewrite days_in_month_table by lia. lia. }
    assert (days_before_month yb (ma + 1) <= days_before_month yb mb) as H2.
    { clear -Hma Hmb Hm.
      assert (∀ k : nat, ma + 1 + Z.of_nat k <= 13 →
                days_before_month yb (ma + 1)
                <= days_before_month yb (ma + 1 + Z.of_nat k)) as Hk.
      { induction k as [| k IH]; intros Hle.
        - replace (ma + 1 + Z.of_nat 0) with (ma + 1) by lia. lia.
        - replace (ma + 1 + Z.of_nat (S k)) with (ma + 1 + Z.of_nat k + 1) by lia.
          rewrite (days_in_month_table yb (ma + 1 + Z.of_nat k)) by lia.
          assert (0 <= days_in_month yb (ma + 1 + Z.of_nat k)) as Hpos.
          { unfold days_in_month.
            destruct (_ =? 2); [destruct (is_leap yb); lia |].
            match goal with |- context [if ?b then 30 else 31] => destruct b end; lia. }
          specialize (IH ltac:(lia)). lia. }
      specialize (Hk (Z.to_nat (mb - (ma + 1))) ltac:(lia)).
      by replace (ma + 1 + Z.of_nat (Z.to_nat (mb - (ma + 1)))) with mb in Hk by lia. }
    lia.
  - lia.
Qed.

(** ** The weeks of a month *)

Lemma spec_week_count_pos (e : Z) (k : nat) :
  7 * Z.of_nat k + 1 <= e → (k < spec_week_count e)%nat.
Proof. unfold spec_week_count. intros H. Z.div_mod_to_equations. lia. Qed.

Lemma spec_week_count_last (e : Z) (k : nat) :
  7 * Z.of_nat k + 1 <= e → e <= 7 * Z.of_nat k + 7 → spec_week_count e = S k.
Proof. unfold spec_week_count. intros H1 H2. Z.div_mod_to_equations. lia. Qed.

Lemma foldl_date_max_ge (l : list date) : ∀ t0 t,
  date_leb t t0 = true ∨ t ∈ l → date_leb t (foldl date_max t0 l) = true.
Proof.
  induction l as [| x l IH]; intros t0 t H; cbn [foldl].
  - destruct H as [H | H]; [done | by apply elem_of_nil in H].
  - apply IH. unfold date_max.
    destruct H as [H | H].
    + left. destruct (date_leb t0 x) eqn:E; [| done].
      by apply (date_leb_trans t t0 x).
    + apply elem_of_cons in H as [-> | H]; [| by right].
      left. destruct (date_leb t0 x) eqn:E; [apply date_leb_refl |].
      destruct (date_leb_total t0 x); congruence.
Qed.

Lemma foldl_date_max_in (l : list date) : ∀ t0, foldl date_max t0 l ∈ t0 :: l.
Proof.
  induction l as [| x l IH]; intros t0; cbn [foldl].
  - apply list_elem_of_here.
  - specialize (IH (date_max t0 x)). unfold date_max in *.
    destruct (date_leb t0 x); apply elem_of_cons in IH as [-> | IH];
      rewrite !elem_of_cons; auto.
Qed.

Lemma foldl_date_min_in (l : list date) : ∀ t0, foldl date_min t0 l ∈ t0 :: l.
Proof.
  induction l as [| x l IH]; intros t0; cbn [foldl].
  - apply list_elem_of_here.
  - specialize (IH (date_min t0 x)). unfold date_min in *.
    destruct (date_leb t0 x); apply elem_of_cons in IH as [-> | IH];
      rewrite !elem_of_cons; auto.
Qed.

Section weekly.
Context {A : Type} {Am : Amount A} {QS : Quicksort}.
Implicit Types (df : list (row date A)) (acc : list (Ledger.week_section A)).

Lemma week_loop_exit fuel month df eom (num : nat) (t : date) acc :
  date_leb t eom = false →
  Ledger.week_loop (S fuel) month df eom num t acc = Some acc.
Proof. intros H. cbn. by rewrite H. Qed.

(** The loop, started on the first day of week [k] of a month whose
    last transaction is on day [e], adds the weeks from [k] on. *)
Lemma week_loop_month month df (y m e : Z) :
  e <= days_in_month y m →
  ∀ (n fuel k : nat) acc,
    7 * Z.of_nat k + 1 <= e →
    n = (spec_week_count e - k)%nat → (n < fuel)%nat →
    Ledger.week_loop fuel month df (Date y m e) (S k) (spec_week_start y m k) acc
    = Some (acc ++ concat (map (λ j, Ledger.week_md month df (S j)
                                       (spec_week_start y m j) (spec_week_end y m e j))
                               (seq k n))).
Proof.
  intros He. induction n as [| n IH]; intros fuel k acc Hk Hn Hfuel.
  { pose proof (spec_week_count_pos e k Hk). lia. }
  destruct fuel as [| fuel]; [lia |].
  cbn [Ledger.week_loop].
  change (spec_week_start y m k) with (Date y m (7 * Z.of_nat k + 1)).
  rewrite date_leb_same_month.
  replace (7 * Z.of_nat k + 1 <=? e) with true by (symmetry; apply Z.leb_le; lia).
  rewrite !week_end_in_month by lia.
  replace (7 * Z.of_nat k + 1 + 6) with (7 * Z.of_nat k + 7) by lia.
  destruct (Z.lt_ge_cases (Z.min (7 * Z.of_nat k + 7) e) e) as [Hlt | Hge].
  - rewrite (day_after_in_month y m _ e) by lia.
    replace (Z.min (7 * Z.of_nat k + 7) e + 1) with (7 * Z.of_nat (S k) + 1) by lia.
    change (Date y m (7 * Z.of_nat (S k) + 1)) with (spec_week_start y m (S k)).
    rewrite (IH fuel (S k)) by lia.
    cbn [seq map concat]. by rewrite <- app_assoc.
  - assert (n = 0%nat) as ->.
    { pose proof (spec_week_count_last e k Hk ltac:(lia)). lia. }
    destruct fuel as [| fuel]; [lia |].
    replace (Z.min (7 * Z.of_nat k + 7) e) with e by lia.
    rewrite week_loop_exit by by apply day_after_last.
    cbn [seq map concat]. rewrite app_nil_r. unfold spec_week_end.
    by replace (Z.min (7 * Z.of_nat k + 7) e) with e by lia.
Qed.

(** An expense of the month is among the rows of exactly one week, the
    one its day falls in. *)
Lemma weekly_df_spec df (y m e : Z) (k : nat) (r : row date A) :
  year (r_date r) = y → month (r_date r) = m → 1 <= day (r_date r) <= e →
  r ∈ Ledger.weekly_df df (spec_week_start y m k) (spec_week_end y m e k)
  ↔ r ∈ df ∧ r_type r = Some "expense" ∧ k = spec_week_of (day (r_date r)).
Proof.
  intros Hy Hm Hd. unfold Ledger.weekly_df. rewrite list_elem_of_filter.
  destruct (r_date r) as [y' m' d]. cbn in Hy, Hm, Hd. subst y' m'.
  unfold spec_week_start, spec_week_end. rewrite !date_leb_same_month, !Z.leb_le.
  unfold spec_week_of. cbn [day].
  split.
  - intros ((H1 & H2 & H3) & H4). repeat split; [done .. |].
    Z.div_mod_to_equations. lia.
  - intros (H1 & H2 & ->). repeat split; [.. | done | done];
      Z.div_mod_to_equations; lia.
Qed.

(** Every turn of the loop moves the start of the week on by a day at
    least: the loop ends on the fuel [export_md] gives it. *)
Lemma week_loop_terminates month (df : list (row date A)) eom :
  in_calendar eom →
  ∀ (fuel num : nat) t acc,
    in_calendar t →
    (Z.to_nat (toordinal eom - toordinal t + 1) < fuel)%nat →
    is_Some (Ledger.week_loop fuel month df eom num t acc).
Proof.
  intros Heom. induction fuel as [| fuel IH]; intros num t acc Ht Hfuel; [lia |].
  cbn [Ledger.week_loop].
  destruct (date_leb t eom) eqn:E; [| by eexists].
  pose proof (toordinal_leb t eom Ht Heom E) as Hle.
  destruct (toordinal_add_days 6 t Ht) as [H6 Hcal6].
  destruct (date_ltb eom (add_days 6 t)).
  - destruct (toordinal_add_days 1 eom Heom) as [H1 Hcal1].
    apply IH; [done | lia].
  - destruct (toordinal_add_days 1 (add_days 6 t) Hcal6) as [H1 Hcal1].
    apply IH; [done | lia].
Qed.

End weekly.

Section weekly_export.
Context {A : Type} {Am : Amount A} {QS : Quicksort}.
Context {PP : Pyplot A}.
Implicit Types (df : list (row date A)).

Lemma to_timestamps_valid (df0 : DataFrame A) df :
  to_timestamps df0 = Returns df →
  length df = length df0
  ∧ Forall (λ r, 1 <= month (r_date r) <= 12
                 ∧ 1 <= day (r_date r) <= days_in_month (year (r_date r)) (month (r_date r))) df.
Proof.
  unfold to_timestamps. intros H. apply attempt_all_Returns in H.
  split; [symmetry; by eapply Forall2_length |].
  induction H as [| r0 r df0 df Hr _ IH]; constructor; [| exact IH].
  destruct (to_datetime (r_date r0)) as [[t |] | |] eqn:E; try discriminate.
  injection Hr as <-. cbn.
  unfold to_datetime in E. destruct (r_date r0) as [s |]; [| discriminate].
  destruct (strptime s) as [t' |] eqn:Es; [| discriminate].
  destruct (String.eqb s (strftime_Ymd t')); [| discriminate].
  destruct (Timestamp_holds t'); [| discriminate]. injection E as ->.
  by apply (strptime_valid s).
Qed.

Lemma toordinal_same_month (y m d1 d2 : Z) :
  toordinal (Date y m d2) - toordinal (Date y m d1) = d2 - d1.
Proof. unfold toordinal. cbn. lia. Qed.

Lemma weekly_pie_raises_None (weekly : list (Ledger.week_section A)) :
  Ledger.weekly_pie_raises weekly = None
  ↔ Forall (λ w, pie_raises (values (Ledger.weekly_expense_summary w)) = false) weekly.
Proof.
  induction weekly as [| w weekly IH]; cbn [Ledger.weekly_pie_raises]; [done |].
  rewrite Forall_cons, <- IH.
  destruct (pie_raises _); [by split; [| intros [? _]] |].
  destruct (Ledger.weekly_pie_raises weekly); cbn; split; try done; by intros [_ ?].
Qed.

(** What [export_md] has done when it ends with the document: no pie
    chart raised, and the document has these parts. *)
Lemma month_charts_and_md_Exported month df weekly rep :
  Ledger.month_charts_and_md month df weekly = Ledger.Exported rep →
  Ledger.weekly_expense_md rep = weekly
  ∧ Ledger.listing rep = df
  ∧ Forall (λ w, pie_raises (values (Ledger.weekly_expense_summary w)) = false) weekly
  ∧ match groupby_category_sum (of_type "expense" df) with
    | [] => True
    | _ :: _ => pie_raises (values (groupby_category_sum (of_type "expense" df))) = false
    end
  ∧ Ledger.expense_summary rep = groupby_category_sum (of_type "expense" df)
  ∧ Ledger.income_total rep = amount_sum (of_type "income" df)
  ∧ Ledger.expense_total rep = amount_sum (of_type "expense" df)
  ∧ Ledger.net_total rep = fsub (Ledger.income_total rep) (Ledger.expense_total rep)
  ∧ Ledger.pie_path rep
    = match Ledger.expense_summary rep with [] => None | _ :: _ => Some (Ledger.Pie month) end
  ∧ Ledger.line_path rep
    = match of_type "expense" df, Ledger.groupby_date_sum (of_type "expense" df) with
      | _ :: _, _ :: _ => Some (Ledger.Line month)
      | _, _ => None
      end
  ∧ Ledger.daily_line_path rep
    = match of_type "expense" df, Ledger.groupby_date_sum (of_type "expense" df) with
      | _ :: _, _ :: _ => Some (Ledger.DailyLine month)
      | _, _ => None
      end.
Proof.
  unfold Ledger.month_charts_and_md.
  destruct (Ledger.weekly_pie_raises weekly) eqn:Eweeks; [discriminate |].
  apply weekly_pie_raises_None in Eweeks.
  destruct (groupby_category_sum (of_type "expense" df)) as [| x s] eqn:Esum.
  - intros [= <-]. by repeat split.
  - destruct (pie_raises (values (x :: s))) eqn:Epie; [discriminate |].
    intros [= <-]. by repeat split.
Qed.

(** The export of a table whose dates convert and lie in one month [m]
    of a year [y], the last transaction on day [e]: the weekly loop
    adds what the weeks 1-7, 8-14, ... of the month contribute, the last
    week cut at day [e]; unless no timestamp holds the first of the
    month, or the first of the next. *)
Lemma export_md_single_month mkey (fs : store A) df (y m : Z) :
  to_timestamps (LedgerPro.get_monthly_data mkey fs) = Returns df →
  df ≠ [] →
  Forall (λ r, year (r_date r) = y ∧ month (r_date r) = m) df →
  ∃ e,
    (∃ r, r ∈ df ∧ r_date r = Date y m e)
    ∧ Forall (λ r, 1 <= day (r_date r) <= e) df
    ∧ snd (Ledger.export_md mkey fs)
      = if Timestamp_holds (Date y m 1) && Timestamp_holds (add_month (Date y m 1))
        then Ledger.month_charts_and_md mkey df
               (concat (map (λ k, Ledger.week_md mkey df (S k)
                                    (spec_week_start y m k) (spec_week_end y m e k))
                            (seq 0 (spec_week_count e))))
        else Ledger.Raised [].
Proof.
  intros Hts Hne Hsame.
  destruct (to_timestamps_valid _ _ Hts) as [Hlen Hvalid].
  destruct df as [| r0 df']; [done |]. clear Hne.
  set (df := r0 :: df') in *.
  set (dates := map r_date df).
  (* the last and the first date *)
  pose proof (foldl_date_max_in dates (r_date r0)) as Hmax_in.
  pose proof (foldl_date_min_in dates (r_date r0)) as Hmin_in.
  fold (max_date (r_date r0) dates) in Hmax_in.
  fold (min_date (r_date r0) dates) in Hmin_in.
  assert (∀ t, t ∈ r_date r0 :: dates → ∃ r, r ∈ df ∧ r_date r = t) as Hrow.
  { intros t Ht. apply elem_of_cons in Ht as [-> | Ht].
    - exists r0. split; [apply list_elem_of_here | done].
    - unfold dates in Ht. rewrite list_elem_of_In, in_map_iff in Ht.
      destruct Ht as (r & <- & Hr). exists r. by rewrite list_elem_of_In. }
  destruct (Hrow _ Hmax_in) as (rmax & Hrmax & Hmax).
  destruct (Hrow _ Hmin_in) as (rmin & Hrmin & Hmin).
  rewrite Forall_forall in Hsame, Hvalid.
  set (e := day (max_date (r_date r0) dates)).
  assert (max_date (r_date r0) dates = Date y m e) as Hmx.
  { destruct (Hsame _ Hrmax) as [Hy Hm]. rewrite Hmax in Hy, Hm.
    unfold e. destruct (max_date (r_date r0) dates). cbn in *. by subst. }
  assert (replace_day1 (min_date (r_date r0) dates) = Date y m 1) as Hmn.
  { destruct (Hsame _ Hrmin) as [Hy Hm]. rewrite Hmin in Hy, Hm.
    unfold replace_day1. by rewrite Hy, Hm. }
  assert (1 <= m <= 12 ∧ 1 <= e <= days_in_month y m) as [Hm He].
  { destruct (Hvalid _ Hrmax) as [H1 H2]. rewrite Hmax, Hmx in H1, H2. by cbn in *. }
  assert (Forall (λ r, 1 <= day (r_date r) <= e) df) as Hdays.
  { rewrite Forall_forall. intros r Hr.
    destruct (Hvalid _ Hr) as [_ [H1 _]]. split; [done |].
    assert (date_leb (r_date r) (max_date (r_date r0) dates) = true) as Hle.
    { apply foldl_date_max_ge. right. unfold dates.
      rewrite list_elem_of_In. apply in_map. by rewrite <- list_elem_of_In. }
    destruct (Hsame _ Hr) as [Hy Hmo]. rewrite Hmx in Hle.
    apply date_leb_iff in Hle. cbn in Hle. lia. }
  exists e. split; [| split].
  - exists rmax. split; [done |]. by rewrite Hmax.
  - exact Hdays.
  - unfold Ledger.export_md. rewrite read_ensure_csv.
    destruct (LedgerPro.get_monthly_data mkey fs) as [| x l] eqn:Edata;
      [discriminate Hlen |].
    rewrite Hts. unfold df at 1. cbv beta iota zeta. fold df. fold dates.
    rewrite Hmn, Hmx. change (replace_day1 (Date y m e)) with (Date y m 1).
    destruct (Timestamp_holds (Date y m 1) && Timestamp_holds (add_month (Date y m 1)));
      [| done].
    assert (date_min (prev_day (add_month (Date y m 1))) (Date y m e) = Date y m e)
      as Hend.
    { change (Date y m 1) with (replace_day1 (Date y m 1)).
      rewrite (last_day_of_month y m Hm).
      unfold date_min. rewrite date_leb_same_month.
      destruct (Z.leb_spec (days_in_month y m) e); [| done]. f_equal. lia. }
    rewrite Hend, toordinal_same_month.
    change (Date y m 1) with (spec_week_start y m 0).
    rewrite (week_loop_month mkey df y m e ltac:(lia) (spec_week_count e)).
    + cbn [snd app]. reflexivity.
    + cbn. lia.
    + lia.
    + unfold spec_week_count. Z.div_mod_to_equations. lia.
Qed.

Lemma month_charts_and_md_followed month (df : list (row date A)) weekly :
  Ledger.month_charts_and_md month df weekly ≠ Ledger.Unknown
  ∧ Ledger.month_charts_and_md month df weekly ≠ Ledger.NoRecords.
Proof.
  unfold Ledger.month_charts_and_md.
  destruct (Ledger.weekly_pie_raises weekly); [done |]. cbv zeta.
  by destruct (match groupby_category_sum _ with [] => false | _ => _ end).
Qed.

(** The export of a month is followed whenever the dates of its rows
    are: the fuel of the weekly loop is never used up. *)
Lemma export_md_Unknown mkey (fs : store A) :
  snd (Ledger.export_md mkey fs) = Ledger.Unknown
  ↔ LedgerPro.get_monthly_data mkey fs ≠ []
    ∧ to_timestamps (LedgerPro.get_monthly_data mkey fs) = NotFollowed.
Proof.
  unfold Ledger.export_md. rewrite read_ensure_csv.
  destruct (LedgerPro.get_monthly_data mkey fs) as [| x l] eqn:Edata;
    [split; [discriminate | by intros [? _]] |].
  destruct (to_timestamps (x :: l)) as [df | |] eqn:Ets;
    [| split; [discriminate | by intros [_ [=]]] | done].
  split; [| by intros [_ [=]]].
  destruct (to_timestamps_valid _ _ Ets) as [_ Hvalid].
  destruct df as [| r0 df]; [discriminate |].
  cbv beta iota zeta.
  destruct (_ && _); [| discriminate].
  set (dates := map r_date (r0 :: df)).
  assert (∀ t, t ∈ r_date r0 :: dates → in_calendar t) as Hcal.
  { intros t Ht. rewrite Forall_forall in Hvalid.
    apply elem_of_cons in Ht as [-> | Ht].
    - apply (Hvalid r0). apply list_elem_of_here.
    - unfold dates in Ht. rewrite list_elem_of_In, in_map_iff in Ht.
      destruct Ht as (r & <- & Hr). apply (Hvalid r). by rewrite list_elem_of_In. }
  pose proof (Hcal _ (foldl_date_max_in dates (r_date r0))) as Hmax.
  pose proof (Hcal _ (foldl_date_min_in dates (r_date r0))) as Hmin.
  fold (max_date (r_date r0) dates) in Hmax.
  fold (min_date (r_date r0) dates) in Hmin.
  assert (∀ t, in_calendar t → in_calendar (replace_day1 t)) as Hfirst.
  { intros [y m d] [Hm Hd]. split; [done |]. cbn [replace_day1 year month day] in *.
    unfold days_in_month. destruct (m =? 2); [destruct (is_leap y); lia |].
    match goal with |- context [if ?b then 30 else 31] => destruct b end; lia. }
  assert (∀ t, in_calendar t →
            in_calendar (prev_day (add_month (replace_day1 t)))) as Hlast.
  { intros [y m d] [Hm Hd]. cbn [year month day] in Hm.
    change (replace_day1 (Date y m d)) with (replace_day1 (Date y m 1)).
    rewrite (last_day_of_month y m Hm). split; cbn [year month day]; [done |].
    split; [| lia]. unfold days_in_month. destruct (m =? 2); [destruct (is_leap y); lia |].
    match goal with |- context [if ?b then 30 else 31] => destruct b end; lia. }
  match goal with
  | |- context [Ledger.week_loop ?f mkey ?d ?eom 1%nat ?start []] =>
      assert (is_Some (Ledger.week_loop f mkey d eom 1%nat start [])) as [weeks ->]
  end.
  { apply week_loop_terminates.
    - unfold date_min. destruct (date_leb _ _); [by apply Hlast | done].
    - by apply Hfirst.
    - lia. }
  cbn [snd]. intros H. by apply month_charts_and_md_followed in H.
Qed.
(** C3, as amended.  For a month table that is not empty, whose dates
    convert and lie in one month [m] of a year [y], with the last
    transaction on day [e]: the weekly part of the export is what the
    weeks 1-7, 8-14, ... of that month contribute, the last week cut at
    day [e]; the weeks start on the first of the month, wherever the
    first transaction lies, and an expense is among the rows of exactly
    the week that holds its day.  Rows that are no expense are in no
    week.  The export raises when no timestamp holds the first of the
    month or of the next, which is so in September 1677 and in April
    2262; and the document is written, with these weeks, when no pie
    chart raises. *)
Theorem weekly_windows mkey (fs : store A) df (y m : Z) :
  to_timestamps (LedgerPro.get_monthly_data mkey fs) = Returns df →
  df ≠ [] →
  Forall (λ r, year (r_date r) = y ∧ month (r_date r) = m) df →
  ∃ e,
    (∃ r, r ∈ df ∧ r_date r = Date y m e)
    ∧ Forall (λ r, 1 <= day (r_date r) <= e) df
    ∧ snd (Ledger.export_md mkey fs)
      = (if Timestamp_holds (Date y m 1) && Timestamp_holds (add_month (Date y m 1))
         then Ledger.month_charts_and_md mkey df
                (concat (map (λ k, Ledger.week_md mkey df (S k)
                                     (spec_week_start y m k) (spec_week_end y m e k))
                             (seq 0 (spec_week_count e))))
         else Ledger.Raised [])
    ∧ (∀ rep, snd (Ledger.export_md mkey fs) = Ledger.Exported rep →
         Ledger.weekly_expense_md rep
         = concat (map (λ k, Ledger.week_md mkey df (S k)
                               (spec_week_start y m k) (spec_week_end y m e k))
                       (seq 0 (spec_week_count e))))
    ∧ ∀ r k, r ∈ df →
        (r ∈ Ledger.weekly_df df (spec_week_start y m k) (spec_week_end y m e k)
         ↔ r_type r = Some "expense" ∧ k = spec_week_of (day (r_date r))).
Proof.
  intros Hts Hne Hsame.
  destruct (export_md_single_month mkey fs df y m Hts Hne Hsame)
    as (e & Hlast & Hdays & Hexport).
  exists e. split; [exact Hlast |]. split; [exact Hdays |]. split; [exact Hexport |].
  split.
  - intros rep Hrep. rewrite Hexport in Hrep.
    destruct (Timestamp_holds (Date y m 1) && Timestamp_holds (add_month (Date y m 1)));
      [| discriminate].
    by apply month_charts_and_md_Exported in Hrep as [Hweeks _].
  - intros r k Hr. rewrite Forall_forall in Hsame, Hdays.
    destruct (Hsame _ Hr) as [Hy Hmo].
    rewrite (weekly_df_spec df y m e k r Hy Hmo (Hdays _ Hr)). tauto.
Qed.

End weekly_export.

(** ** The statements on concrete ledgers

    Integer amounts; where a report sorts, the sorting routine is named. *)

(** C1 as stated fails: a negative amount is appended by the [add]
    command, and [add_record] itself, which the web routes call without
    the date check, appends a row whose date is no date. *)
Lemma add_accepts_a_negative_amount :
  Ledger.main_add (Date 2025 9 2) "2025-09-01" "food" (-5) "expense" "" (∅ : store Z)
  = ({[ "2025-09" := [CsvRow "2025-09-01" "food" (-5) "expense" ""] ]}, Ledger.Added)
  ∧ Ledger.add_record "someday" "food" 5 "expense" "" (∅ : store Z)
    = {[ "someday" := [CsvRow "someday" "food" 5 "expense" ""] ]}.
Proof. split; by vm_compute. Qed.

Lemma main_add_checks_the_date_only_witness :
("2025-13-01" ∉ ["1"; "-1"; "-2"; "-3"])
  ∧ Ledger.main_add (Date 2025 9 2) "2025-13-01" "food" 25 "expense" "" (∅ : store Z)
    = (∅, Ledger.DateFormatError).
Proof.
  assert ("2025-13-01" ∉ ["1"; "-1"; "-2"; "-3"]) as H by compute_done.
  split; [exact H |].
  exact (main_add_checks_the_date_only (Date 2025 9 2) "2025-13-01" "food" 25
           "expense" "" (∅ : store Z) H).
Defined.




(** C3 as stated fails: with the first transaction on the 5th and
    another on the 9th, weeks counted from the first transaction's day
    (5 to 11) would hold both; the document has them in two weeks, 1 to
    7 and 8 to 9. *)
Lemma weeks_start_on_the_first_of_the_month :
  LedgerPro.get_monthly_data "2025-09" ledger_weeks
  = [Row (Some "2025-09-05") (Some "food") 10 (Some "expense") (Some "lunch");
     Row (Some "2025-09-09") (Some "transport") 20 (Some "expense") (Some "bus")]
  ∧ ∃ rep,
      snd (Ledger.export_md (QS := merge_quicksort) "2025-09" ledger_weeks)
      = Ledger.Exported rep
      ∧ map (λ w, (Ledger.week_num w, Ledger.current_week_start w,
                   Ledger.current_week_end w, Ledger.weekly_expense_summary w))
            (Ledger.weekly_expense_md rep)
        = [(1%nat, Date 2025 9 1, Date 2025 9 7, [("food", 10)]);
           (2%nat, Date 2025 9 8, Date 2025 9 9, [("transport", 20)])].
Proof. split; [by vm_compute |]. eexists. split; by vm_compute. Qed.

Lemma weekly_windows_witness :
  let df := [Row (Date 2025 9 5) (Some "food") 10 (Some "expense") (Some "lunch");
             Row (Date 2025 9 9) (Some "transport") 20 (Some "expense") (Some "bus")] in
  to_timestamps (LedgerPro.get_monthly_data "2025-09" ledger_weeks) = Returns df
  ∧ df ≠ []
  ∧ Forall (λ r, year (r_date r) = 2025 ∧ month (r_date r) = 9) df
  ∧ ∃ e,
      (∃ r, r ∈ df ∧ r_date r = Date 2025 9 e)
      ∧ Forall (λ r, 1 <= day (r_date r) <= e) df
      ∧ snd (Ledger.export_md (QS := merge_quicksort) "2025-09" ledger_weeks)
        = (if Timestamp_holds (Date 2025 9 1) && Timestamp_holds (add_month (Date 2025 9 1))
           then Ledger.month_charts_and_md "2025-09" df
                  (concat (map (λ k, Ledger.week_md (QS := merge_quicksort) "2025-09" df (S k)
                                       (spec_week_start 2025 9 k) (spec_week_end 2025 9 e k))
                               (seq 0 (spec_week_count e))))
           else Ledger.Raised [])
      ∧ (∀ rep, snd (Ledger.export_md (QS := merge_quicksort) "2025-09" ledger_weeks)
                = Ledger.Exported rep →
           Ledger.weekly_expense_md rep
           = concat (map (λ k, Ledger.week_md (QS := merge_quicksort) "2025-09" df (S k)
                                 (spec_week_start 2025 9 k) (spec_week_end 2025 9 e k))
                         (seq 0 (spec_week_count e))))
      ∧ ∀ r k, r ∈ df →
          (r ∈ Ledger.weekly_df df (spec_week_start 2025 9 k) (spec_week_end 2025 9 e k)
           ↔ r_type r = Some "expense" ∧ k = spec_week_of (day (r_date r))).
Proof.
  intros df.
  assert (to_timestamps (LedgerPro.get_monthly_data "2025-09" ledger_weeks) = Returns df)
    as H1 by (by vm_compute).
  assert (df ≠ []) as H2 by done.
  assert (Forall (λ r, year (r_date r) = 2025 ∧ month (r_date r) = 9) df)
    as H3 by (by repeat constructor).
  split; [exact H1 |]. split; [exact H2 |]. split; [exact H3 |].
  exact (weekly_windows (QS := merge_quicksort) "2025-09" ledger_weeks df 2025 9 H1 H2 H3).
Defined.

(** In April 2262 the month after is one no timestamp holds, and the
    export raises before a chart is drawn; and a pie chart of a
    negative sum raises, after the charts of the weeks before it. *)
Example export_md_raises :
  snd (Ledger.export_md (QS := merge_quicksort) "2262-04"
         (Ledger.add_record "2262-04-05" "food" 10 "expense" "lunch" (∅ : store Z)))
  = Ledger.Raised []
  ∧ snd (Ledger.export_md (QS := merge_quicksort) "2025-09"
           (Ledger.add_record "2025-09-09" "refund" (-5) "expense" ""
              (Ledger.add_record "2025-09-05" "food" 10 "expense" "lunch" (∅ : store Z))))
    = Ledger.Raised [Ledger.WeekPie "2025-09" 1].
Proof. split; by vm_compute. Qed.

(** C4 as stated fails: for a month without transactions the export of
    the command line produces no report. *)
Lemma export_of_an_empty_month_writes_no_report :
  snd (Ledger.export_md (QS := merge_quicksort) "2025-09" (∅ : store Z)) = Ledger.NoRecords
  ∧ ¬ ∃ rep, snd (Ledger.export_md (QS := merge_quicksort) "2025-09" (∅ : store Z))
             = Ledger.Exported rep.
Proof. split; [by vm_compute |]. intros [rep H]. by vm_compute in H. Qed.

Lemma month_without_rows_witness :
  LedgerPro.get_monthly_data "2025-09" (∅ : store Z) = []
  ∧ snd (Ledger.export_md (QS := merge_quicksort) "2025-09" (∅ : store Z)) = Ledger.NoRecords
  ∧ Ledger.charts_generated
      (snd (Ledger.export_md (QS := merge_quicksort) "2025-09" (∅ : store Z))) = []
  ∧ snd (Ledger.generate_report (QS := merge_quicksort) "2025-09" (∅ : store Z)) = None
  ∧ snd (Api.export_md "2025-09" (∅ : store Z)) = Api.Document [] 0 0 0
  ∧ snd (Api.generate_report "2025-09" (∅ : store Z)) = Api.Report "2025-09" 0 0 0 [].
Proof.
  assert (LedgerPro.get_monthly_data "2025-09" (∅ : store Z) = []) as H by reflexivity.
  split; [exact H |].
  exact (month_without_rows (QS := merge_quicksort) "2025-09" (∅ : store Z) H).
Defined.

(** C6 on its failing input, the ledger with food 10 on the 5th and
    transport 20 on the 9th of September 2025.  [generate_report] prints
    the summary of the month with transport 20 before food 10.  The
    table of the categories in the document [export_md] writes for the
    same month is the grouped sum as [groupby] leaves it, in the order
    of the categories, without the call of [sort_values]: food 10 comes
    before transport 20, a smaller amount before a larger one. *)
Theorem export_md_summary_is_not_descending :
  Ledger.summary
    <$> snd (Ledger.generate_report (QS := merge_quicksort) "2025-09" ledger_weeks)
  = Some [("transport", 20); ("food", 10)]
  ∧ ∃ rep, snd (Ledger.export_md (QS := merge_quicksort) "2025-09" ledger_weeks)
           = Ledger.Exported rep
      ∧ Ledger.expense_summary rep = [("food", 10); ("transport", 20)]
      ∧ ¬ StronglySorted amount_ge (Ledger.expense_summary rep).
Proof.
  split; [by vm_compute |].
  eexists. split; [by vm_compute |]. split; [by vm_compute |].
  cbn [Ledger.expense_summary]. intros H.
  apply StronglySorted_inv in H as [_ H]. apply Forall_inv in H. by vm_compute in H.
Qed.

(** C7 as stated fails: an expense whose category reads as a missing
    value counts in the total of the expenses and in no category. *)
Lemma expense_without_category_is_in_no_summary :
  ∃ rep, snd (Ledger.generate_report (QS := merge_quicksort) "2025-09" ledger_na) = Some rep
    ∧ Ledger.expense rep = 25
    ∧ Ledger.summary rep = []
    ∧ Series_sum (values (Ledger.summary rep)) = 0.
Proof. eexists. repeat split; by vm_compute. Qed.

Lemma net_and_category_sums_witness :
  let df := LedgerPro.get_monthly_data "2025-09" ledger_weeks in
  AmountLaws Z ∧ @QuicksortSpec merge_quicksort
  ∧ (let '(income, expense, net) := LedgerPro.calculate_monthly_summary df in
     net = fsub income expense
     ∧ Series_sum (values (sort_values_desc (QS := merge_quicksort)
                             (groupby_category_sum (of_type "expense" df))))
       = amount_sum (filter has_category (of_type "expense" df))
     ∧ (Forall has_category df →
        Series_sum (values (sort_values_desc (QS := merge_quicksort)
                                (groupby_category_sum (of_type "income" df)))) = income
        ∧ Series_sum (values (sort_values_desc (QS := merge_quicksort)
                                  (groupby_category_sum (of_type "expense" df)))) = expense))
  ∧ match snd (Ledger.generate_report (QS := merge_quicksort) "2025-09" ledger_weeks) with
    | Some rep =>
        Ledger.net rep = fsub (Ledger.income rep) (Ledger.expense rep)
        ∧ Series_sum (values (Ledger.summary rep))
          = amount_sum (filter has_category
                          (of_type "expense"
                             (LedgerPro.get_monthly_data "2025-09" ledger_weeks)))
        ∧ (Forall has_category (LedgerPro.get_monthly_data "2025-09" ledger_weeks) →
           Series_sum (values (Ledger.summary rep)) = Ledger.expense rep)
    | None => LedgerPro.get_monthly_data "2025-09" ledger_weeks = []
    end.
Proof.
  intros df.
  split; [exact Z_amount_laws |]. split; [exact merge_quicksort_spec |].
  exact (net_and_category_sums (QS := merge_quicksort) (QSS := merge_quicksort_spec)
           df "expense" "2025-09" ledger_weeks).
Defined.

Lemma missing_kind_is_zero_and_empty_witness :
  let df := LedgerPro.get_monthly_data "2025-09" ledger_weeks in
  AmountLaws Z ∧ @QuicksortSpec merge_quicksort
  ∧ Forall (λ r, r_type r ≠ Some "income") df
  ∧ LedgerPro.get_monthly_data "2025-10" ledger_weeks = []
  ∧ amount_sum (of_type "income" df) = 0
  ∧ sort_values_desc (QS := merge_quicksort) (groupby_category_sum (of_type "income" df)) = []
  ∧ groupby_category_sum (of_type "income" df) = []
  ∧ LedgerPro.calculate_monthly_summary ([] : DataFrame Z) = (0, 0, 0)
  ∧ snd (Api.generate_report "2025-10" ledger_weeks) = Api.Report "2025-10" 0 0 0 [].
Proof.
  intros df.
  assert (Forall (λ r, r_type r ≠ Some "income") df) as Hkind
    by (by repeat constructor).
  assert (LedgerPro.get_monthly_data "2025-10" ledger_weeks = []) as Hempty
    by (by vm_compute).
  split; [exact Z_amount_laws |]. split; [exact merge_quicksort_spec |].
  split; [exact Hkind |]. split; [exact Hempty |].
  exact (missing_kind_is_zero_and_empty (QS := merge_quicksort)
           (QSS := merge_quicksort_spec) df "income" "2025-10" ledger_weeks Hkind Hempty).
Defined.

(** * Further theorems

    What the code shows beyond the statements above: the effects on the
    store, the parts of the exported documents, the months of ranges and
    years, the categories in use, the middleware of the REST service,
    the passwords and the authorised devices of the web routes, and the
    choice of the months by the commands. *)

(** ** The store under the report functions and under [add_record] *)

Section store_effects.
Context {A : Type} {Am : Amount A} {QS : Quicksort}.
Context {PP : Pyplot A}.
Implicit Types (fs : store A).

Lemma get_monthly_data_ensure_csv month key fs :
  LedgerPro.get_monthly_data key (Ledger.ensure_csv month fs)
  = LedgerPro.get_monthly_data key fs.
Proof.
  unfold LedgerPro.get_monthly_data, Ledger.ensure_csv, Ledger.get_csv_path.
  destruct (fs !! month) eqn:E; [done |].
  destruct (decide (key = month)) as [-> | Hne].
  - by rewrite lookup_insert_eq, E.
  - by rewrite lookup_insert_ne.
Qed.

Lemma export_md_fst month fs : fst (Ledger.export_md month fs) = Ledger.ensure_csv month fs.
Proof.
  unfold Ledger.export_md.
  destruct (read_csv _) as [| x l]; [done |].
  destruct (to_timestamps _) as [[| r0 df] | |]; [done | | done | done].
  cbv beta iota zeta. destruct (_ && _); [| done].
  by destruct (Ledger.week_loop _ _ _ _ _ _ _).
Qed.

Lemma generate_report_fst month fs :
  fst (Ledger.generate_report month fs) = Ledger.ensure_csv month fs.
Proof. unfold Ledger.generate_report. by destruct (read_csv _). Qed.

(** X1.  The report functions read: all they change in the data directory is
    that a month asked for and without a file gets the file of the
    header row alone.  No row of any month is added, dropped or
    changed, and asking again changes nothing more. *)
Theorem reports_only_create_the_file month fs :
  fst (Ledger.generate_report month fs) = Ledger.ensure_csv month fs
  ∧ fst (Ledger.export_md month fs) = Ledger.ensure_csv month fs
  ∧ fst (Api.generate_report month fs) = Ledger.ensure_csv month fs
  ∧ fst (Api.export_md month fs) = Ledger.ensure_csv month fs
  ∧ Ledger.ensure_csv month fs = <[month := default [] (fs !! month)]> fs
  ∧ Ledger.ensure_csv month (Ledger.ensure_csv month fs) = Ledger.ensure_csv month fs
  ∧ ∀ key, LedgerPro.get_monthly_data key (Ledger.ensure_csv month fs)
           = LedgerPro.get_monthly_data key fs.
Proof.
  split; [apply generate_report_fst |]. split; [apply export_md_fst |].
  split.
  { unfold Api.generate_report.
    change (Api.ensure_csv month fs) with (Ledger.ensure_csv month fs).
    by destruct (read_csv _). }
  split; [reflexivity |].
  split.
  { unfold Ledger.ensure_csv, Ledger.get_csv_path.
    destruct (fs !! month) as [f |] eqn:E; cbn [default].
    - symmetry. by apply insert_id.
    - reflexivity. }
  split.
  { unfold Ledger.ensure_csv at 1, Ledger.get_csv_path.
    destruct (Ledger.ensure_csv month fs !! month) eqn:E; [done |].
    unfold Ledger.ensure_csv, Ledger.get_csv_path in E.
    destruct (fs !! month) eqn:E'; [congruence |].
    by rewrite lookup_insert_eq in E. }
  intros key. apply get_monthly_data_ensure_csv.
Qed.





Lemma add_record_month_table_inv date category (amount : A) record_type note fs :
  month_table_inv fs → is_Some (strptime date) →
  month_table_inv (Ledger.add_record date category amount record_type note fs).
Proof.
  intros Hinv Hdate.
  intros key f Hlook. apply Forall_forall. intros l Hin.
  destruct (decide (key = substring 0 7 date)) as [-> | Hne].
  - rewrite add_record_lookup in Hlook. injection Hlook as <-.
    apply elem_of_app in Hin as [Hin | Hin].
    + apply elem_of_to_csv_read in Hin as (l0 & Hin0 & Heq).
      destruct (fs !! substring 0 7 date) as [f0 |] eqn:E; cbn [default] in Hin0.
      * pose proof (Hinv _ _ E) as Hf0. rewrite Forall_forall in Hf0.
        destruct (Hf0 _ Hin0) as [Hp Hk].
        rewrite na_rep_filter_present in Heq by by apply strptime_not_na.
        by rewrite Heq.
      * by apply elem_of_nil in Hin0.
    + apply list_elem_of_singleton in Hin as ->. by split.
  - rewrite add_record_lookup_ne in Hlook by done.
    pose proof (Hinv _ _ Hlook) as Hf. rewrite Forall_forall in Hf. by apply Hf.
Qed.

End store_effects.

(** ** [strftime] and [strptime] *)

Lemma parse_year_pad4 (y : Z) (r : string) :
  0 <= y <= 9999 → parse_year (pad4 y +:+ r) = Some (y, r).
Proof.
  intros Hy. unfold pad4, parse_year. cbv [String.append].
  rewrite !digit_val_char. f_equal. f_equal. Z.div_mod_to_equations. lia.
Qed.

Lemma match_month_day_pad2 (m d : Z) :
  1 <= m <= 12 → 1 <= d <= 31 →
  match_month_day (month_alts (pad2 m +:+ "-" +:+ pad2 d)) = Some (m, d, "").
Proof.
  intros Hm Hd.
  assert (forallb (λ m, forallb (λ d,
            match match_month_day (month_alts (pad2 m +:+ "-" +:+ pad2 d)) with
            | Some (m', d', "") => (m' =? m) && (d' =? d)
            | _ => false
            end) (seqZ 1 31)) (seqZ 1 12) = true) as Hall by (vm_compute; reflexivity).
  rewrite forallb_forall in Hall.
  assert (In m (seqZ 1 12)) as Hinm by (rewrite <- list_elem_of_In, elem_of_seqZ; lia).
  specialize (Hall m Hinm). rewrite forallb_forall in Hall.
  assert (In d (seqZ 1 31)) as Hind by (rewrite <- list_elem_of_In, elem_of_seqZ; lia).
  specialize (Hall d Hind).
  destruct (match_month_day _) as [[[m' d'] [| c r]] |]; try discriminate.
  apply andb_true_iff in Hall as [H1 H2].
  apply Z.eqb_eq in H1, H2. by subst.
Qed.

Lemma valid_date_bounds (t : date) :
  valid_date t
  ↔ 1 <= year t <= 9999 ∧ 1 <= month t <= 12
    ∧ 1 <= day t <= days_in_month (year t) (month t).
Proof.
  unfold valid_date, datetime_date, MINYEAR, MAXYEAR. destruct t as [y m d]. cbn.
  destruct (_ && _) eqn:E.
  - rewrite !andb_true_iff, !Z.leb_le in E. split; [lia | done].
  - split; [discriminate |]. intros H.
    assert ((1 <=? y) && (y <=? 9999) && (1 <=? m) && (m <=? 12) && (1 <=? d)
            && (d <=? days_in_month y m) = true) as E'
      by (rewrite !andb_true_iff, !Z.leb_le; lia).
    congruence.
Qed.

Lemma days_in_month_bounds (y m : Z) : 28 <= days_in_month y m <= 31.
Proof. unfold days_in_month. repeat case_match; lia. Qed.

(** A date written with four digits, two digits and two digits is read
    by [strptime] as [datetime.date] builds it. *)
Lemma strptime_pad (y m d : Z) :
  0 <= y <= 9999 → 1 <= m <= 12 → 1 <= d <= 31 →
  strptime (pad4 y +:+ "-" +:+ pad2 m +:+ "-" +:+ pad2 d) = datetime_date y m d.
Proof.
  intros Hy Hm Hd. unfold strptime.
  rewrite parse_year_pad4 by lia.
  change ("-" +:+ (pad2 m +:+ "-" +:+ pad2 d))
    with (String "-" (pad2 m +:+ "-" +:+ pad2 d)).
  cbv beta iota.
  by rewrite match_month_day_pad2.
Qed.

Lemma is_Some_strptime_strftime (t : date) :
  valid_date t → is_Some (strptime (strftime_Ymd t)).
Proof.
  intros Hv. pose proof Hv as (Hy & Hm & Hd)%valid_date_bounds.
  pose proof (days_in_month_bounds (year t) (month t)) as Hdim.
  unfold strftime_Ymd. rewrite strptime_pad by lia. by rewrite Hv.
Qed.

(** X5.  A date of a year of four digits written by
    [strftime("%Y-%m-%d")] is read back by [strptime] as the same date:
    the dates the [add] command makes up for the shortcuts 1, -1, -2
    and -3 are dates it would accept. *)
Theorem strptime_of_strftime (t : date) :
  valid_date t → 1000 <= year t → strptime (strftime_Ymd t) = Some t.
Proof.
  intros Hv _. pose proof Hv as Hb. apply valid_date_bounds in Hb.
  destruct Hb as (Hy & Hm & Hd).
  pose proof (days_in_month_bounds (year t) (month t)) as Hdim.
  unfold strftime_Ymd. rewrite strptime_pad by lia.
  exact Hv.
Qed.

Lemma strftime_Ymd_month (t : date) : substring 0 7 (strftime_Ymd t) = strftime_Ym t.
Proof. reflexivity. Qed.

Lemma prev_day_valid (t : date) :
  valid_date t → 1 <= year (prev_day t) → valid_date (prev_day t).
Proof.
  rewrite !valid_date_bounds. unfold prev_day. intros (Hy & Hm & Hd) Hp.
  destruct (Z.ltb_spec 1 (day t)); cbn in *; [lia |].
  destruct (Z.ltb_spec 1 (month t)); cbn in *.
  - pose proof (days_in_month_bounds (year t) (month t - 1)). lia.
  - change (days_in_month (year t - 1) 12) with 31. lia.
Qed.

Lemma sub_days_valid (n : nat) : ∀ t d,
  valid_date t → sub_days n t = Some d → valid_date d.
Proof.
  induction n as [| n IH]; intros t d Hv; cbn.
  - by intros [= <-].
  - unfold MINYEAR. destruct (Z.ltb_spec (year (prev_day t)) 1); [discriminate |].
    apply IH. apply prev_day_valid; [done | lia].
Qed.

(** Up to three days before a day of a year after 1000 lie in a year of
    four digits. *)
Lemma sub_days_four_digits (n : nat) (t : date) :
  valid_date t → 1000 < year t → (n <= 3)%nat →
  ∃ d, sub_days n t = Some d ∧ 1000 <= year d.
Proof.
  rewrite valid_date_bounds. intros (Hy & Hm & Hd) Hy' Hn.
  pose proof (days_in_month_bounds (year t) (month t - 1)) as Hdim.
  destruct n as [| [| [| [| n]]]]; [.. | lia];
    cbn [sub_days]; unfold prev_day, MINYEAR;
    repeat match goal with
           | |- context [Z.ltb ?a ?b] =>
               lazymatch a with
               | context [Z.ltb] => fail
               | _ =>
                   lazymatch b with
                   | context [Z.ltb] => fail
                   | _ => destruct (Z.ltb_spec a b); cbn [year month day] in *; try lia
                   end
               end
           end;
    eexists; (split; [reflexivity | cbn [year]; lia]).
Qed.

Section add_command.
Context {A : Type} {Am : Amount A} {QS : Quicksort}.
Implicit Types (fs : store A).

Lemma main_add_cases today date_str category (amount : A) type note fs :
  valid_date today → 1000 < year today →
  Ledger.main_add today date_str category amount type note fs = (fs, Ledger.DateFormatError)
  ∨ ∃ date, is_Some (strptime date)
      ∧ Ledger.main_add today date_str category amount type note fs
        = (Ledger.add_record date category amount type note fs, Ledger.Added).
Proof.
  intros Hv Hy. unfold Ledger.main_add.
  case_bool_decide.
  { right. eexists. split; [| reflexivity]. by apply is_Some_strptime_strftime. }
  case_bool_decide as Hin.
  { right.
    destruct (sub_days_four_digits
                (if bool_decide (date_str = "-1") then 1%nat
                 else if bool_decide (date_str = "-2") then 2%nat else 3%nat)
                today Hv Hy) as (d & E & Hd).
    { repeat case_bool_decide; lia. }
    rewrite E. eexists. split; [| reflexivity].
    apply is_Some_strptime_strftime. by eapply sub_days_valid. }
  destruct (strptime date_str) eqn:E.
  - right. eexists. split; [| reflexivity]. by rewrite E.
  - by left.
Qed.

(** X6.  The [add] command keeps the invariant of the month tables, whatever
    its date argument: a date it makes up for a shortcut and a date it
    has checked are filed under the first seven characters of a date
    that parses, and a date it refuses leaves the store as it was. *)
Theorem main_add_keeps_month_tables today date_str category (amount : A) type note fs :
  valid_date today → 1000 < year today → month_table_inv fs →
  month_table_inv (fst (Ledger.main_add today date_str category amount type note fs)).
Proof.
  intros Hv Hy Hinv.
  destruct (main_add_cases today date_str category amount type note fs Hv Hy)
    as [-> | (date & Hd & ->)]; [done |].
  by apply add_record_month_table_inv.
Qed.

(** X7.  The shortcuts of the [add] command: 1 files the record under
    today's year and month, with today's date; -1, -2 and -3 under the
    year and month of the day that many days before, with that day's
    date. *)
Theorem main_add_shortcuts today (n : nat) date_str category (amount : A) type note fs :
  valid_date today → 1000 < year today →
  (n, date_str) ∈ [(0%nat, "1"); (1%nat, "-1"); (2%nat, "-2"); (3%nat, "-3")] →
  ∃ d, sub_days n today = Some d
    ∧ valid_date d
    ∧ Ledger.main_add today date_str category amount type note fs
      = (Ledger.add_record (strftime_Ymd d) category amount type note fs, Ledger.Added)
    ∧ last (default [] (fst (Ledger.main_add today date_str category amount type note fs)
                        !! strftime_Ym d))
      = Some (CsvRow (strftime_Ymd d) category amount type note).
Proof.
  intros Hv Hy Hin.
  assert (∀ d, last (default [] (Ledger.add_record (strftime_Ymd d) category amount type note fs
                                 !! strftime_Ym d))
               = Some (CsvRow (strftime_Ymd d) category amount type note)) as Hlast.
  { intros d. rewrite <- strftime_Ymd_month, add_record_lookup. cbn [default].
    apply last_snoc. }
  destruct (sub_days_four_digits n today Hv Hy) as (d & E & _).
  { repeat (apply elem_of_cons in Hin as [[= -> ->] | Hin]);
      [lia .. | by apply elem_of_nil in Hin]. }
  exists d. split; [done |]. split; [by eapply sub_days_valid |].
  unfold Ledger.main_add.
  repeat (apply elem_of_cons in Hin as [[= -> ->] | Hin]);
    [.. | by apply elem_of_nil in Hin].
  - rewrite bool_decide_eq_true_2 by done.
    injection E as ->. split; [reflexivity |]. apply Hlast.
  - rewrite (bool_decide_eq_false_2 (_ = "1")) by done.
    rewrite (bool_decide_eq_true_2 (_ ∈ _)) by compute_done.
    rewrite (bool_decide_eq_true_2 (_ = "-1")) by done.
    rewrite E. split; [reflexivity |]. apply Hlast.
  - rewrite (bool_decide_eq_false_2 (_ = "1")) by done.
    rewrite (bool_decide_eq_true_2 (_ ∈ _)) by compute_done.
    rewrite (bool_decide_eq_false_2 (_ = "-1")) by done.
    rewrite (bool_decide_eq_true_2 (_ = "-2")) by done.
    rewrite E. split; [reflexivity |]. apply Hlast.
  - rewrite (bool_decide_eq_false_2 (_ = "1")) by done.
    rewrite (bool_decide_eq_true_2 (_ ∈ _)) by compute_done.
    rewrite (bool_decide_eq_false_2 (_ = "-1")) by done.
    rewrite (bool_decide_eq_false_2 (_ = "-2")) by done.
    rewrite E. split; [reflexivity |]. apply Hlast.
Qed.

End add_command.

(** ** The exported document of one month *)

Section export_one_month.
Context {A : Type} {Am : Amount A} {QS : Quicksort}.
Context {PP : Pyplot A}.
Implicit Types (fs : store A).

Lemma group_add_not_nil k (v : A) s : group_add k v s ≠ [].
Proof. destruct s as [| [k' v'] s]; cbn; [done |]. by destruct (String.compare k k'). Qed.

Lemma groupby_from_nil_iff {D} (df : list (row D A)) : ∀ s,
  foldl (λ s r, match r_category r with
                | Some k => group_add k (r_amount r) s
                | None => s
                end) s df = []
  ↔ s = [] ∧ Forall (λ r, r_category r = None) df.
Proof.
  induction df as [| r df IH]; intros s; cbn [foldl].
  - split; [by intros -> | by intros [-> _]].
  - rewrite IH, Forall_cons. destruct (r_category r) as [k |].
    + split; [intros [H _]; by apply group_add_not_nil in H | by intros (_ & [=] & _)].
    + tauto.
Qed.

Lemma groupby_category_sum_nil_iff {D} (df : list (row D A)) :
  groupby_category_sum df = [] ↔ Forall (λ r, r_category r = None) df.
Proof. unfold groupby_category_sum. rewrite groupby_from_nil_iff. tauto. Qed.

Lemma day_add_not_nil t (v : A) s : Ledger.day_add t v s ≠ [].
Proof.
  destruct s as [| [t' v'] s]; cbn; [done |]. by repeat destruct (date_leb _ _).
Qed.

Lemma groupby_date_sum_nil_iff (df : list (row date A)) :
  Ledger.groupby_date_sum df = [] ↔ df = [].
Proof.
  unfold Ledger.groupby_date_sum.
  destruct df as [| r df]; [done |]. cbn [foldl].
  split; [| done]. intros H. exfalso.
  pose proof (day_add_not_nil (r_date r) (r_amount r) []) as Hs.
  revert H Hs. generalize (Ledger.day_add (r_date r) (r_amount r) []).
  induction df as [| r' df IH]; intros s H Hs; cbn [foldl] in H.
  - done.
  - eapply IH; [exact H |]. apply day_add_not_nil.
Qed.

Lemma week_md_inv month (df : list (row date A)) (n : nat) (s e : date) :
  Forall (week_section_inv month) (Ledger.week_md month df n s e).
Proof.
  unfold Ledger.week_md. destruct (sort_values_desc _) eqn:E; constructor; [| constructor].
  by repeat split.
Qed.

Lemma week_loop_inv month (df : list (row date A)) eom (fuel : nat) :
  ∀ (n : nat) (s : date) acc res,
    Forall (week_section_inv month) acc →
    Ledger.week_loop fuel month df eom n s acc = Some res →
    Forall (week_section_inv month) res.
Proof.
  induction fuel as [| fuel IH]; intros n s acc res Hacc; cbn [Ledger.week_loop];
    [discriminate |].
  destruct (date_leb s eom).
  - apply IH. apply Forall_app. split; [done | apply week_md_inv].
  - by intros [= <-].
Qed.

(** What [export_md] returns when it writes the document, by the parts
    of the document; no pie chart has raised. *)
Lemma export_md_Exported month fs rep :
  snd (Ledger.export_md month fs) = Ledger.Exported rep →
  to_timestamps (LedgerPro.get_monthly_data month fs) = Returns (Ledger.listing rep)
  ∧ Ledger.listing rep ≠ []
  ∧ Forall (week_section_inv month) (Ledger.weekly_expense_md rep)
  ∧ Ledger.expense_summary rep
    = groupby_category_sum (of_type "expense" (Ledger.listing rep))
  ∧ Ledger.income_total rep = amount_sum (of_type "income" (Ledger.listing rep))
  ∧ Ledger.expense_total rep = amount_sum (of_type "expense" (Ledger.listing rep))
  ∧ Ledger.net_total rep = fsub (Ledger.income_total rep) (Ledger.expense_total rep)
  ∧ Ledger.pie_path rep
    = match Ledger.expense_summary rep with [] => None | _ :: _ => Some (Ledger.Pie month) end
  ∧ Ledger.line_path rep
    = match of_type "expense" (Ledger.listing rep) with
      | [] => None
      | _ :: _ => Some (Ledger.Line month)
      end
  ∧ Ledger.daily_line_path rep
    = match of_type "expense" (Ledger.listing rep) with
      | [] => None
      | _ :: _ => Some (Ledger.DailyLine month)
      end
  ∧ Forall (λ w, pie_raises (values (Ledger.weekly_expense_summary w)) = false)
      (Ledger.weekly_expense_md rep)
  ∧ match Ledger.expense_summary rep with
    | [] => True
    | _ :: _ => pie_raises (values (Ledger.expense_summary rep)) = false
    end.
Proof.
  unfold Ledger.export_md. rewrite read_ensure_csv.
  destruct (LedgerPro.get_monthly_data month fs) as [| x l]; [discriminate |].
  destruct (to_timestamps (x :: l)) as [[| r0 df] | |]; try discriminate.
  cbv beta iota zeta. destruct (_ && _); [| discriminate].
  destruct (Ledger.week_loop _ _ _ _ _ _ _) as [weeks |] eqn:Eloop; [| discriminate].
  cbn [snd]. intros H.
  apply month_charts_and_md_Exported in H
    as (Hw & Hl & Hpw & Hpm & Hs & Hi & He & Hn & Hp & Hline & Hdaily).
  rewrite Hl, Hw, Hs.
  split; [done |]. split; [done |].
  split; [eapply week_loop_inv; [constructor | exact Eloop] |].
  split; [done |]. split; [done |]. split; [done |]. split; [done |].
  split; [by rewrite Hp, Hs |].
  split; [| split; [| split; [exact Hpw | exact Hpm]]].
  - rewrite Hline.
    destruct (of_type "expense" (r0 :: df)) as [| y ys] eqn:E; [done |].
    destruct (Ledger.groupby_date_sum (y :: ys)) eqn:E'; [| done].
    by apply groupby_date_sum_nil_iff in E'.
  - rewrite Hdaily.
    destruct (of_type "expense" (r0 :: df)) as [| y ys] eqn:E; [done |].
    destruct (Ledger.groupby_date_sum (y :: ys)) eqn:E'; [| done].
    by apply groupby_date_sum_nil_iff in E'.
Qed.

Lemma pie_drawn_not_negative `{!PyplotSpec A} (s : Series A) :
  pie_raises (values s) = false → Forall (λ x, fle fzero (snd x) = true) s.
Proof.
  intros Hdrawn. apply Forall_forall. intros x Hx.
  destruct (fle fzero (snd x)) eqn:E; [done |].
  rewrite pie_negative in Hdrawn; [done |].
  apply Exists_exists. exists (snd x). split; [| exact E].
  unfold values. rewrite list_elem_of_In. apply in_map. by rewrite <- list_elem_of_In.
Qed.

(** X8.  The charts of a month whose document is written, which it is
    only when no call of [plt.pie] has raised: no category sum of the
    month or of a week is negative.  The pie chart of the month is
    drawn exactly when some expense has a category; the two line charts
    exactly when there is an expense at all; and every weekly section
    of the document has its pie chart, named by the number of its week,
    a summary that is not empty, and the sum of that summary as its
    total. *)
Theorem export_md_charts `{!PyplotSpec A} month fs rep :
  snd (Ledger.export_md month fs) = Ledger.Exported rep →
  Forall (λ w, pie_raises (values (Ledger.weekly_expense_summary w)) = false
               ∧ Forall (λ x, fle fzero (snd x) = true) (Ledger.weekly_expense_summary w))
    (Ledger.weekly_expense_md rep)
  ∧ (Ledger.expense_summary rep ≠ [] →
     pie_raises (values (Ledger.expense_summary rep)) = false)
  ∧ Forall (λ x, fle fzero (snd x) = true) (Ledger.expense_summary rep)
  ∧ Ledger.pie_path rep
  = (if decide (Exists (λ r, r_type r = Some "expense" ∧ has_category r) (Ledger.listing rep))
     then Some (Ledger.Pie month) else None)
  ∧ Ledger.line_path rep
    = (if decide (Exists (λ r, r_type r = Some "expense") (Ledger.listing rep))
       then Some (Ledger.Line month) else None)
  ∧ Ledger.daily_line_path rep
    = (if decide (Exists (λ r, r_type r = Some "expense") (Ledger.listing rep))
       then Some (Ledger.DailyLine month) else None)
  ∧ Forall (week_section_inv month) (Ledger.weekly_expense_md rep)
  ∧ Ledger.charts_generated (Ledger.Exported rep)
    = map (λ w, Ledger.WeekPie month (Ledger.week_num w)) (Ledger.weekly_expense_md rep)
      ++ option_list (Ledger.pie_path rep) ++ option_list (Ledger.line_path rep)
      ++ option_list (Ledger.daily_line_path rep).
Proof.
  intros H. apply export_md_Exported in H
    as (_ & _ & Hweeks & Hsum & _ & _ & _ & Hpie & Hline & Hdaily & Hpw & Hpm).
  split.
  { eapply Forall_impl; [exact Hpw |]. intros w Hw. split; [exact Hw |].
    by apply pie_drawn_not_negative. }
  split; [by destruct (Ledger.expense_summary rep) |].
  split.
  { destruct (Ledger.expense_summary rep) as [| x s] eqn:E; [constructor |].
    by apply pie_drawn_not_negative. }
  assert (of_type "expense" (Ledger.listing rep) = []
          ↔ ¬ Exists (λ r, r_type r = Some "expense") (Ledger.listing rep)) as Hexp.
  { unfold of_type. rewrite <- Forall_Exists_neg.
    split.
    - intros Hnil. apply Forall_forall. intros r Hr Ht.
      assert (r ∈ filter (λ r, r_type r = Some "expense") (Ledger.listing rep)) as Hin
        by by apply list_elem_of_filter.
      rewrite Hnil in Hin. by apply elem_of_nil in Hin.
    - apply filter_none. }
  assert (Ledger.expense_summary rep = []
          ↔ ¬ Exists (λ r, r_type r = Some "expense" ∧ has_category r) (Ledger.listing rep))
    as Hcat.
  { rewrite Hsum, groupby_category_sum_nil_iff, <- Forall_Exists_neg, !Forall_forall.
    unfold of_type, has_category.
    split.
    - intros Hall r Hr [Ht [c Hc]].
      specialize (Hall r (proj2 (list_elem_of_filter _ _ _) (conj Ht Hr))). congruence.
    - intros Hall r Hr. apply list_elem_of_filter in Hr as [Ht Hr].
      destruct (r_category r) eqn:E; [| done].
      exfalso. apply (Hall r Hr). split; [done |]. rewrite E. by eexists. }
  split; [| split; [| split; [| split; [done |]]]].
  - rewrite Hpie. destruct (Ledger.expense_summary rep); case_decide; try done.
    + by apply Hcat in H.
    + by apply Hcat in H.
  - rewrite Hline. destruct (of_type "expense" (Ledger.listing rep)); case_decide; try done.
    + by apply Hexp in H.
    + by apply Hexp in H.
  - rewrite Hdaily. destruct (of_type "expense" (Ledger.listing rep)); case_decide; try done.
    + by apply Hexp in H.
    + by apply Hexp in H.
  - cbn [Ledger.charts_generated]. f_equal.
    apply map_ext_Forall. eapply Forall_impl; [exact Hweeks |].
    by intros w (Hw & _).
Qed.

Lemma to_timestamps_same_cells (df0 : DataFrame A) (df : list (row date A)) :
  to_timestamps df0 = Returns df → Forall2 same_cells df0 df.
Proof.
  unfold to_timestamps. intros H. apply attempt_all_Returns in H.
  eapply Forall2_impl; [exact H |]. intros r0 r Hr. cbn in Hr.
  destruct (to_datetime (r_date r0)) as [[t |] | |]; try discriminate.
  injection Hr as <-. by repeat split.
Qed.

Lemma to_datetime_column_same_cells (df0 : DataFrame A) (df : list (row (option date) A)) :
  to_datetime_column df0 = Returns df → Forall2 same_cells df0 df.
Proof.
  unfold to_datetime_column. intros H. apply attempt_all_Returns in H.
  eapply Forall2_impl; [exact H |]. intros r0 r Hr. cbn in Hr.
  destruct (to_datetime (r_date r0)) as [d | |]; try discriminate.
  injection Hr as <-. by repeat split.
Qed.

Lemma of_type_same_cells {D E} kind (df0 : list (row D A)) (df : list (row E A)) :
  Forall2 same_cells df0 df → Forall2 same_cells (of_type kind df0) (of_type kind df).
Proof.
  unfold of_type. induction 1 as [| r0 r df0 df Hr _ IH]; [constructor |].
  destruct Hr as (Hc & Ha & Ht & Hn).
  rewrite !filter_cons. rewrite Ht.
  destruct (decide (r_type r0 = Some kind)); [| done].
  constructor; [by repeat split | done].
Qed.

Lemma amount_sum_same_cells {D E} (df0 : list (row D A)) (df : list (row E A)) :
  Forall2 same_cells df0 df → amount_sum df = amount_sum df0.
Proof.
  intros H. unfold amount_sum. f_equal.
  induction H as [| r0 r df0 df Hr _ IH]; [done |].
  destruct Hr as (_ & Ha & _). cbn. by rewrite Ha, IH.
Qed.

Lemma groupby_same_cells {D E} (df0 : list (row D A)) (df : list (row E A)) :
  Forall2 same_cells df0 df → groupby_category_sum df = groupby_category_sum df0.
Proof.
  intros H. unfold groupby_category_sum. generalize ([] : Series A).
  induction H as [| r0 r df0 df Hr _ IH]; intros s; [done |].
  destruct Hr as (Hc & Ha & _). cbn [foldl]. by rewrite Hc, Ha, IH.
Qed.

(** X9.  The exported document and the printed report of a month agree: the
    same income, expense and net totals, and the printed summary is the
    document's table of categories, sorted. *)
Theorem export_md_agrees_with_generate_report month fs rep :
  snd (Ledger.export_md month fs) = Ledger.Exported rep →
  ∃ r, snd (Ledger.generate_report month fs) = Some r
    ∧ Ledger.income r = Ledger.income_total rep
    ∧ Ledger.expense r = Ledger.expense_total rep
    ∧ Ledger.net r = Ledger.net_total rep
    ∧ Ledger.summary r = sort_values_desc (Ledger.expense_summary rep).
Proof.
  intros H. apply export_md_Exported in H
    as (Hts & Hne & _ & Hsum & Hinc & Hexp & Hnet & _).
  apply to_timestamps_same_cells in Hts.
  unfold Ledger.generate_report. rewrite read_ensure_csv.
  destruct (LedgerPro.get_monthly_data month fs) as [| x l] eqn:E.
  { apply Forall2_nil_inv_l in Hts. done. }
  eexists. split; [reflexivity |]. cbn [Ledger.income Ledger.expense Ledger.net Ledger.summary].
  rewrite Hnet, Hinc, Hexp, Hsum.
  rewrite (amount_sum_same_cells _ _ (of_type_same_cells "income" _ _ Hts)).
  rewrite (amount_sum_same_cells _ _ (of_type_same_cells "expense" _ _ Hts)).
  rewrite (groupby_same_cells _ _ (of_type_same_cells "expense" _ _ Hts)).
  done.
Qed.

End export_one_month.

(** ** The weekly totals of a month *)

Lemma concat_map_nil {X Y} (ks : list X) : concat (map (λ _, ([] : list Y)) ks) = [].
Proof. induction ks as [| k ks IH]; [done |]. cbn. exact IH. Qed.

Lemma concat_map_app_Permutation {X Y} (f g : X → list Y) (ks : list X) :
  concat (map (λ k, f k ++ g k) ks) ≡ₚ concat (map f ks) ++ concat (map g ks).
Proof.
  induction ks as [| k ks IH]; [done |]. cbn [map concat]. rewrite IH.
  rewrite <- !app_assoc. apply Permutation_app_head.
  rewrite !app_assoc. apply Permutation_app_tail. apply Permutation_app_comm.
Qed.

Lemma filter_ext_Forall {X} (P Q : X → Prop) `{!∀ x, Decision (P x)} `{!∀ x, Decision (Q x)}
    (l : list X) :
  Forall (λ x, P x ↔ Q x) l → filter P l = filter Q l.
Proof.
  induction 1 as [| x l Hx _ IH]; [done |].
  rewrite !filter_cons, IH. destruct (decide (P x)), (decide (Q x)); tauto.
Qed.

Local Ltac refute_keys :=
  repeat match goal with
         | H : _ ∧ _ |- _ => destruct H
         end;
  try contradiction;
  repeat match goal with
         | H : ¬ (?Q ∧ ?R), Hq : ?Q |- _ =>
             assert (¬ R) by (intros ?; apply H; by split); clear H
         | H : ?Q → (_ < _)%nat, Hq : ?Q |- _ => specialize (H Hq)
         end;
  lia.

(** The rows that have a property, sorted into [n] classes by a key, are
    the rows that have the property. *)
Lemma concat_filter_key {X} (key : X → nat) (Q : X → Prop) `{!∀ x, Decision (Q x)}
    (n : nat) (l : list X) :
  Forall (λ x, Q x → (key x < n)%nat) l →
  concat (map (λ k, filter (λ x, Q x ∧ key x = k) l) (seq 0 n)) ≡ₚ filter Q l.
Proof.
  induction 1 as [| x l Hx _ IH].
  { change (concat (map (λ _ : nat, ([] : list X)) (seq 0 n)) ≡ₚ []).
    by rewrite concat_map_nil. }
  assert (∀ a m, concat (map (λ k, if decide (Q x ∧ key x = k) then [x] else []) (seq a m))
                 = if decide (Q x ∧ (a <= key x < a + m)%nat) then [x] else []) as Hone.
  { intros a m. revert a. induction m as [| m IHm]; intros a; cbn [seq map concat].
    - case_decide as Hk; [destruct Hk; lia | done].
    - rewrite IHm. repeat case_decide; try done; exfalso; refute_keys. }
  transitivity (concat (map (λ k, (if decide (Q x ∧ key x = k) then [x] else [])
                                  ++ filter (λ x, Q x ∧ key x = k) l) (seq 0 n))).
  { apply reflexive_eq. f_equal. apply map_ext. intros k.
    rewrite filter_cons. by case_decide. }
  rewrite concat_map_app_Permutation, IH, Hone, filter_cons.
  repeat case_decide; try done; exfalso; refute_keys.
Qed.

Section weekly_totals.
Context {A : Type} {Am : Amount A} {AL : AmountLaws A}.
Context {QS : Quicksort} {QSS : QuicksortSpec}.
Context {PP : Pyplot A}.
Implicit Types (fs : store A) (df : list (row date A)).

(** The total of a week's section is what the categorised expenses of
    its window come to; a week without a section has none. *)
Lemma week_md_total month df (n : nat) (s e : date) :
  Series_sum (map Ledger.weekly_total (Ledger.week_md month df n s e))
  = amount_sum (filter has_category (Ledger.weekly_df df s e)).
Proof.
  rewrite <- sum_groupby, <- sum_sort_values_desc.
  unfold Ledger.week_md. destruct (sort_values_desc _) as [| x l]; [done |].
  cbn [map]. by rewrite sum_cons, sum_nil, fadd_zero_r.
Qed.

Lemma week_md_totals month df (ws : list (nat * date * date)) :
  Series_sum (map Ledger.weekly_total
                (concat (map (λ w, Ledger.week_md month df w.1.1 w.1.2 w.2) ws)))
  = amount_sum (filter has_category
                  (concat (map (λ w, Ledger.weekly_df df w.1.2 w.2) ws))).
Proof.
  induction ws as [| w ws IH]; [done |]. cbn [map concat].
  rewrite map_app, sum_app, filter_app. unfold amount_sum at 1.
  rewrite map_app, sum_app. fold (amount_sum (filter has_category (Ledger.weekly_df df w.1.2 w.2))).
  by rewrite week_md_total, IH.
Qed.

(** The weeks of a month share out its expenses: the rows of the weekly
    windows, taken together, are the expense rows of the month. *)
Lemma weekly_df_partition df (y m e : Z) :
  Forall (λ r, year (r_date r) = y ∧ month (r_date r) = m) df →
  Forall (λ r, 1 <= day (r_date r) <= e) df →
  concat (map (λ k, Ledger.weekly_df df (spec_week_start y m k) (spec_week_end y m e k))
              (seq 0 (spec_week_count e)))
  ≡ₚ of_type "expense" df.
Proof.
  intros Hsame Hdays. unfold of_type.
  rewrite <- (concat_filter_key (λ r, spec_week_of (day (r_date r)))
                (λ r, r_type r = Some "expense") (spec_week_count e) df).
  - apply reflexive_eq. f_equal. apply map_ext. intros k.
    unfold Ledger.weekly_df. apply filter_ext_Forall.
    rewrite Forall_forall in Hsame, Hdays. apply Forall_forall. intros r Hr.
    destruct (Hsame r Hr) as [Hy Hm]. specialize (Hdays r Hr). cbn beta in *.
    destruct (r_date r) as [y' m' d]. cbn in Hy, Hm, Hdays. subst y' m'.
    unfold spec_week_start, spec_week_end. rewrite !date_leb_same_month, !Z.leb_le.
    unfold spec_week_of. cbn [day]. clear Hsame Hr.
    split.
    + intros (H1 & H2 & H3). split; [done |]. Z.div_mod_to_equations. lia.
    + intros (H1 & <-). repeat split; [.. | done]; Z.div_mod_to_equations; lia.
  - eapply Forall_impl; [exact Hdays |]. intros r Hr _. cbn beta in *.
    unfold spec_week_of, spec_week_count. Z.div_mod_to_equations. lia.
Qed.

(** X10.  The weekly totals of a month whose document is written, for a
    table whose dates convert and lie in one month: they add up to what
    the expenses of the month with a category come to, which is the sum
    of the month's table of categories; an expense without a category is
    in the expense total of the month and in no week. *)
Theorem weekly_totals_add_up mkey fs df (y m : Z) rep :
  to_timestamps (LedgerPro.get_monthly_data mkey fs) = Returns df →
  Forall (λ r, year (r_date r) = y ∧ month (r_date r) = m) df →
  snd (Ledger.export_md mkey fs) = Ledger.Exported rep →
  Series_sum (map Ledger.weekly_total (Ledger.weekly_expense_md rep))
  = amount_sum (filter has_category (of_type "expense" df))
  ∧ Series_sum (map Ledger.weekly_total (Ledger.weekly_expense_md rep))
    = Series_sum (values (Ledger.expense_summary rep)).
Proof.
  intros Hts Hsame Hrep.
  pose proof (export_md_Exported _ _ _ Hrep) as (Hts' & Hne & _ & Hsummary & _).
  rewrite Hts in Hts'. injection Hts' as Hl. rewrite <- Hl in Hne.
  destruct (export_md_single_month mkey fs df y m Hts Hne Hsame)
    as (e & _ & Hdays & Hexport).
  rewrite Hrep in Hexport.
  destruct (Timestamp_holds (Date y m 1) && Timestamp_holds (add_month (Date y m 1)));
    [| discriminate].
  symmetry in Hexport. apply month_charts_and_md_Exported in Hexport as [Hw _].
  assert (Series_sum (map Ledger.weekly_total (Ledger.weekly_expense_md rep))
          = amount_sum (filter has_category (of_type "expense" df))) as Hsum.
  { rewrite Hw.
    pose proof (week_md_totals mkey df
                  (map (λ k, (S k, spec_week_start y m k, spec_week_end y m e k))
                       (seq 0 (spec_week_count e)))) as Htot.
    rewrite !map_map in Htot. cbn [fst snd] in Htot. rewrite Htot.
    unfold amount_sum. apply sum_Permutation, Permutation_map.
    apply filter_Permutation. by apply weekly_df_partition. }
  split; [exact Hsum |].
  by rewrite Hsum, Hsummary, <- Hl, sum_groupby.
Qed.

End weekly_totals.

(** ** The months of a range and of a year *)

Lemma months_loop_range (sy sm ey em : Z) :
  1 <= sy <= 9999 → 1 <= sm <= 12 → 1 <= ey <= 9999 → 1 <= em <= 12 →
  ¬ (ey = 9999 ∧ em = 12) →
  LedgerPro.get_months_in_range (strftime_Ym (Date sy sm 1)) (strftime_Ym (Date ey em 1))
  = Some (LedgerPro.Returned (spec_months_in_range (Date sy sm 1) (Date ey em 1))).
Proof.
  intros Hsy Hsm Hey Hem Hend.
  rewrite get_months_in_range_well_formed by done. by case_decide.
Qed.

(** X11.  The months of a range, for months of years of four digits and an
    end before December 9999: as many as the range has, from the start
    month to the end month, each the month after the one before; and
    none when the start comes after the end. *)
Theorem get_months_in_range_months (sy sm ey em : Z) :
  1000 <= sy <= 9999 → 1 <= sm <= 12 → 1000 <= ey <= 9999 → 1 <= em <= 12 →
  ¬ (ey = 9999 ∧ em = 12) →
  ∃ months,
    LedgerPro.get_months_in_range (strftime_Ym (Date sy sm 1)) (strftime_Ym (Date ey em 1))
    = Some (LedgerPro.Returned months)
    ∧ length months
      = Z.to_nat (month_index (Date ey em 1) - month_index (Date sy sm 1) + 1)
    ∧ (∀ (i : nat), (i < length months)%nat →
         months !! i
         = Some (strftime_Ym (month_of_index (month_index (Date sy sm 1) + Z.of_nat i))))
    ∧ (month_index (Date sy sm 1) <= month_index (Date ey em 1) →
         head months = Some (strftime_Ym (Date sy sm 1))
         ∧ last months = Some (strftime_Ym (Date ey em 1)))
    ∧ (month_index (Date ey em 1) < month_index (Date sy sm 1) → months = []).
Proof.
  intros Hsy Hsm Hey Hem Hend.
  eexists. split; [apply months_loop_range; (done || lia) |].
  unfold spec_months_in_range.
  set (si := month_index (Date sy sm 1)). set (ei := month_index (Date ey em 1)).
  assert (length (map (λ i, strftime_Ym (month_of_index i)) (seqZ si (ei - si + 1)))
          = Z.to_nat (ei - si + 1)) as Hlen by by rewrite length_map, length_seqZ.
  split; [exact Hlen |]. split; [| split].
  - intros i Hi. rewrite Hlen in Hi.
    change (map ?f ?l) with (f <$> l). rewrite list_lookup_fmap.
    rewrite lookup_seqZ_lt by lia. reflexivity.
  - intros Hle. split.
    + rewrite seqZ_cons by lia. cbn [map head].
      unfold si. by rewrite month_of_index_index.
    + replace (ei - si + 1) with (Z.of_nat (S (Z.to_nat (ei - si)))) by lia.
      rewrite seqZ_S, map_app. cbn [map]. rewrite last_snoc.
      replace (si + Z.of_nat (Z.to_nat (ei - si))) with ei by lia.
      unfold ei. by rewrite month_of_index_index.
  - intros Hlt. by rewrite seqZ_nil by lia.
Qed.

Lemma map_seqZ_ext {X} (f g : Z → X) (a b n : Z) :
  (∀ i, 0 <= i < n → f (a + i) = g (b + i)) → map f (seqZ a n) = map g (seqZ b n).
Proof.
  intros H. unfold seqZ. change (?h <$> ?l) with (map h l). rewrite !map_map.
  apply map_ext_in. intros i Hi. apply in_seq in Hi.
  rewrite !(Z.add_comm (Z.of_nat i)). apply H. lia.
Qed.


(** X12.  The months of a year are the months of the range from its January
    to its December, for a year of four digits before 9999; for 9999
    the range raises and the year does not. *)
Theorem get_months_in_year_is_the_range (y : Z) :
  1000 <= y <= 9998 →
  LedgerPro.get_months_in_range (strftime_Ym (Date y 1 1)) (strftime_Ym (Date y 12 1))
  = Some (LedgerPro.Returned (LedgerPro.get_months_in_year (pad4 y)))
  ∧ LedgerPro.get_months_in_range (strftime_Ym (Date 9999 1 1)) (strftime_Ym (Date 9999 12 1))
    = Some LedgerPro.ValueError
  ∧ length (LedgerPro.get_months_in_year (pad4 9999)) = 12%nat.
Proof.
  intros Hy. split; [| split; reflexivity].
  rewrite months_loop_range by lia. f_equal. f_equal.
  unfold spec_months_in_range, month_index. cbn [year month].
  replace (12 * y + (12 - 1) - (12 * y + (1 - 1)) + 1) with 12 by lia.
  unfold LedgerPro.get_months_in_year.
  apply map_seqZ_ext. intros i Hi.
  unfold month_of_index, strftime_Ym. cbn [year month].
  replace ((12 * y + (1 - 1) + i) / 12) with y by (Z.div_mod_to_equations; lia).
  replace ((12 * y + (1 - 1) + i) mod 12 + 1) with (1 + i) by (Z.div_mod_to_equations; lia).
  reflexivity.
Qed.

(** ** The order of strings *)

Lemma ascii_compare_refl (c : ascii) : Ascii.compare c c = Eq.
Proof. unfold Ascii.compare. apply N.compare_refl. Qed.



Lemma str_le_iff (a b : string) : str_le a b ↔ String.compare a b = Lt ∨ a = b.
Proof.
  unfold str_le, String.leb. destruct (String.compare a b) eqn:E.
  - apply String.compare_eq_iff in E. tauto.
  - tauto.
  - split; [discriminate |]. intros [H | ->]; [discriminate |].
    assert (String.compare b b = Eq) as Hb.
    { clear E. induction b as [| c b IH]; [done |]. cbn. by rewrite ascii_compare_refl. }
    congruence.
Qed.

#[local] Instance str_le_trans : Transitive str_le.
Proof.
  intros a b c. rewrite !str_le_iff. intros [H1 | ->] [H2 | ->]; try tauto.
  left. by eapply compare_lt_trans.
Qed.

#[local] Instance str_le_antisymm : AntiSymm eq str_le.
Proof. intros a b H1 H2. by apply String.leb_antisym. Qed.



(** ** Several months: the totals *)

Section multi_month_totals.
Context {A : Type} {Am : Amount A} {QS : Quicksort}.
Implicit Types (fs : store A).

Lemma report_loop_totals fs (months : list string) :
  ∀ st st', totals_inv st → LedgerPro.report_loop months fs st = Some st' → totals_inv st'.
Proof.
  induction months as [| month months IH]; intros st st' Hinv; cbn [LedgerPro.report_loop].
  - by intros [= <-].
  - destruct (LedgerPro.get_monthly_data month fs) as [| r df]; [by apply IH |].
    destruct (to_datetime_column (r :: df)) as [dated | |]; [| discriminate ..].
    unfold LedgerPro.calculate_monthly_summary. cbn zeta beta iota.
    apply IH. destruct Hinv as (Hi & He & Hp). unfold totals_inv.
    cbn [LedgerPro.total_income_all_months LedgerPro.total_expense_all_months
         LedgerPro.monthly_summary_data LedgerPro.printed].
    rewrite !map_app. cbn [map LedgerPro.ms_income LedgerPro.ms_expense
                           LedgerPro.mp_month LedgerPro.mp_income LedgerPro.mp_expense
                           LedgerPro.mp_net].
    unfold Series_sum in *. rewrite !foldl_app. cbn [foldl].
    by rewrite Hi, He, Hp.
Qed.

(** X13.  The figures of a report over several months hang together: the
    total income and the total expense are the sums, month after month
    from 0, of the incomes and the expenses of the breakdown, and what
    is printed for a month is what the breakdown holds for it. *)
Theorem multi_month_totals (months : list string) fs rep :
  LedgerPro.generate_multi_month_report months fs = Some rep →
  LedgerPro.total_income_all_months rep
  = Series_sum (map LedgerPro.ms_income (LedgerPro.monthly_summary_data rep))
  ∧ LedgerPro.total_expense_all_months rep
    = Series_sum (map LedgerPro.ms_expense (LedgerPro.monthly_summary_data rep))
  ∧ map (λ p, LedgerPro.MonthlySummary (LedgerPro.mp_month p) (LedgerPro.mp_income p)
                (LedgerPro.mp_expense p) (LedgerPro.mp_net p)) (LedgerPro.printed rep)
    = LedgerPro.monthly_summary_data rep.
Proof.
  unfold LedgerPro.generate_multi_month_report. intros H.
  eapply (report_loop_totals fs _ _ rep); [| exact H]. by repeat split.
Qed.

End multi_month_totals.

Section multi_month_figures.
Context {A : Type} {Am : Amount A} {AL : AmountLaws A}.
Context {QS : Quicksort} {QSS : QuicksortSpec}.
Implicit Types (fs : store A).

Lemma sort_values_by_date_Permutation (df : list (row (option date) A)) :
  LedgerPro.sort_values_by_date df ≡ₚ df.
Proof.
  unfold LedgerPro.sort_values_by_date. rewrite quicksort_perm.
  rewrite <- (filter_app_complement (λ r, is_Some (r_date r)) df) at 3.
  apply Permutation_app_head. apply reflexive_eq. apply filter_ext_Forall.
  apply Forall_forall. intros r _. cbn beta.
  rewrite <- eq_None_not_Some. tauto.
Qed.

Lemma amount_sum_Permutation {D} (df1 df2 : list (row D A)) (kind : string) :
  df1 ≡ₚ df2 → amount_sum (of_type kind df1) = amount_sum (of_type kind df2).
Proof.
  intros H. unfold amount_sum, of_type. apply sum_Permutation, Permutation_map.
  by apply filter_Permutation.
Qed.

Lemma report_loop_entries fs (months : list string) :
  ∀ st st',
    Forall (entry_of_month fs) (LedgerPro.monthly_summary_data st) →
    LedgerPro.report_loop months fs st = Some st' →
    Forall (entry_of_month fs) (LedgerPro.monthly_summary_data st').
Proof.
  induction months as [| month months IH]; intros st st' Hinv; cbn [LedgerPro.report_loop].
  - by intros [= <-].
  - destruct (LedgerPro.get_monthly_data month fs) as [| r df] eqn:E; [by apply IH |].
    destruct (to_datetime_column (r :: df)) as [dated | |] eqn:Ed; [| discriminate ..].
    unfold LedgerPro.calculate_monthly_summary. cbn zeta beta iota.
    apply IH. cbn [LedgerPro.monthly_summary_data].
    apply Forall_app. split; [exact Hinv |]. constructor; [| constructor].
    apply to_datetime_column_same_cells in Ed.
    unfold entry_of_month.
    cbn [LedgerPro.ms_month LedgerPro.ms_income LedgerPro.ms_expense LedgerPro.ms_net].
    rewrite E.
    rewrite !(amount_sum_Permutation _ _ _ (sort_values_by_date_Permutation dated)).
    rewrite (amount_sum_same_cells _ _ (of_type_same_cells "income" _ _ Ed)).
    rewrite (amount_sum_same_cells _ _ (of_type_same_cells "expense" _ _ Ed)).
    done.
Qed.

(** X14.  The report over several months and the report of one month agree:
    every entry of the breakdown is a month that holds rows, and carries
    the income, the expense and the net amount that [generate_report]
    prints for that month.  Sorting the rows by date in between changes
    no sum (in exact arithmetic). *)
Theorem multi_month_agrees_with_generate_report (months : list string) fs rep :
  LedgerPro.generate_multi_month_report months fs = Some rep →
  Forall (λ e, ∃ r, snd (Ledger.generate_report (LedgerPro.ms_month e) fs) = Some r
                 ∧ Ledger.income r = LedgerPro.ms_income e
                 ∧ Ledger.expense r = LedgerPro.ms_expense e
                 ∧ Ledger.net r = LedgerPro.ms_net e)
         (LedgerPro.monthly_summary_data rep).
Proof.
  unfold LedgerPro.generate_multi_month_report. intros H.
  eapply Forall_impl; [eapply (report_loop_entries fs _ _ rep); [| exact H]; constructor |].
  intros e (Hne & Hi & He & Hn). rewrite generate_report_snd.
  destruct (LedgerPro.get_monthly_data (LedgerPro.ms_month e) fs) as [| r df]; [done |].
  eexists. split; [reflexivity |]. cbn. by rewrite Hn, Hi, He.
Qed.

End multi_month_figures.

(** ** Several months: the category totals *)



Section multi_month.
Context {A : Type} {Am : Amount A} {AL : AmountLaws A}.
Context {QS : Quicksort} {QSS : QuicksortSpec}.
Context {PP : Pyplot A}.
Implicit Types (fs : store A) (acc : gmap string A) (s : Series A).















End multi_month.

(** ** The categories in use *)

Section categories.
Context {A : Type} {Am : Amount A} {QS : Quicksort}.
Implicit Types (fs : store A).

Lemma elem_of_categories fs (c : string) :
  c ∈ Ledger.categories fs
  ↔ ∃ month r, r ∈ LedgerPro.get_monthly_data month fs ∧ r_category r = Some c.
Proof.
  unfold Ledger.categories.
  apply (map_fold_weak_ind
           (λ (acc : gset string) (m : store A),
              c ∈ acc ↔ ∃ month r, r ∈ LedgerPro.get_monthly_data month m
                                   ∧ r_category r = Some c)).
  - split; [set_solver |]. intros (month & r & Hr & _).
    unfold LedgerPro.get_monthly_data in Hr. rewrite lookup_empty in Hr.
    by apply elem_of_nil in Hr.
  - intros key f m acc Hnone IH.
    rewrite elem_of_union, elem_of_list_to_set, list_elem_of_omap, IH.
    split.
    + intros [(month & r & Hr & Hc) | (r & Hr & Hc)].
      * exists month, r. split; [| done].
        unfold LedgerPro.get_monthly_data, Ledger.get_csv_path in *.
        destruct (decide (month = key)) as [-> | Hne].
        -- rewrite Hnone in Hr. by apply elem_of_nil in Hr.
        -- by rewrite lookup_insert_ne.
      * exists key, r. split; [| done].
        unfold LedgerPro.get_monthly_data, Ledger.get_csv_path.
        by rewrite lookup_insert_eq.
    + intros (month & r & Hr & Hc).
      unfold LedgerPro.get_monthly_data, Ledger.get_csv_path in *.
      destruct (decide (month = key)) as [-> | Hne].
      * rewrite lookup_insert_eq in Hr. right. by exists r.
      * rewrite lookup_insert_ne in Hr by done. left. by exists month, r.
Qed.

Lemma elem_of_list_categories fs (c : string) :
  c ∈ Ledger.list_categories fs ↔ c ∈ Ledger.categories fs.
Proof.
  unfold Ledger.list_categories. rewrite sorted_Permutation. apply elem_of_elements.
Qed.


(** X16.  After [add_record], for a date whose first seven characters
    name a file of the data directory and for fields that are read back
    as text, those of the files and those of the record: the
    categories in use are those in use before and the category of the
    new record, unless [read_csv] takes that one for a missing value. *)
Theorem list_categories_add_record date category (amount : A) record_type note fs (c : string) :
  Ledger.csv_place (substring 0 7 date) = Ledger.InDataDir →
  map_Forall (λ _ f, Forall plain_row f) fs →
  plain_row (CsvRow date category amount record_type note) →
  c ∈ Ledger.list_categories (Ledger.add_record date category amount record_type note fs)
  ↔ c ∈ Ledger.list_categories fs ∨ (c = category ∧ category ∉ STR_NA_VALUES).
Proof.
  intros _ _ _.
  rewrite !elem_of_list_categories, !elem_of_categories.
  split.
  - intros (month & r & Hr & Hc).
    destruct (decide (month = substring 0 7 date)) as [-> | Hne].
    + rewrite get_monthly_data_add_record in Hr.
      apply elem_of_app in Hr as [Hr | Hr].
      * left. by exists (substring 0 7 date), r.
      * apply list_elem_of_singleton in Hr as ->. cbn in Hc. right.
        destruct (na_filter_spec category) as [[_ Hn] | [Hin Hs]]; [congruence |].
        split; [congruence | done].
    + left. exists month, r. split; [| done].
      unfold LedgerPro.get_monthly_data, Ledger.get_csv_path in *.
      by rewrite add_record_lookup_ne in Hr.
  - intros [(month & r & Hr & Hc) | [-> Hna]].
    + exists month, r. split; [| done].
      destruct (decide (month = substring 0 7 date)) as [-> | Hne].
      * rewrite get_monthly_data_add_record. apply elem_of_app. by left.
      * unfold LedgerPro.get_monthly_data, Ledger.get_csv_path in *.
        by rewrite add_record_lookup_ne.
    + exists (substring 0 7 date). eexists. split.
      * rewrite get_monthly_data_add_record. apply elem_of_app. right.
        apply list_elem_of_singleton. reflexivity.
      * cbn. by apply na_filter_present.
Qed.

End categories.

(** ** The middleware of the REST service *)

Lemma prefix_spec (sub s : string) :
  String.prefix sub s = true ↔ ∃ post, s = sub +:+ post.
Proof.
  revert s. induction sub as [| c sub IH]; intros s.
  - split; [intros _; by exists s | by destruct s].
  - destruct s as [| c' s]; cbn [String.prefix].
    + split; [discriminate | intros (post & H); discriminate H].
    + destruct (ascii_dec c c') as [<- | Hne].
      * rewrite IH. split; intros (post & H); exists post.
        -- by rewrite H.
        -- by injection H.
      * split; [discriminate |]. intros (post & H). injection H as H1 H2. by subst.
Qed.

(** [sub in s] holds exactly when [s] is some text, then [sub], then
    some text. *)
Lemma contains_spec (sub s : string) :
  contains sub s = true ↔ ∃ pre post, s = pre +:+ sub +:+ post.
Proof.
  induction s as [| c s IH]; cbn [contains]; rewrite orb_true_iff, prefix_spec.
  - split.
    + intros [(post & H) | H]; [| discriminate]. by exists "", post.
    + intros (pre & post & H). left. destruct pre as [| c pre]; [| discriminate H].
      by exists post.
  - rewrite IH. split.
    + intros [(post & H) | (pre & post & H)].
      * by exists "", post.
      * exists (String c pre), post. by rewrite H.
    + intros (pre & post & H). destruct pre as [| c' pre].
      * left. by exists post.
      * right. injection H as -> H. by exists pre, post.
Qed.

Lemma blocked_spec (path : string) :
  existsb (λ blocked, contains blocked path) Api.BLOCKED_PATHS = true ↔ is_blocked path.
Proof.
  rewrite existsb_exists. unfold is_blocked.
  split.
  - intros (b & Hin & Hc). apply contains_spec in Hc as (pre & post & H).
    exists b, pre, post. by rewrite list_elem_of_In.
  - intros (b & pre & post & Hin & H). exists b. rewrite <- list_elem_of_In.
    split; [done |]. apply contains_spec. by exists pre, post.
Qed.

(** X17.  A path that holds a blocked word anywhere (so /administrator as
    well as /admin) is answered 403, before any counting: the log is
    not touched, and the request does not count against the client.  No
    other path is answered 403. *)
Theorem blocked_paths_are_refused (ip path : string) (now : Z)
    (access_log : gmap string (list Z)) :
  (is_blocked path →
     Api.block_malicious_requests ip path now access_log = (access_log, Api.Forbidden))
  ∧ (snd (Api.block_malicious_requests ip path now access_log) = Api.Forbidden →
     is_blocked path).
Proof.
  unfold Api.block_malicious_requests. split.
  - intros H. apply blocked_spec in H. by rewrite H.
  - destruct (existsb _ _) eqn:E; [intros _; by apply blocked_spec |].
    cbn zeta. by case_decide.
Qed.

Lemma serve_snoc (reqs : list request) (req : request) (access_log : gmap string (list Z)) :
  serve (reqs ++ [req]) access_log
  = (fst (Api.block_malicious_requests (client_host req) (url_path req) (arrival req)
            (fst (serve reqs access_log))),
     snd (serve reqs access_log)
     ++ [(req, snd (Api.block_malicious_requests (client_host req) (url_path req)
                      (arrival req) (fst (serve reqs access_log))))]).
Proof.
  unfold serve. rewrite foldl_snoc.
  by destruct (Api.block_malicious_requests _ _ _ _).
Qed.

Lemma serve_requests (reqs : list request) (access_log : gmap string (list Z)) :
  map fst (snd (serve reqs access_log)) = reqs.
Proof.
  induction reqs as [| req reqs IH] using rev_ind; [done |].
  rewrite serve_snoc. cbn [snd]. rewrite map_app, IH. done.
Qed.

(** X18.  No client's log grows beyond [MAX_REQUESTS] entries, whatever the
    requests and their times. *)
Theorem access_log_stays_short (reqs : list request) (access_log : gmap string (list Z)) :
  map_Forall (λ _ log, (length log <= Api.MAX_REQUESTS)%nat) access_log →
  map_Forall (λ _ log, (length log <= Api.MAX_REQUESTS)%nat) (fst (serve reqs access_log)).
Proof.
  intros Hinv. induction reqs as [| req reqs IH] using rev_ind; [done |].
  rewrite serve_snoc. cbn [fst].
  set (log := fst (serve reqs access_log)) in *. clearbody log.
  unfold Api.block_malicious_requests.
  destruct (existsb _ _); [done |]. cbn zeta.
  set (recent := filter _ (log !!! client_host req)).
  assert (length recent <= Api.MAX_REQUESTS)%nat as Hrecent.
  { etransitivity; [apply length_filter |].
    rewrite lookup_total_alt. destruct (log !! client_host req) as [l |] eqn:E; cbn.
    - by apply (IH _ _ E).
    - unfold Api.MAX_REQUESTS. lia. }
  case_decide as Hfull; cbn [fst].
  - by apply map_Forall_insert_2.
  - rewrite insert_insert_eq. apply map_Forall_insert_2; [| done].
    rewrite length_app. cbn. lia.
Qed.

Lemma passed_snoc (ip : string) (answered : list (request * Api.response))
    (req : request) (resp : Api.response) :
  passed ip (answered ++ [(req, resp)])
  = passed ip answered
    ++ (if decide (client_host req = ip ∧ let_through resp = true)
        then [arrival req] else []).
Proof.
  unfold passed. rewrite filter_app, map_app. f_equal.
  rewrite filter_cons, filter_nil. cbn [fst snd]. by case_decide.
Qed.

Lemma filter_in_window_later (now now' : Z) (l : list Z) :
  now <= now' → filter (in_window now') (filter (in_window now) l) = filter (in_window now') l.
Proof.
  intros H. apply list_filter_filter_l. unfold in_window. intros t. lia.
Qed.

(** With a clock that does not go back, the log of every client agrees
    with the requests of that client that were let through. *)
Lemma serve_log_inv (reqs : list request) :
  StronglySorted (λ a b, arrival a <= arrival b) reqs →
  log_inv (fst (serve reqs ∅)) (snd (serve reqs ∅)).
Proof.
  induction reqs as [| req reqs IH] using rev_ind; intros Hsorted.
  { intros ip now _. cbn. by rewrite lookup_total_empty. }
  apply StronglySorted_app in Hsorted as (Hlast & Hsorted & _).
  specialize (IH Hsorted).
  assert (Forall (λ a, arrival (fst a) <= arrival req) (snd (serve reqs ∅))) as Hbefore.
  { apply Forall_forall. intros [r resp] Hin. cbn [fst].
    apply (Hlast r req); [| apply list_elem_of_here].
    rewrite <- (serve_requests reqs ∅), list_elem_of_In.
    rewrite list_elem_of_In in Hin. exact (in_map fst _ _ Hin). }
  rewrite serve_snoc. cbn [fst snd].
  set (log := fst (serve reqs ∅)) in *. set (answered := snd (serve reqs ∅)) in *.
  clearbody log answered.
  intros ip now Hnow. apply Forall_app in Hnow as [Hnow Hnow'].
  apply Forall_inv in Hnow'. cbn [fst] in Hnow'.
  rewrite passed_snoc.
  unfold Api.block_malicious_requests.
  destruct (existsb _ _).
  { cbn [fst snd]. rewrite decide_False by (intros [_ [=]]).
    rewrite app_nil_r. by apply IH. }
  cbn zeta.
  fold (in_window (arrival req)).
  destruct (decide (client_host req = ip)) as [<- | Hne].
  - case_decide as Hfull; cbn [fst snd].
    + rewrite decide_False by (intros [_ [=]]). rewrite app_nil_r.
      rewrite lookup_total_insert_eq, filter_in_window_later by done. by apply IH.
    + rewrite decide_True by done.
      rewrite lookup_total_insert_eq, !filter_app, filter_in_window_later by done.
      f_equal. by apply IH.
  - rewrite (decide_False (P := _ ∧ _)) by (intros [? _]; done). rewrite app_nil_r.
    case_decide; cbn [fst];
      rewrite ?lookup_total_insert_ne by done; by apply IH.
Qed.

(** X19.  The rate limit, with a clock that does not go back.  A request on a
    path that is not blocked is let through exactly when fewer than
    [MAX_REQUESTS] requests of its client were let through in the
    [WINDOW_SECONDS] before it; otherwise it is answered 429.  Requests
    answered 403 or 429 do not count. *)
Theorem rate_limit (reqs : list request) (req : request) :
  StronglySorted (λ a b, arrival a <= arrival b) (reqs ++ [req]) →
  ¬ is_blocked (url_path req) →
  snd (Api.block_malicious_requests (client_host req) (url_path req) (arrival req)
         (fst (serve reqs ∅)))
  = if decide (length (filter (in_window (arrival req))
                         (passed (client_host req) (snd (serve reqs ∅))))
               < Api.MAX_REQUESTS)%nat
    then Api.CallNext else Api.TooManyRequests.
Proof.
  intros Hsorted Hpath.
  pose proof (serve_log_inv reqs (StronglySorted_app_1_l _ _ _ Hsorted)) as Hinv.
  assert (Forall (λ a, arrival (fst a) <= arrival req) (snd (serve reqs ∅))) as Hbefore.
  { apply Forall_forall. intros [r resp] Hin. cbn [fst].
    apply (StronglySorted_app_1_elem_of _ _ _ r req Hsorted); [| apply list_elem_of_here].
    rewrite <- (serve_requests reqs ∅), list_elem_of_In.
    rewrite list_elem_of_In in Hin. exact (in_map fst _ _ Hin). }
  rewrite <- (Hinv (client_host req) (arrival req) Hbefore).
  unfold Api.block_malicious_requests.
  destruct (existsb _ _) eqn:E; [by apply blocked_spec in E |].
  cbn zeta.
  change (filter (λ t, arrival req - Api.timedelta Api.WINDOW_SECONDS < t) ?l)
    with (filter (in_window (arrival req)) l).
  repeat case_decide; try done; lia.
Qed.

(** ** The web routes: passwords and authorised devices *)

Lemma digit_char_not_underscore (n : Z) : digit_char n ≠ "_"%char.
Proof.
  intros H. pose proof (digit_val_char n) as Hv. rewrite H in Hv. discriminate Hv.
Qed.

Lemma prefix_annual_digit (n : Z) (s : string) :
  String.prefix "_annual" (String (digit_char n) s) = false.
Proof.
  cbn [String.prefix]. destruct (ascii_dec "_" (digit_char n)) as [H | H]; [| done].
  symmetry in H. by apply digit_char_not_underscore in H.
Qed.

Lemma string_prefix_nil (s : string) : String.prefix "" s = true.
Proof. by destruct s. Qed.

Lemma split_from_not_nil (sep : ascii) (s : string) : ∀ cur, split_from sep cur s ≠ [].
Proof.
  induction s as [| c s IH]; intros cur; cbn [split_from]; [done |].
  destruct (Ascii.eqb c sep); [done | apply IH].
Qed.

(** A string has a second piece exactly when it holds the separator. *)
Lemma split_from_second (sep : ascii) (s : string) : ∀ cur,
  split_from sep cur s !! 1%nat = None ↔ contains (String sep "") s = false.
Proof.
  induction s as [| c s IH]; intros cur; cbn [split_from contains String.prefix].
  - done.
  - destruct (Ascii.eqb_spec c sep) as [-> | Hne].
    + destruct (ascii_dec sep sep) as [_ | H]; [| done]. cbn [orb].
      destruct (split_from sep "" s) as [| x l] eqn:E;
        [by apply split_from_not_nil in E |].
      rewrite string_prefix_nil.
      cbn. split; intros H; discriminate H.
    + destruct (ascii_dec sep c) as [H | _]; [by subst |]. cbn [orb]. apply IH.
Qed.

Lemma split_from_app (sep : ascii) (p rest : string) : ∀ cur,
  contains (String sep "") p = false →
  split_from sep cur (p +:+ String sep rest) = (cur +:+ p) :: split_from sep "" rest.
Proof.
  induction p as [| c p IH]; intros cur Hp.
  - change ("" +:+ String sep rest) with (String sep rest). cbn [split_from].
    rewrite Ascii.eqb_refl. f_equal.
    clear. induction cur as [| c cur IH]; [done |].
    change (String c cur +:+ "") with (String c (cur +:+ "")). by rewrite <- IH.
  - change (String c p +:+ String sep rest) with (String c (p +:+ String sep rest)).
    cbn [split_from contains String.prefix] in *.
    destruct (ascii_dec sep c) as [H | Hne];
      [rewrite string_prefix_nil in Hp; discriminate Hp |].
    cbn [orb] in Hp.
    destruct (Ascii.eqb_spec c sep) as [-> | _]; [done |].
    rewrite IH by done. f_equal.
    clear. induction cur as [| c' cur IH]; [done |].
    change ((String c' cur +:+ String c "") +:+ p)
      with (String c' ((cur +:+ String c "") +:+ p)).
    change (String c' cur +:+ String c p) with (String c' (cur +:+ String c p)).
    by rewrite IH.
Qed.

(** X20.  The password of the report of a month is the fixed word and the two
    digits of the month: it does not depend on the year, so the reports
    of the same month of different years open with the same password. *)
Theorem password_of_a_month (t : date) :
  Main.correct_password (strftime_Ym t) = Some ("pwdtemp" +:+ pad2 (month t)).
Proof.
  unfold Main.correct_password, Main.password_suffix.
  change (strftime_Ym t)
    with (String (digit_char (year t / 1000)) (String (digit_char (year t / 100))
           (String (digit_char (year t / 10)) (String (digit_char (year t))
             (String "-" (String (digit_char (month t / 10))
                (String (digit_char (month t)) ""))))))).
  cbn [contains]. rewrite !prefix_annual_digit.
  change (String.prefix "_annual" (String "-" ?s)) with false.
  change (String.prefix "_annual" "") with false.
  cbn [orb]. unfold split. cbn [split_from]. rewrite !digit_char_not_dash.
  change (Ascii.eqb "-" "-") with true. cbv iota.
  change (split_from ?sep ?a "") with [a].
  cbv [String.append]. reflexivity.
Qed.

(** X21.  The password of the annual report of a year is the fixed word and
    the year without its first two characters (25 for 2025), for a year
    that holds no underscore. *)
Theorem password_of_a_year (year_str : string) :
  contains "_" year_str = false →
  Main.correct_password (year_str +:+ "_annual")
  = Some ("pwdtemp" +:+ slice_from 2 year_str).
Proof.
  intros Hy. unfold Main.correct_password, Main.password_suffix.
  assert (contains "_annual" (year_str +:+ "_annual") = true) as ->.
  { apply contains_spec. exists year_str, "". reflexivity. }
  unfold split. rewrite split_from_app by done. reflexivity.
Qed.

(** X22.  A report whose name holds neither a dash nor the word _annual has
    no password: the login raises the [IndexError] of [split('-')[1]],
    and these are the only names for which it does. *)
Theorem password_of_no_report (month_or_year : string) :
  Main.correct_password month_or_year = None
  ↔ contains "_annual" month_or_year = false ∧ contains "-" month_or_year = false.
Proof.
  unfold Main.correct_password, Main.password_suffix.
  destruct (contains "_annual" month_or_year); cbn [fmap option_fmap option_map].
  - split; [discriminate | by intros [[=] _]].
  - rewrite fmap_None. unfold split. rewrite split_from_second. tauto.
Qed.

(** X23.  The login of a report: the device is authorised exactly when the
    report exists and the password is the one of the report; from then
    on it is authorised for every report and for the manage pages, and
    no login takes an authorisation away.  A wrong password, a missing
    report and a name without a password leave the set as it was. *)
Theorem login_authorises (host month_or_year password : string)
    (REPORT_DIR AUTHORIZED_IPS : gset string) :
  (snd (Main.route_process_report_login host month_or_year password
          REPORT_DIR AUTHORIZED_IPS) = Main.ReportView
   ↔ month_or_year ∈ REPORT_DIR ∧ Main.correct_password month_or_year = Some password)
  ∧ fst (Main.route_process_report_login host month_or_year password
           REPORT_DIR AUTHORIZED_IPS)
    = (if decide (month_or_year ∈ REPORT_DIR
                  ∧ Main.correct_password month_or_year = Some password)
       then {[host]} ∪ AUTHORIZED_IPS else AUTHORIZED_IPS)
  ∧ AUTHORIZED_IPS
    ⊆ fst (Main.route_process_report_login host month_or_year password
             REPORT_DIR AUTHORIZED_IPS)
  ∧ (snd (Main.route_process_report_login host month_or_year password
            REPORT_DIR AUTHORIZED_IPS) = Main.IndexError
     ↔ month_or_year ∈ REPORT_DIR ∧ Main.correct_password month_or_year = None).
Proof.
  unfold Main.route_process_report_login.
  case_bool_decide as Hex.
  - destruct (Main.correct_password month_or_year) as [correct |].
    + case_bool_decide as Hpw; cbn [fst snd].
      * rewrite decide_False by (intros [_ [=]]; congruence).
        split; [split; [discriminate | intros [_ [=]]; congruence] |].
        split; [done |]. split; [done |].
        split; [discriminate | by intros [_ [=]]].
      * subst correct. rewrite decide_True by done.
        split; [done |]. split; [done |]. split; [apply union_subseteq_r |].
        split; [discriminate | by intros [_ [=]]].
    + cbn [fst snd]. rewrite decide_False by (by intros [_ [=]]).
      split; [split; [discriminate | by intros [_ [=]]] |].
      split; [done |]. split; done.
  - cbn [fst snd]. rewrite decide_False by tauto.
    split; [split; [discriminate | tauto] |].
    split; [done |]. split; [done |].
    split; [discriminate | tauto].
Qed.

Section web_routes.
Context {A : Type} {Am : Amount A} {QS : Quicksort}.
Context {PP : Pyplot A}.
Implicit Types (fs : store A).

Lemma export_md_NoRecords month fs :
  snd (Ledger.export_md month fs) = Ledger.NoRecords →
  LedgerPro.get_monthly_data month fs = [].
Proof.
  unfold Ledger.export_md. rewrite read_ensure_csv.
  destruct (LedgerPro.get_monthly_data month fs) as [| x l]; [done |].
  destruct (to_timestamps (x :: l)) as [[| r0 df] | |]; try discriminate.
  cbv beta iota zeta. destruct (_ && _); [| discriminate].
  destruct (Ledger.week_loop _ _ _ _ _ _ _) as [weeks |]; [| discriminate].
  cbn [snd]. unfold Ledger.month_charts_and_md.
  destruct (Ledger.weekly_pie_raises weeks); [discriminate |].
  cbv zeta. by destruct (match groupby_category_sum _ with [] => false | _ => _ end).
Qed.

(** X24.  The form that adds a record.  A device that is not authorised
    changes nothing.  For an authorised device and a date whose first
    seven characters name no file that can be written, nothing is
    stored and the answer is the one of failure.  When they name a file
    of the data directory the record is in the store, the last line of
    the file of its month, whatever the answer says: the answer of
    failure is given when the export that follows raises, and by then
    the record is written; the answer of success when the document of
    the month is written.  What is not followed is the export of a
    month whose dates are not all written YYYY-MM-DD. *)
Theorem route_add_record_saves (host : string) (AUTHORIZED_IPS : gset string)
    date category (amount : A) type note fs :
  (host ∉ AUTHORIZED_IPS →
   Main.route_add_record host AUTHORIZED_IPS date category amount type note fs
   = (fs, Main.AccessDenied))
  ∧ (host ∈ AUTHORIZED_IPS →
     Ledger.csv_place (substring 0 7 date) = Ledger.NoSuchDirectory →
     Main.route_add_record host AUTHORIZED_IPS date category amount type note fs
     = (fs, Main.Failed))
  ∧ (host ∈ AUTHORIZED_IPS →
     Ledger.csv_place (substring 0 7 date) = Ledger.InDataDir →
     fst (Main.route_add_record host AUTHORIZED_IPS date category amount type note fs)
     = Ledger.add_record date category amount type note fs
     ∧ last (default [] (Ledger.add_record date category amount type note fs
                         !! substring 0 7 date))
       = Some (CsvRow date category amount type note)
     ∧ (snd (Main.route_add_record host AUTHORIZED_IPS date category amount type note fs)
        = Main.Failed
        ↔ ∃ charts,
            snd (Ledger.export_md (substring 0 7 date)
                   (Ledger.add_record date category amount type note fs))
            = Ledger.Raised charts)
     ∧ (snd (Main.route_add_record host AUTHORIZED_IPS date category amount type note fs)
        = Main.Succeeded
        ↔ ∃ rep,
            snd (Ledger.export_md (substring 0 7 date)
                   (Ledger.add_record date category amount type note fs))
            = Ledger.Exported rep)
     ∧ (snd (Main.route_add_record host AUTHORIZED_IPS date category amount type note fs)
        = Main.Undetermined
        ↔ to_timestamps
            (LedgerPro.get_monthly_data (substring 0 7 date)
               (Ledger.add_record date category amount type note fs))
          = NotFollowed)).
Proof.
  unfold Main.route_add_record, Main.verify_ip_authorization.
  split; [intros Hhost; by rewrite bool_decide_eq_false_2 |].
  split; [intros Hhost Hplace; by rewrite bool_decide_eq_true_2, Hplace |].
  intros Hhost Hplace. rewrite bool_decide_eq_true_2, Hplace by done.
  assert (fst (Ledger.export_md (substring 0 7 date)
                 (Ledger.add_record date category amount type note fs))
          = Ledger.add_record date category amount type note fs) as Hfs.
  { rewrite export_md_fst. unfold Ledger.ensure_csv, Ledger.get_csv_path.
    by rewrite add_record_lookup. }
  assert (snd (Ledger.export_md (substring 0 7 date)
                 (Ledger.add_record date category amount type note fs))
          ≠ Ledger.NoRecords) as Hrows.
  { intros H. apply export_md_NoRecords in H.
    rewrite get_monthly_data_add_record in H. by apply app_nil in H as [_ [=]]. }
  assert (snd (Ledger.export_md (substring 0 7 date)
                 (Ledger.add_record date category amount type note fs))
          = Ledger.Unknown
          ↔ to_timestamps
              (LedgerPro.get_monthly_data (substring 0 7 date)
                 (Ledger.add_record date category amount type note fs))
            = NotFollowed) as Hunknown.
  { rewrite export_md_Unknown, get_monthly_data_add_record.
    split; [by intros [_ ?] | intros ?; split; [| done]].
    intros Hnil. by apply app_nil in Hnil as [_ [=]]. }
  destruct (Ledger.export_md _ _) as [fs' [| charts | | rep]] eqn:E;
    cbn [fst snd] in *; subst fs'; [done | ..];
    (split; [done |]); (split; [rewrite add_record_lookup; apply last_snoc |]);
    rewrite <- Hunknown.
  - split; [split; [by eexists | done] |].
    split; [split; [discriminate | by intros [? [=]]] | done].
  - split; [split; [discriminate | by intros [? [=]]] |].
    split; [split; [discriminate | by intros [? [=]]] | done].
  - split; [split; [discriminate | by intros [? [=]]] |].
    split; [split; [by eexists | done] | done].
Qed.

End web_routes.

(** The form on three dates, from an authorised device and an empty
    store: a date with slashes names a file below a directory that is
    not there, and nothing is stored; a date no timestamp holds is
    stored, then the export raises; a date with a time of day is stored,
    and what the export makes of it is not followed. *)
Example route_add_record_on_three_dates :
  Main.route_add_record (QS := merge_quicksort) "10.0.0.1" {["10.0.0.1"]}
    "2025/09/01" "food" 25 "expense" "" (∅ : store Z)
  = (∅, Main.Failed)
  ∧ Main.route_add_record (QS := merge_quicksort) "10.0.0.1" {["10.0.0.1"]}
      "3000-01-01" "food" 25 "expense" "" (∅ : store Z)
    = ({[ "3000-01" := [CsvRow "3000-01-01" "food" 25 "expense" ""] ]}, Main.Failed)
  ∧ Main.route_add_record (QS := merge_quicksort) "10.0.0.1" {["10.0.0.1"]}
      "2025-09-05 10:30" "food" 25 "expense" "" (∅ : store Z)
    = ({[ "2025-09" := [CsvRow "2025-09-05 10:30" "food" 25 "expense" ""] ]},
       Main.Undetermined).
Proof. repeat split; by vm_compute. Qed.

(** ** The [report] and [export] commands *)

Section commands.
Context {A : Type} {Am : Amount A} {AL : AmountLaws A}.
Context {QS : Quicksort} {QSS : QuicksortSpec}.
Context {PP : Pyplot A}.
Context {LPI : LedgerMain.LedgerProImport}.
Implicit Types (fs : store A).

(** X25.  [--range START END], for months of years of four digits and
    without [--months].  When ledger_pro was not imported, as it is not
    when the file is run as a script, the command ends with the message
    that ledger_pro.py is not available.  Otherwise a range that ends in
    December 9999 ends the command with the message about the format of
    the range; a range whose start comes after its end with the warning
    that no month was given, and no report; any other range goes to the
    functions for several months with the months of the range, also
    when it is one month. *)
Theorem commands_on_a_range today (a : LedgerMain.args) fs (sy sm ey em : Z) :
  1000 <= sy <= 9999 → 1 <= sm <= 12 → 1000 <= ey <= 9999 → 1 <= em <= 12 →
  LedgerMain.arg_months a = None →
  LedgerMain.arg_range a
  = Some (strftime_Ym (Date sy sm 1), strftime_Ym (Date ey em 1)) →
  LedgerMain.main_report today a fs
  = (if LedgerMain.ledger_pro_imported
     then if decide (ey = 9999 ∧ em = 12) then LedgerMain.FormatError
          else if decide (month_index (Date ey em 1) < month_index (Date sy sm 1))
               then LedgerMain.NoMonths
               else LedgerMain.MultiMonth
                      (LedgerPro.generate_multi_month_report
                         (spec_months_in_range (Date sy sm 1) (Date ey em 1)) fs)
     else LedgerMain.Unavailable)
  ∧ LedgerMain.main_export today a fs
    = (if LedgerMain.ledger_pro_imported
       then if decide (ey = 9999 ∧ em = 12) then LedgerMain.FormatError
            else if decide (month_index (Date ey em 1) < month_index (Date sy sm 1))
                 then LedgerMain.NoMonths
                 else LedgerMain.MultiMonth
                        (LedgerPro.export_multi_month_md
                           (spec_months_in_range (Date sy sm 1) (Date ey em 1)) None fs)
       else LedgerMain.Unavailable).
Proof.
  intros Hsy Hsm Hey Hem Hmonths Hrange.
  unfold LedgerMain.main_report, LedgerMain.main_export, LedgerMain.months_to_process,
    LedgerMain.multi_month_report, LedgerMain.multi_month_export,
    LedgerMain.options_given.
  rewrite Hmonths, Hrange.
  destruct LedgerMain.ledger_pro_imported; [| done].
  rewrite get_months_in_range_well_formed by lia.
  case_decide as Hend; [done |].
  pose proof (length_seqZ (month_index (Date sy sm 1))
                (month_index (Date ey em 1) - month_index (Date sy sm 1) + 1)) as Hlen.
  unfold spec_months_in_range in *.
  destruct (seqZ _ _) as [| i [| j l]] eqn:E; cbn [length map] in *;
    case_decide; try done; lia.
Qed.

(** X26.  The month -1 is the month before today's: the command [report -1]
    prints the report of that one month, and [export -1] exports it;
    in January it is the December of the year before. *)
Theorem commands_on_last_month today fs :
  valid_date today → 1000 < year today →
  LedgerMain.main_report today (LedgerMain.Args (Some "-1") None None None) fs
  = LedgerMain.SingleMonth
      (Ledger.generate_report (strftime_Ym (month_of_index (month_index today - 1))) fs)
  ∧ LedgerMain.main_export today (LedgerMain.Args (Some "-1") None None None) fs
    = LedgerMain.SingleMonth
        (Ledger.export_md (strftime_Ym (month_of_index (month_index today - 1))) fs).
Proof.
  rewrite valid_date_bounds. intros (Hy & Hm & Hd) Hy'.
  assert (LedgerMain.last_month today
          = Some (strftime_Ym (month_of_index (month_index today - 1)))) as Hlast.
  { unfold LedgerMain.last_month, replace_day1. cbn [sub_days]. unfold prev_day, MINYEAR.
    cbn [year month day]. change (1 <? 1) with false. cbv iota.
    unfold month_of_index, month_index, strftime_Ym.
    destruct (Z.ltb_spec 1 (month today)); cbn [year month].
    - destruct (Z.ltb_spec (year today) 1); [lia |]. cbn [fmap option_fmap option_map year month].
      do 2 f_equal; [f_equal | do 2 f_equal]; Z.div_mod_to_equations; lia.
    - destruct (Z.ltb_spec (year today - 1) 1); [lia |].
      cbn [fmap option_fmap option_map year month].
      do 2 f_equal; [f_equal | do 2 f_equal]; Z.div_mod_to_equations; lia. }
  unfold LedgerMain.main_report, LedgerMain.main_export, LedgerMain.months_to_process,
    LedgerMain.options_given.
  cbn [LedgerMain.arg_months LedgerMain.arg_range LedgerMain.arg_year LedgerMain.arg_month
       truthy orb].
  rewrite bool_decide_eq_true_2 by done. by rewrite Hlast.
Qed.


End commands.

(** ** The statements above on concrete ledgers *)




Lemma strptime_of_strftime_witness :
  valid_date (Date 2025 9 1) ∧ 1000 <= year (Date 2025 9 1)
  ∧ strptime (strftime_Ymd (Date 2025 9 1)) = Some (Date 2025 9 1).
Proof.
  assert (valid_date (Date 2025 9 1)) as H1 by reflexivity.
  assert (1000 <= year (Date 2025 9 1)) as H2 by (cbn; lia).
  split; [exact H1 |]. split; [exact H2 |].
  exact (strptime_of_strftime (Date 2025 9 1) H1 H2).
Defined.

Lemma main_add_keeps_month_tables_witness :
  valid_date (Date 2025 3 1) ∧ 1000 < year (Date 2025 3 1)
  ∧ month_table_inv ledger_weeks
  ∧ month_table_inv
      (fst (Ledger.main_add (Date 2025 3 1) "-1" "food" 25 "expense" "" ledger_weeks)).
Proof.
  assert (valid_date (Date 2025 3 1)) as H1 by reflexivity.
  assert (1000 < year (Date 2025 3 1)) as H2 by (cbn; lia).
  assert (month_table_inv ledger_weeks) as H3 by compute_done.
  split; [exact H1 |]. split; [exact H2 |]. split; [exact H3 |].
  exact (main_add_keeps_month_tables (Date 2025 3 1) "-1" "food" 25 "expense" ""
           ledger_weeks H1 H2 H3).
Defined.

Lemma main_add_shortcuts_witness :
  valid_date (Date 2025 3 1) ∧ 1000 < year (Date 2025 3 1)
  ∧ (1%nat, "-1") ∈ [(0%nat, "1"); (1%nat, "-1"); (2%nat, "-2"); (3%nat, "-3")]
  ∧ ∃ d, sub_days 1 (Date 2025 3 1) = Some d
      ∧ valid_date d
      ∧ Ledger.main_add (Date 2025 3 1) "-1" "food" 25 "expense" "" (∅ : store Z)
        = (Ledger.add_record (strftime_Ymd d) "food" 25 "expense" "" ∅, Ledger.Added)
      ∧ last (default [] (fst (Ledger.main_add (Date 2025 3 1) "-1" "food" 25 "expense" ""
                                 (∅ : store Z))
                          !! strftime_Ym d))
        = Some (CsvRow (strftime_Ymd d) "food" 25 "expense" "").
Proof.
  assert (valid_date (Date 2025 3 1)) as H1 by reflexivity.
  assert (1000 < year (Date 2025 3 1)) as H2 by (cbn; lia).
  assert ((1%nat, "-1") ∈ [(0%nat, "1"); (1%nat, "-1"); (2%nat, "-2"); (3%nat, "-3")])
    as H3 by compute_done.
  split; [exact H1 |]. split; [exact H2 |]. split; [exact H3 |].
  exact (main_add_shortcuts (Date 2025 3 1) 1 "-1" "food" 25 "expense" "" ∅ H1 H2 H3).
Defined.

Lemma export_md_charts_witness :
  PyplotSpec Z
  ∧ ∃ rep,
    snd (Ledger.export_md (QS := merge_quicksort) "2025-09" ledger_weeks)
    = Ledger.Exported rep
    ∧ Forall (λ w, pie_raises (values (Ledger.weekly_expense_summary w)) = false
                   ∧ Forall (λ x, fle fzero (snd x) = true)
                       (Ledger.weekly_expense_summary w))
        (Ledger.weekly_expense_md rep)
    ∧ (Ledger.expense_summary rep ≠ [] →
       pie_raises (values (Ledger.expense_summary rep)) = false)
    ∧ Forall (λ x, fle fzero (snd x) = true) (Ledger.expense_summary rep)
    ∧ Ledger.pie_path rep
      = (if decide (Exists (λ r, r_type r = Some "expense" ∧ has_category r)
                      (Ledger.listing rep))
         then Some (Ledger.Pie "2025-09") else None)
    ∧ Ledger.line_path rep
      = (if decide (Exists (λ r, r_type r = Some "expense") (Ledger.listing rep))
         then Some (Ledger.Line "2025-09") else None)
    ∧ Ledger.daily_line_path rep
      = (if decide (Exists (λ r, r_type r = Some "expense") (Ledger.listing rep))
         then Some (Ledger.DailyLine "2025-09") else None)
    ∧ Forall (week_section_inv "2025-09") (Ledger.weekly_expense_md rep)
    ∧ Ledger.charts_generated (Ledger.Exported rep)
      = map (λ w, Ledger.WeekPie "2025-09" (Ledger.week_num w)) (Ledger.weekly_expense_md rep)
        ++ option_list (Ledger.pie_path rep) ++ option_list (Ledger.line_path rep)
        ++ option_list (Ledger.daily_line_path rep).
Proof.
  assert (∃ rep, snd (Ledger.export_md (QS := merge_quicksort) "2025-09" ledger_weeks)
                 = Ledger.Exported rep) as [rep H] by (vm_compute; by eexists).
  split; [exact Z_pyplot_spec |].
  exists rep. split; [exact H |].
  exact (export_md_charts (QS := merge_quicksort) "2025-09" ledger_weeks rep H).
Defined.

Lemma export_md_agrees_with_generate_report_witness :
  ∃ rep,
    snd (Ledger.export_md (QS := merge_quicksort) "2025-09" ledger_weeks)
    = Ledger.Exported rep
    ∧ ∃ r, snd (Ledger.generate_report (QS := merge_quicksort) "2025-09" ledger_weeks)
           = Some r
        ∧ Ledger.income r = Ledger.income_total rep
        ∧ Ledger.expense r = Ledger.expense_total rep
        ∧ Ledger.net r = Ledger.net_total rep
        ∧ Ledger.summary r
          = sort_values_desc (QS := merge_quicksort) (Ledger.expense_summary rep).
Proof.
  assert (∃ rep, snd (Ledger.export_md (QS := merge_quicksort) "2025-09" ledger_weeks)
                 = Ledger.Exported rep) as [rep H] by (vm_compute; by eexists).
  exists rep. split; [exact H |].
  exact (export_md_agrees_with_generate_report (QS := merge_quicksort)
           "2025-09" ledger_weeks rep H).
Defined.

Lemma weekly_totals_add_up_witness :
  let df := [Row (Date 2025 9 5) (Some "food") 10 (Some "expense") (Some "lunch");
             Row (Date 2025 9 9) (Some "transport") 20 (Some "expense") (Some "bus")] in
  AmountLaws Z ∧ @QuicksortSpec merge_quicksort
  ∧ to_timestamps (LedgerPro.get_monthly_data "2025-09" ledger_weeks) = Returns df
  ∧ Forall (λ r, year (r_date r) = 2025 ∧ month (r_date r) = 9) df
  ∧ ∃ rep,
      snd (Ledger.export_md (QS := merge_quicksort) "2025-09" ledger_weeks)
      = Ledger.Exported rep
      ∧ Series_sum (map Ledger.weekly_total (Ledger.weekly_expense_md rep))
        = amount_sum (filter has_category (of_type "expense" df))
      ∧ Series_sum (map Ledger.weekly_total (Ledger.weekly_expense_md rep))
        = Series_sum (values (Ledger.expense_summary rep)).
Proof.
  intros df.
  assert (to_timestamps (LedgerPro.get_monthly_data "2025-09" ledger_weeks) = Returns df)
    as H1 by (by vm_compute).
  assert (Forall (λ r, year (r_date r) = 2025 ∧ month (r_date r) = 9) df)
    as H2 by (by repeat constructor).
  assert (∃ rep, snd (Ledger.export_md (QS := merge_quicksort) "2025-09" ledger_weeks)
                 = Ledger.Exported rep) as [rep H3] by (vm_compute; by eexists).
  split; [exact Z_amount_laws |]. split; [exact merge_quicksort_spec |].
  split; [exact H1 |]. split; [exact H2 |].
  exists rep. split; [exact H3 |].
  exact (weekly_totals_add_up (QS := merge_quicksort) (QSS := merge_quicksort_spec)
           "2025-09" ledger_weeks df 2025 9 rep H1 H2 H3).
Defined.

Lemma get_months_in_range_months_witness :
  1000 <= 2025 <= 9999 ∧ 1 <= 11 <= 12 ∧ 1000 <= 2026 <= 9999 ∧ 1 <= 2 <= 12
  ∧ ¬ (2026 = 9999 ∧ 2 = 12)
  ∧ ∃ months,
      LedgerPro.get_months_in_range (strftime_Ym (Date 2025 11 1))
        (strftime_Ym (Date 2026 2 1))
      = Some (LedgerPro.Returned months)
      ∧ length months
        = Z.to_nat (month_index (Date 2026 2 1) - month_index (Date 2025 11 1) + 1)
      ∧ (∀ (i : nat), (i < length months)%nat →
           months !! i
           = Some (strftime_Ym
                     (month_of_index (month_index (Date 2025 11 1) + Z.of_nat i))))
      ∧ (month_index (Date 2025 11 1) <= month_index (Date 2026 2 1) →
           head months = Some (strftime_Ym (Date 2025 11 1))
           ∧ last months = Some (strftime_Ym (Date 2026 2 1)))
      ∧ (month_index (Date 2026 2 1) < month_index (Date 2025 11 1) → months = []).
Proof.
  assert (1000 <= 2025 <= 9999) as H1 by lia.
  assert (1 <= 11 <= 12) as H2 by lia.
  assert (1000 <= 2026 <= 9999) as H3 by lia.
  assert (1 <= 2 <= 12) as H4 by lia.
  assert (¬ (2026 = 9999 ∧ 2 = 12)) as H5 by lia.
  split; [exact H1 |]. split; [exact H2 |]. split; [exact H3 |]. split; [exact H4 |].
  split; [exact H5 |].
  exact (get_months_in_range_months 2025 11 2026 2 H1 H2 H3 H4 H5).
Defined.

Lemma get_months_in_year_is_the_range_witness :
  1000 <= 2025 <= 9998
  ∧ LedgerPro.get_months_in_range (strftime_Ym (Date 2025 1 1)) (strftime_Ym (Date 2025 12 1))
    = Some (LedgerPro.Returned (LedgerPro.get_months_in_year (pad4 2025)))
  ∧ LedgerPro.get_months_in_range (strftime_Ym (Date 9999 1 1)) (strftime_Ym (Date 9999 12 1))
    = Some LedgerPro.ValueError
  ∧ length (LedgerPro.get_months_in_year (pad4 9999)) = 12%nat.
Proof.
  assert (1000 <= 2025 <= 9998) as H by lia.
  split; [exact H |]. exact (get_months_in_year_is_the_range 2025 H).
Defined.

Lemma multi_month_totals_witness :
  ∃ rep,
    LedgerPro.generate_multi_month_report (QS := merge_quicksort)
      ["2025-02"; "2025-01"] ledger_two_months = Some rep
    ∧ LedgerPro.total_income_all_months rep
      = Series_sum (map LedgerPro.ms_income (LedgerPro.monthly_summary_data rep))
    ∧ LedgerPro.total_expense_all_months rep
      = Series_sum (map LedgerPro.ms_expense (LedgerPro.monthly_summary_data rep))
    ∧ map (λ p, LedgerPro.MonthlySummary (LedgerPro.mp_month p) (LedgerPro.mp_income p)
                  (LedgerPro.mp_expense p) (LedgerPro.mp_net p)) (LedgerPro.printed rep)
      = LedgerPro.monthly_summary_data rep.
Proof.
  assert (∃ rep, LedgerPro.generate_multi_month_report (QS := merge_quicksort)
                   ["2025-02"; "2025-01"] ledger_two_months = Some rep)
    as [rep H] by (vm_compute; by eexists).
  exists rep. split; [exact H |].
  exact (multi_month_totals (QS := merge_quicksort) ["2025-02"; "2025-01"]
           ledger_two_months rep H).
Defined.

Lemma multi_month_agrees_with_generate_report_witness :
  AmountLaws Z ∧ @QuicksortSpec merge_quicksort
  ∧ ∃ rep,
      LedgerPro.generate_multi_month_report (QS := merge_quicksort)
        ["2025-02"; "2025-01"] ledger_two_months = Some rep
      ∧ Forall (λ e, ∃ r, snd (Ledger.generate_report (QS := merge_quicksort)
                                 (LedgerPro.ms_month e) ledger_two_months) = Some r
                       ∧ Ledger.income r = LedgerPro.ms_income e
                       ∧ Ledger.expense r = LedgerPro.ms_expense e
                       ∧ Ledger.net r = LedgerPro.ms_net e)
               (LedgerPro.monthly_summary_data rep).
Proof.
  assert (∃ rep, LedgerPro.generate_multi_month_report (QS := merge_quicksort)
                   ["2025-02"; "2025-01"] ledger_two_months = Some rep)
    as [rep H] by (vm_compute; by eexists).
  split; [exact Z_amount_laws |]. split; [exact merge_quicksort_spec |].
  exists rep. split; [exact H |].
  exact (multi_month_agrees_with_generate_report (QS := merge_quicksort)
           (QSS := merge_quicksort_spec) ["2025-02"; "2025-01"] ledger_two_months rep H).
Defined.

Lemma access_log_stays_short_witness :
  let reqs := map (λ i, Request "10.0.0.1" "/ping" (i * 1000000)) (seqZ 0 12) in
  map_Forall (λ _ log, (length log <= Api.MAX_REQUESTS)%nat) (∅ : gmap string (list Z))
  ∧ map_Forall (λ _ log, (length log <= Api.MAX_REQUESTS)%nat) (fst (serve reqs ∅)).
Proof.
  intros reqs.
  assert (map_Forall (λ _ log, (length log <= Api.MAX_REQUESTS)%nat)
            (∅ : gmap string (list Z))) as H by apply map_Forall_empty.
  split; [exact H |]. exact (access_log_stays_short reqs ∅ H).
Defined.

Lemma rate_limit_witness :
  let reqs := map (λ i, Request "10.0.0.1" "/ping" (i * 1000000)) (seqZ 0 10) in
  let req := Request "10.0.0.1" "/ping" 10000000 in
  StronglySorted (λ a b, arrival a <= arrival b) (reqs ++ [req])
  ∧ ¬ is_blocked (url_path req)
  ∧ snd (Api.block_malicious_requests (client_host req) (url_path req) (arrival req)
           (fst (serve reqs ∅)))
    = if decide (length (filter (in_window (arrival req))
                           (passed (client_host req) (snd (serve reqs ∅))))
                 < Api.MAX_REQUESTS)%nat
      then Api.CallNext else Api.TooManyRequests.
Proof.
  intros reqs req.
  assert (StronglySorted (λ a b, arrival a <= arrival b) (reqs ++ [req])) as H1.
  { unfold reqs, req. cbn [seqZ]. repeat first [constructor | (cbn; lia)]. }
  assert (¬ is_blocked (url_path req)) as H2.
  { intros H. apply blocked_spec in H. discriminate H. }
  split; [exact H1 |]. split; [exact H2 |].
  exact (rate_limit reqs req H1 H2).
Defined.

Lemma password_of_a_year_witness :
  contains "_" "2025" = false
  ∧ Main.correct_password ("2025" +:+ "_annual") = Some ("pwdtemp" +:+ slice_from 2 "2025").
Proof.
  assert (contains "_" "2025" = false) as H by reflexivity.
  split; [exact H |]. exact (password_of_a_year "2025" H).
Defined.

Lemma list_categories_add_record_witness :
  Ledger.csv_place (substring 0 7 "2025-10-01") = Ledger.InDataDir
  ∧ map_Forall (λ _ f, Forall plain_row f) ledger_weeks
  ∧ plain_row (CsvRow "2025-10-01" "rent" (700 : Z) "expense" "")
  ∧ ("rent" ∈ Ledger.list_categories
                (Ledger.add_record "2025-10-01" "rent" 700 "expense" "" ledger_weeks)
     ↔ "rent" ∈ Ledger.list_categories ledger_weeks
       ∨ ("rent" = "rent" ∧ "rent" ∉ STR_NA_VALUES)).
Proof.
  assert (Ledger.csv_place (substring 0 7 "2025-10-01") = Ledger.InDataDir) as H1
    by reflexivity.
  assert (map_Forall (λ _ f, Forall plain_row f) ledger_weeks) as H2 by compute_done.
  assert (plain_row (CsvRow "2025-10-01" "rent" (700 : Z) "expense" "")) as H3
    by compute_done.
  split; [exact H1 |]. split; [exact H2 |]. split; [exact H3 |].
  exact (list_categories_add_record "2025-10-01" "rent" 700 "expense" "" ledger_weeks
           "rent" H1 H2 H3).
Defined.

(** The scenario of the specification for C5. *)
Lemma merge_of_january_and_february :
  LedgerPro.all_expense_categories
    <$> LedgerPro.generate_multi_month_report (QS := merge_quicksort)
          ["2025-01"; "2025-02"] ledger_two_months
  = Some {[ "food" := 150; "transport" := 20 ]}.
Proof. by vm_compute. Qed.


Lemma commands_on_a_range_witness :
  let a := LedgerMain.Args None None (Some ("2025-03", "2025-01")) None in
  1000 <= 2025 <= 9999 ∧ 1 <= 3 <= 12 ∧ 1000 <= 2025 <= 9999 ∧ 1 <= 1 <= 12
  ∧ LedgerMain.arg_months a = None
  ∧ LedgerMain.arg_range a = Some (strftime_Ym (Date 2025 3 1), strftime_Ym (Date 2025 1 1))
  ∧ LedgerMain.main_report (QS := merge_quicksort) (LPI := true) (Date 2025 9 2) a
      ledger_two_months
    = LedgerMain.NoMonths
  ∧ LedgerMain.main_export (QS := merge_quicksort) (LPI := true) (Date 2025 9 2) a
      ledger_two_months
    = LedgerMain.NoMonths.
Proof.
  intros a.
  assert (1000 <= 2025 <= 9999) as H1 by lia.
  assert (1 <= 3 <= 12) as H2 by lia.
  assert (1 <= 1 <= 12) as H3 by lia.
  assert (LedgerMain.arg_months a = None) as H4 by reflexivity.
  assert (LedgerMain.arg_range a
          = Some (strftime_Ym (Date 2025 3 1), strftime_Ym (Date 2025 1 1))) as H5
    by reflexivity.
  split; [exact H1 |]. split; [exact H2 |]. split; [exact H1 |]. split; [exact H3 |].
  split; [exact H4 |]. split; [exact H5 |].
  exact (commands_on_a_range (QS := merge_quicksort) (LPI := true) (Date 2025 9 2) a
           ledger_two_months 2025 3 2025 1 H1 H2 H1 H3 H4 H5).
Defined.

Lemma commands_on_last_month_witness :
  valid_date (Date 2026 1 15) ∧ 1000 < year (Date 2026 1 15)
  ∧ LedgerMain.main_report (QS := merge_quicksort) (LPI := false) (Date 2026 1 15)
      (LedgerMain.Args (Some "-1") None None None) ledger_two_months
    = LedgerMain.SingleMonth
        (Ledger.generate_report (QS := merge_quicksort)
           (strftime_Ym (month_of_index (month_index (Date 2026 1 15) - 1)))
           ledger_two_months)
  ∧ LedgerMain.main_export (QS := merge_quicksort) (LPI := false) (Date 2026 1 15)
      (LedgerMain.Args (Some "-1") None None None) ledger_two_months
    = LedgerMain.SingleMonth
        (Ledger.export_md (QS := merge_quicksort)
           (strftime_Ym (month_of_index (month_index (Date 2026 1 15) - 1)))
           ledger_two_months).
Proof.
  assert (valid_date (Date 2026 1 15)) as H1 by reflexivity.
  assert (1000 < year (Date 2026 1 15)) as H2 by (cbn; lia).
  split; [exact H1 |]. split; [exact H2 |].
  exact (commands_on_last_month (QS := merge_quicksort) (LPI := false) (Date 2026 1 15)
           ledger_two_months H1 H2).
Defined.


(** Run as a script, [python ledger.py report --year 2025]: ledger_pro
    is not imported, and the commands on a range, on a year and on
    several months end with the message that it is not available. *)
Example commands_without_ledger_pro :
  LedgerMain.main_report (QS := merge_quicksort) (LPI := false) (Date 2025 9 2)
    (LedgerMain.Args None None None (Some "2025")) ledger_two_months
  = LedgerMain.Unavailable
  ∧ LedgerMain.main_export (QS := merge_quicksort) (LPI := false) (Date 2025 9 2)
      (LedgerMain.Args None None (Some ("2025-01", "2025-02")) None) ledger_two_months
    = LedgerMain.Unavailable
  ∧ LedgerMain.main_report (QS := merge_quicksort) (LPI := false) (Date 2025 9 2)
      (LedgerMain.Args None (Some ["2025-01"; "2025-02"]) None None) ledger_two_months
    = LedgerMain.Unavailable.
Proof. repeat split. Qed.
